(** * GERG type validation: a shallow embedding of the validation engine

    The development follows the layout of the package
    [gerg_type_validation]:

    - [validation_config.py]    -> [ValidationConfig]
    - [validators.py]           -> [TypeValidator], [RangeValidator],
                                   [LengthValidator], [PathValidator]
    - [type_validation_engine.py] -> [TypeValidationEngine] and its methods
    - [validation_context.py]   -> [ValidationContext], [__enter__], [__exit__]
    - [factory_functions.py]    -> [create_validation_engine],
                                   [create_lenient_engine]
    - [assertions.py]           -> module [Assertions] (the default engine)

    Python values, classes and exceptions are modelled first; a raised
    exception is the [Raise] branch of [result]. *)

From Stdlib Require Import String Ascii List ZArith QArith Bool Lia.
From Stdlib Require Import DecimalString.
Import ListNotations.

Local Open Scope Z_scope.
Local Open Scope list_scope.
Local Open Scope string_scope.

(* ================================================================== *)
(** * Python classes *)
(* ================================================================== *)

(** The classes the engine meets: the built-in ones it names, the pathlib
    hierarchy, the exception classes it raises or catches, and user classes
    declared with a single base ([class name(base)] in module [module_]). *)
Inductive PyType : Type :=
| ty_object
| ty_NoneType
| ty_int
| ty_bool
| ty_float
| ty_str
| ty_bytes
| ty_list
| ty_tuple
| ty_dict
| ty_PurePath
| ty_PurePosixPath
| ty_Path
| ty_PosixPath
| ty_BaseException
| ty_Exception
| ty_AssertionError
| ty_ValueError
| ty_TypeError
| ty_OSError
| ty_LookupError
| ty_KeyError
| UserClass (module_ name : string) (base : PyType).

Lemma PyType_eq_dec (a b : PyType) : {a = b} + {a <> b}.
Proof. decide equality; apply string_dec. Defined.

Definition ty_eqb (a b : PyType) : bool :=
  if PyType_eq_dec a b then true else false.

(** [t.__name__] *)
Definition ty_name (t : PyType) : string :=
  match t with
  | ty_object => "object"
  | ty_NoneType => "NoneType"
  | ty_int => "int"
  | ty_bool => "bool"
  | ty_float => "float"
  | ty_str => "str"
  | ty_bytes => "bytes"
  | ty_list => "list"
  | ty_tuple => "tuple"
  | ty_dict => "dict"
  | ty_PurePath => "PurePath"
  | ty_PurePosixPath => "PurePosixPath"
  | ty_Path => "Path"
  | ty_PosixPath => "PosixPath"
  | ty_BaseException => "BaseException"
  | ty_Exception => "Exception"
  | ty_AssertionError => "AssertionError"
  | ty_ValueError => "ValueError"
  | ty_TypeError => "TypeError"
  | ty_OSError => "OSError"
  | ty_LookupError => "LookupError"
  | ty_KeyError => "KeyError"
  | UserClass _ name _ => name
  end.

(** [str(t)], which is [<class 'module.name'>]; built-in classes print
    without a module. *)
Definition ty_str_of (t : PyType) : string :=
  match t with
  | ty_PurePath | ty_PurePosixPath | ty_Path | ty_PosixPath =>
      "<class 'pathlib." ++ ty_name t ++ "'>"
  | UserClass m name _ => "<class '" ++ m ++ "." ++ name ++ "'>"
  | _ => "<class '" ++ ty_name t ++ "'>"
  end.

(** [t.__mro__]: the class itself, then its ancestors up to [object]. *)
Fixpoint mro (t : PyType) : list PyType :=
  t :: match t with
       | ty_object => []
       | ty_bool => [ty_int; ty_object]
       | ty_PurePosixPath => [ty_PurePath; ty_object]
       | ty_Path => [ty_PurePath; ty_object]
       | ty_PosixPath => [ty_Path; ty_PurePosixPath; ty_PurePath; ty_object]
       | ty_Exception => [ty_BaseException; ty_object]
       | ty_AssertionError | ty_ValueError | ty_TypeError | ty_OSError
       | ty_LookupError =>
           [ty_Exception; ty_BaseException; ty_object]
       | ty_KeyError =>
           [ty_LookupError; ty_Exception; ty_BaseException; ty_object]
       | UserClass _ _ base => mro base
       | _ => [ty_object]
       end.

(** [issubclass(a, b)] *)
Definition issubclass (a b : PyType) : bool := existsb (ty_eqb b) (mro a).

(* ================================================================== *)
(** * Python values *)
(* ================================================================== *)

(** A float is the number it denotes, or one of the IEEE special values.
    Comparisons between ints and floats are exact in Python, so the
    rational is all a comparison looks at. *)
Inductive PyFloat : Type :=
| FNan
| FInf (negative : bool)
| FFin (q : Q).

(** Text ([str]) is a sequence of code points below 256; [bytes] is kept
    as the same sequence of octets. *)
#[warnings="-register-all"]
Inductive PyValue : Type :=
| VNone
| VBool (b : bool)
| VInt (z : Z)
| VFloat (f : PyFloat)
| VStr (s : string)
| VBytes (s : string)
| VList (items : list PyValue)
| VTuple (items : list PyValue)
| VDict (items : list (PyValue * PyValue))
| VPath (text : string)
| VObject (cls : PyType).

(** [type(v)]. A [VObject] is a plain instance of a user-defined class. *)
Definition type_of (v : PyValue) : PyType :=
  match v with
  | VNone => ty_NoneType
  | VBool _ => ty_bool
  | VInt _ => ty_int
  | VFloat _ => ty_float
  | VStr _ => ty_str
  | VBytes _ => ty_bytes
  | VList _ => ty_list
  | VTuple _ => ty_tuple
  | VDict _ => ty_dict
  | VPath _ => ty_PosixPath
  | VObject cls => cls
  end.

(** [isinstance(v, t)] *)
Definition isinstance (v : PyValue) (t : PyType) : bool :=
  issubclass (type_of v) t.

(** [isinstance(v, (t1, ..., tn))] and [any(isinstance(v, t) for t in ts)] *)
Definition isinstance_any (v : PyValue) (ts : list PyType) : bool :=
  existsb (isinstance v) ts.

(* ------------------------------------------------------------------ *)
(** ** Exceptions and results *)

Record PyExc : Type := mkExc { exc_type : PyType; exc_msg : string }.

Inductive result (A : Type) : Type :=
| Ok (a : A)
| Raise (e : PyExc).
Arguments Ok {A} a.
Arguments Raise {A} e.

Definition bind {A B} (r : result A) (k : A -> result B) : result B :=
  match r with
  | Ok a => k a
  | Raise e => Raise e
  end.

Notation "x <- r ;; k" := (bind r (fun x => k))
  (at level 61, r at next level, right associativity).

(** [except (c1, ..., cn)] catches [e] when it is an instance of one of
    the listed classes. *)
Definition caught_by (cs : list PyType) (e : PyExc) : bool :=
  existsb (issubclass (exc_type e)) cs.

(** [try: r  except cs as e: handler(e)] *)
Definition try_except {A} (r : result A) (cs : list PyType)
           (handler : PyExc -> result A) : result A :=
  match r with
  | Ok a => Ok a
  | Raise e => if caught_by cs e then handler e else Raise e
  end.

Definition raises {A} (r : result A) : Prop := exists e, r = Raise e.

Definition is_ok {A} (r : result A) : bool :=
  match r with Ok _ => true | Raise _ => false end.

(* ================================================================== *)
(** * Text: the string operations the engine relies on *)
(* ================================================================== *)

Definition squote : ascii := ascii_of_nat 39.
Definition dquote : ascii := ascii_of_nat 34.
Definition backslash : ascii := ascii_of_nat 92.

Definition char (c : ascii) : string := String c EmptyString.

(** [needle in hay] for text *)
Definition occurs_in (needle hay : string) : Prop :=
  exists pre post, hay = pre ++ needle ++ post.

(** [str(n)] for an int *)
Definition str_of_Z (z : Z) : string := NilZero.string_of_int (Z.to_int z).

(** [len(s)] *)
Definition str_len (s : string) : Z := Z.of_nat (String.length s).

(** [c.isspace()] on the code points below 256 *)
Definition py_isspace (c : ascii) : bool :=
  let n := N_of_ascii c in
  (((9 <=? n) && (n <=? 13)) || ((28 <=? n) && (n <=? 32))
   || (n =? 133) || (n =? 160))%N.

Fixpoint lstrip (s : string) : string :=
  match s with
  | EmptyString => EmptyString
  | String c s' => if py_isspace c then lstrip s' else s
  end.

Fixpoint rstrip (s : string) : string :=
  match s with
  | EmptyString => EmptyString
  | String c s' =>
      match rstrip s' with
      | EmptyString => if py_isspace c then EmptyString else char c
      | r => String c r
      end
  end.

(** [s.strip()] *)
Definition strip (s : string) : string := rstrip (lstrip s).

(** Every character of [s] is whitespace (so also the empty text). *)
Fixpoint whitespace_only (s : string) : bool :=
  match s with
  | EmptyString => true
  | String c s' => py_isspace c && whitespace_only s'
  end.

Fixpoint string_forallb (p : ascii -> bool) (s : string) : bool :=
  match s with
  | EmptyString => true
  | String c s' => p c && string_forallb p s'
  end.

Fixpoint string_existsb (p : ascii -> bool) (s : string) : bool :=
  match s with
  | EmptyString => false
  | String c s' => p c || string_existsb p s'
  end.

(* ------------------------------------------------------------------ *)
(** ** [repr] of text and of lists of text *)

Definition hex_digit (n : N) : ascii :=
  match n with
  | 0 => "0" | 1 => "1" | 2 => "2" | 3 => "3" | 4 => "4"
  | 5 => "5" | 6 => "6" | 7 => "7" | 8 => "8" | 9 => "9"
  | 10 => "a" | 11 => "b" | 12 => "c" | 13 => "d" | 14 => "e"
  | _ => "f"
  end%N%char.

(** [str.isprintable] on the code points below 256 *)
Definition str_printable (c : ascii) : bool :=
  let n := N_of_ascii c in
  (((32 <=? n) && (n <? 127)) || ((161 <=? n) && negb (n =? 173)))%N.

(** printable for [bytes]: the ASCII range only *)
Definition bytes_printable (c : ascii) : bool :=
  let n := N_of_ascii c in ((32 <=? n) && (n <? 127))%N.

Definition escape_char (printable : ascii -> bool) (quote c : ascii) : string :=
  let n := N_of_ascii c in
  if Ascii.eqb c backslash then String backslash (char backslash)
  else if Ascii.eqb c quote then String backslash (char quote)
  else if (n =? 9)%N then String backslash "t"
  else if (n =? 10)%N then String backslash "n"
  else if (n =? 13)%N then String backslash "r"
  else if printable c then char c
  else String backslash
         (String "x" (String (hex_digit (n / 16)) (char (hex_digit (n mod 16))))).

Fixpoint escape (printable : ascii -> bool) (quote : ascii) (s : string) : string :=
  match s with
  | EmptyString => EmptyString
  | String c s' => escape_char printable quote c ++ escape printable quote s'
  end.

(** Python quotes with a single quote unless the text holds a single quote
    and no double quote. *)
Definition pick_quote (s : string) : ascii :=
  if string_existsb (Ascii.eqb squote) s && negb (string_existsb (Ascii.eqb dquote) s)
  then dquote else squote.

(** [repr(s)] for text *)
Definition repr_str (s : string) : string :=
  let q := pick_quote s in
  char q ++ escape str_printable q s ++ char q.

(** [repr(b)] for bytes, which is also [str(b)] *)
Definition repr_bytes (s : string) : string :=
  let q := pick_quote s in
  "b" ++ char q ++ escape bytes_printable q s ++ char q.

(** [repr] of a list given the [repr] of its items: [[a, b, c]] *)
Definition repr_list (items : list string) : string :=
  "[" ++ String.concat ", " items ++ "]".

(** [repr] of a tuple given the [repr] of its items: [(a, b)], [(a,)], [()] *)
Definition repr_tuple (items : list string) : string :=
  match items with
  | [x] => "(" ++ x ++ ",)"
  | _ => "(" ++ String.concat ", " items ++ ")"
  end.

(** A text that [repr] leaves as it is between single quotes: printable,
    without quote or backslash (every Python identifier is one). *)
Definition plain_char (c : ascii) : bool :=
  str_printable c && negb (Ascii.eqb c squote) && negb (Ascii.eqb c backslash).

Definition plain_text (s : string) : bool := string_forallb plain_char s.

(* ================================================================== *)
(** * Numbers, lengths and the host environment *)
(* ================================================================== *)

(** The numeric bounds a caller passes ([Optional[Union[int, float]]]). *)
Inductive PyNum : Type :=
| NInt (z : Z)
| NFloat (f : PyFloat).

Definition value_of_num (n : PyNum) : PyValue :=
  match n with
  | NInt z => VInt z
  | NFloat f => VFloat f
  end.

(** The number a value compares as; a bool compares as the int 0 or 1. *)
Definition as_num (v : PyValue) : option PyNum :=
  match v with
  | VBool b => Some (NInt (if b then 1 else 0))
  | VInt z => Some (NInt z)
  | VFloat f => Some (NFloat f)
  | _ => None
  end.

(** The ordered numbers: rationals with the two infinities. NaN has no
    place in the order. *)
Inductive ext : Type :=
| NegInf
| Fin (q : Q)
| PosInf.

Definition num_ext (n : PyNum) : option ext :=
  match n with
  | NInt z => Some (Fin (inject_Z z))
  | NFloat FNan => None
  | NFloat (FInf neg) => Some (if neg then NegInf else PosInf)
  | NFloat (FFin q) => Some (Fin q)
  end.

Definition Qltb (a b : Q) : bool := negb (Qle_bool b a).

Definition ext_ltb (a b : ext) : bool :=
  match a, b with
  | NegInf, NegInf => false
  | NegInf, _ => true
  | Fin _, NegInf => false
  | Fin x, Fin y => Qltb x y
  | Fin _, PosInf => true
  | PosInf, _ => false
  end.

Definition ext_leb (a b : ext) : bool :=
  match a, b with
  | NegInf, _ => true
  | Fin _, NegInf => false
  | Fin x, Fin y => Qle_bool x y
  | Fin _, PosInf => true
  | PosInf, PosInf => true
  | PosInf, _ => false
  end.

(** [a < b] and [a <= b] on numbers: false as soon as one side is NaN. *)
Definition num_ltb (a b : PyNum) : bool :=
  match num_ext a, num_ext b with
  | Some x, Some y => ext_ltb x y
  | _, _ => false
  end.

Definition num_leb (a b : PyNum) : bool :=
  match num_ext a, num_ext b with
  | Some x, Some y => ext_leb x y
  | _, _ => false
  end.

Definition is_nan (n : PyNum) : bool :=
  match n with
  | NFloat FNan => true
  | _ => false
  end.

Definition unsupported_operand (op : string) (v : PyValue) (n : PyNum) : PyExc :=
  mkExc ty_TypeError
        ("'" ++ op ++ "' not supported between instances of '"
             ++ ty_name (type_of v) ++ "' and '"
             ++ ty_name (type_of (value_of_num n)) ++ "'").

(** [value < bound]: a [TypeError] when the value is no number. *)
Definition py_lt (value : PyValue) (bound : PyNum) : result bool :=
  match as_num value with
  | Some n => Ok (num_ltb n bound)
  | None => Raise (unsupported_operand "<" value bound)
  end.

(** [value > bound] *)
Definition py_gt (value : PyValue) (bound : PyNum) : result bool :=
  match as_num value with
  | Some n => Ok (num_ltb bound n)
  | None => Raise (unsupported_operand ">" value bound)
  end.

(** [len(value)]: a [TypeError] for a value without a length. *)
Definition py_len (value : PyValue) : result Z :=
  match value with
  | VStr s | VBytes s => Ok (str_len s)
  | VList items | VTuple items => Ok (Z.of_nat (List.length items))
  | VDict items => Ok (Z.of_nat (List.length items))
  | _ => Raise (mkExc ty_TypeError
                      ("object of type '" ++ ty_name (type_of value)
                                          ++ "' has no len()"))
  end.

Inductive NodeKind : Type := File | Dir | Other.

(** What the interpreter and the operating system contribute and the
    package takes as given. *)
Record Host : Type := mkHost {
  (** [repr] of a finite float *)
  float_repr : Q -> string;
  (** [repr] of containers and plain objects *)
  repr_other : PyValue -> string;
  (** what the file system holds at a path *)
  node : string -> option NodeKind;
  (** the text of [Path(p).parent] *)
  parent_of : string -> string;
  (** the [OSError] text of [mkdir(parents=True, exist_ok=True)], if it fails *)
  mkdir_error : string -> option string
}.

Definition str_of_float (h : Host) (f : PyFloat) : string :=
  match f with
  | FNan => "nan"
  | FInf true => "-inf"
  | FInf false => "inf"
  | FFin q => float_repr h q
  end.

Definition str_of_num (h : Host) (n : PyNum) : string :=
  match n with
  | NInt z => str_of_Z z
  | NFloat f => str_of_float h f
  end.

(** [f"{v}"] *)
Definition format_value (h : Host) (v : PyValue) : string :=
  match v with
  | VNone => "None"
  | VBool true => "True"
  | VBool false => "False"
  | VInt z => str_of_Z z
  | VFloat f => str_of_float h f
  | VStr s => s
  | VBytes s => repr_bytes s
  | VPath text => text
  | _ => repr_other h v
  end.

(** [Path.exists], [Path.is_file], [Path.is_dir] on a path text *)
Definition path_exists (h : Host) (p : string) : bool :=
  match node h p with Some _ => true | None => false end.

Definition path_is_file (h : Host) (p : string) : bool :=
  match node h p with Some File => true | _ => false end.

Definition path_is_dir (h : Host) (p : string) : bool :=
  match node h p with Some Dir => true | _ => false end.

(** The host after a successful [mkdir] of [p]. *)
Definition with_dir (h : Host) (p : string) : Host :=
  {| float_repr := float_repr h;
     repr_other := repr_other h;
     node := fun q => if String.eqb q p then Some Dir else node h q;
     parent_of := parent_of h;
     mkdir_error := mkdir_error h |}.

(** [Path(value)]: the text of the path object. A path object is kept as
    the text it was built from. Text and path objects convert; anything
    else, bytes included, is refused with a [TypeError] as pathlib does. *)
Definition Path (value : PyValue) : result string :=
  match value with
  | VPath text => Ok text
  | VStr s => Ok s
  | _ => Raise (mkExc ty_TypeError
                      ("expected str, bytes or os.PathLike object, not "
                         ++ ty_name (type_of value)))
  end.

(** The text of a value that [isinstance(value, Path)] accepted. *)
Definition path_text (value : PyValue) : string :=
  match value with
  | VPath text => text
  | _ => EmptyString
  end.

(** [str(value)] for text and bytes *)
Definition py_str (value : PyValue) : string :=
  match value with
  | VStr s => s
  | VBytes s => repr_bytes s
  | _ => EmptyString
  end.

(** [isinstance(value, (str, bytes)) and
     len(value.strip() if isinstance(value, str) else value) == 0] *)
Definition is_empty_text (value : PyValue) : bool :=
  isinstance_any value [ty_str; ty_bytes]
  && match value with
     | VStr s => Z.eqb (str_len (strip s)) 0
     | VBytes s => Z.eqb (str_len s) 0
     | _ => false
     end.

(* ================================================================== *)
(** * validation_config.py *)
(* ================================================================== *)

(** Modelled from the spec: [exceptions.py], which declares
    [TypeAssertionError], is not among the sources. The spec calls it a
    dedicated assertion-failure type that is a subtype of the host's
    generic assertion error, and [tests/test_exceptions.py] checks that it
    derives from [AssertionError]. *)
Definition TypeAssertionError : PyType :=
  UserClass "gerg_type_validation.exceptions" "TypeAssertionError"
            ty_AssertionError.

Record ValidationConfig : Type := mkConfig {
  strict_mode : bool;
  auto_extract_names : bool;
  raise_on_failure : bool;
  custom_error_class : PyType
}.

(** [ValidationConfig()] with every argument at its default *)
Definition default_config : ValidationConfig :=
  {| strict_mode := true;
     auto_extract_names := true;
     raise_on_failure := true;
     custom_error_class := TypeAssertionError |}.

(** [config or ValidationConfig()] *)
Definition config_or_default (config : option ValidationConfig) : ValidationConfig :=
  match config with
  | Some c => c
  | None => default_config
  end.

(** [raise cls(msg)] *)
Definition raise_ {A} (cls : PyType) (msg : string) : result A :=
  Raise (mkExc cls msg).

(** [msg or generated]: the caller's message wins unless it is [None] or
    empty; the generated text is only computed when it is needed. *)
Definition msg_or (msg : option string) (generated : result string) : result string :=
  match msg with
  | Some (String c s) => Ok (String c s)
  | _ => generated
  end.

(* ================================================================== *)
(** * validators.py *)
(* ================================================================== *)

(** What [expected_type] may hold: one class, a list of classes, or the
    tuple of classes the engine passes for its composite checks. *)
Inductive TypeSpec : Type :=
| OneType (t : PyType)
| TypeList (ts : list PyType)
| TypeTuple (ts : list PyType).

(** The keyword arguments ([**kwargs]) a validator call may carry. An
    absent keyword and a keyword passed as [None] read the same. *)
Record Kwargs : Type := mkKwargs {
  expected_type : option TypeSpec;
  min_val : option PyNum;
  max_val : option PyNum;
  min_len : option Z;
  max_len : option Z;
  length : option Z;
  must_exist : option bool;
  must_be_file : bool;
  must_be_dir : bool
}.

Definition no_kwargs : Kwargs :=
  {| expected_type := None; min_val := None; max_val := None;
     min_len := None; max_len := None; length := None;
     must_exist := None; must_be_file := false; must_be_dir := false |}.

(** The abstract base class: the two operations every validator has, and
    the configuration its constructor stores. *)
Record BaseValidator : Type := mkValidator {
  validator_config : ValidationConfig;
  validate : Host -> PyValue -> Kwargs -> result bool;
  get_error_message : Host -> PyValue -> string -> Kwargs -> result string
}.

Definition expected_type_missing : PyExc :=
  mkExc ty_ValueError "expected_type must be provided".

(* ------------------------------------------------------------------ *)
(** ** TypeValidator *)

Definition TypeValidator_validate (h : Host) (value : PyValue) (kwargs : Kwargs)
  : result bool :=
  match expected_type kwargs with
  | None => Raise expected_type_missing
  | Some (TypeList ts) => Ok (existsb (isinstance value) ts)
  | Some (OneType t) => Ok (isinstance value t)
  | Some (TypeTuple ts) => Ok (isinstance_any value ts)
  end.

Definition TypeValidator_get_error_message (h : Host) (value : PyValue)
           (var_name : string) (kwargs : Kwargs) : result string :=
  match expected_type kwargs with
  | None => Raise expected_type_missing
  | Some spec =>
      let given_type := ty_name (type_of value) in
      match spec with
      | TypeList ts =>
          let type_names := map ty_name ts in
          Ok ("'" ++ var_name ++ "' must be one of types "
                  ++ repr_list (map repr_str type_names)
                  ++ ", but got '" ++ given_type ++ "'")
      | OneType t =>
          let type_name := ty_name t in
          Ok ("'" ++ var_name ++ "' must be of type '" ++ type_name
                  ++ "', but got '" ++ given_type ++ "'")
      | TypeTuple ts =>
          let type_name := repr_tuple (map ty_str_of ts) in
          Ok ("'" ++ var_name ++ "' must be of type '" ++ type_name
                  ++ "', but got '" ++ given_type ++ "'")
      end
  end.

Definition TypeValidator (config : option ValidationConfig) : BaseValidator :=
  {| validator_config := config_or_default config;
     validate := TypeValidator_validate;
     get_error_message := TypeValidator_get_error_message |}.

(* ------------------------------------------------------------------ *)
(** ** RangeValidator *)

(** [bound is not None and value < bound] *)
Definition below (value : PyValue) (bound : option PyNum) : result bool :=
  match bound with
  | Some lo => py_lt value lo
  | None => Ok false
  end.

(** [bound is not None and value > bound] *)
Definition above (value : PyValue) (bound : option PyNum) : result bool :=
  match bound with
  | Some hi => py_gt value hi
  | None => Ok false
  end.

Definition RangeValidator_validate (h : Host) (value : PyValue) (kwargs : Kwargs)
  : result bool :=
  too_low <- below value (min_val kwargs) ;;
  if too_low then Ok false
  else
    too_high <- above value (max_val kwargs) ;;
    if too_high then Ok false
    else Ok true.

Definition RangeValidator_get_error_message (h : Host) (value : PyValue)
           (var_name : string) (kwargs : Kwargs) : result string :=
  too_low <- below value (min_val kwargs) ;;
  if too_low then
    Ok ("'" ++ var_name ++ "' must be >= "
            ++ match min_val kwargs with
               | Some lo => str_of_num h lo
               | None => "None"
               end
            ++ ", but got " ++ format_value h value)
  else
    too_high <- above value (max_val kwargs) ;;
    if too_high then
      Ok ("'" ++ var_name ++ "' must be <= "
              ++ match max_val kwargs with
                 | Some hi => str_of_num h hi
                 | None => "None"
                 end
              ++ ", but got " ++ format_value h value)
    else Ok ("'" ++ var_name ++ "' is out of valid range").

Definition RangeValidator (config : option ValidationConfig) : BaseValidator :=
  {| validator_config := config_or_default config;
     validate := RangeValidator_validate;
     get_error_message := RangeValidator_get_error_message |}.

(* ------------------------------------------------------------------ *)
(** ** LengthValidator *)

(** [bound is not None and val_len != bound] and its two siblings *)
Definition differs (val_len : Z) (bound : option Z) : bool :=
  match bound with Some k => negb (val_len =? k)%Z | None => false end.

Definition shorter (val_len : Z) (bound : option Z) : bool :=
  match bound with Some k => (val_len <? k)%Z | None => false end.

Definition longer (val_len : Z) (bound : option Z) : bool :=
  match bound with Some k => (val_len >? k)%Z | None => false end.

Definition LengthValidator_validate (h : Host) (value : PyValue) (kwargs : Kwargs)
  : result bool :=
  match py_len value with
  | Raise e => if caught_by [ty_TypeError] e then Ok false else Raise e
  | Ok val_len =>
      if differs val_len (length kwargs) then Ok false
      else if shorter val_len (min_len kwargs) then Ok false
      else if longer val_len (max_len kwargs) then Ok false
      else Ok true
  end.

Definition str_of_bound (bound : option Z) : string :=
  match bound with Some k => str_of_Z k | None => "None" end.

Definition LengthValidator_get_error_message (h : Host) (value : PyValue)
           (var_name : string) (kwargs : Kwargs) : result string :=
  match py_len value with
  | Raise e =>
      if caught_by [ty_TypeError] e
      then Ok ("'" ++ var_name ++ "' must have a length, but got "
                   ++ ty_name (type_of value))
      else Raise e
  | Ok val_len =>
      if differs val_len (length kwargs) then
        Ok ("'" ++ var_name ++ "' must have length = "
                ++ str_of_bound (length kwargs) ++ ", but got " ++ str_of_Z val_len)
      else if shorter val_len (min_len kwargs) then
        Ok ("'" ++ var_name ++ "' must have length >= "
                ++ str_of_bound (min_len kwargs) ++ ", but got " ++ str_of_Z val_len)
      else if longer val_len (max_len kwargs) then
        Ok ("'" ++ var_name ++ "' must have length <= "
                ++ str_of_bound (max_len kwargs) ++ ", but got " ++ str_of_Z val_len)
      else Ok ("'" ++ var_name ++ "' has invalid length")
  end.

Definition LengthValidator (config : option ValidationConfig) : BaseValidator :=
  {| validator_config := config_or_default config;
     validate := LengthValidator_validate;
     get_error_message := LengthValidator_get_error_message |}.

(* ------------------------------------------------------------------ *)
(** ** PathValidator *)

Definition is_True (b : option bool) : bool :=
  match b with Some true => true | _ => false end.

Definition is_False (b : option bool) : bool :=
  match b with Some false => true | _ => false end.

(** The conversion at the head of [PathValidator.validate]: [Ok None] is
    the early [return False] for an empty text. *)
Definition convert_for_validate (value : PyValue) : result (option string) :=
  if isinstance value ty_Path then Ok (Some (path_text value))
  else if isinstance_any value [ty_str; ty_bytes] then
    if is_empty_text value then Ok None
    else path_obj <- Path (VStr (py_str value)) ;; Ok (Some path_obj)
  else path_obj <- Path value ;; Ok (Some path_obj).

Definition PathValidator_validate (h : Host) (value : PyValue) (kwargs : Kwargs)
  : result bool :=
  match try_except (convert_for_validate value) [ty_TypeError; ty_ValueError]
                   (fun _ => Ok None) with
  | Raise e => Raise e
  | Ok None => Ok false
  | Ok (Some path_obj) =>
      if is_True (must_exist kwargs) && negb (path_exists h path_obj) then Ok false
      else if is_False (must_exist kwargs) && path_exists h path_obj then Ok false
      else if must_be_file kwargs
              && (negb (path_exists h path_obj) || negb (path_is_file h path_obj))
           then Ok false
      else if must_be_dir kwargs
              && (negb (path_exists h path_obj) || negb (path_is_dir h path_obj))
           then Ok false
      else Ok true
  end.

Definition PathValidator_get_error_message (h : Host) (value : PyValue)
           (var_name : string) (kwargs : Kwargs) : result string :=
  let conversion :=
    if isinstance value ty_Path then Ok (path_text value) else Path value in
  match conversion with
  | Raise e =>
      if caught_by [ty_TypeError; ty_ValueError] e
      then Ok ("'" ++ var_name ++ "' cannot be converted to a Path: " ++ exc_msg e)
      else Raise e
  | Ok path_obj =>
      if is_empty_text value then
        Ok ("'" ++ var_name ++ "' cannot be an empty path")
      else if is_True (must_exist kwargs) && negb (path_exists h path_obj) then
        Ok ("'" ++ var_name ++ "' path must exist, but '" ++ path_obj
                ++ "' does not exist")
      else if is_False (must_exist kwargs) && path_exists h path_obj then
        Ok ("'" ++ var_name ++ "' path must not exist, but '" ++ path_obj
                ++ "' already exists")
      else if must_be_file kwargs && negb (path_exists h path_obj) then
        Ok ("'" ++ var_name ++ "' must be an existing file, but '" ++ path_obj
                ++ "' does not exist")
      else if must_be_file kwargs && negb (path_is_file h path_obj) then
        Ok ("'" ++ var_name ++ "' must be a file, but '" ++ path_obj
                ++ "' is not a file")
      else if must_be_dir kwargs && negb (path_exists h path_obj) then
        Ok ("'" ++ var_name ++ "' must be an existing directory, but '" ++ path_obj
                ++ "' does not exist")
      else if must_be_dir kwargs && negb (path_is_dir h path_obj) then
        Ok ("'" ++ var_name ++ "' must be a directory, but '" ++ path_obj
                ++ "' is not a directory")
      else Ok ("'" ++ var_name ++ "' path validation failed")
  end.

Definition PathValidator (config : option ValidationConfig) : BaseValidator :=
  {| validator_config := config_or_default config;
     validate := PathValidator_validate;
     get_error_message := PathValidator_get_error_message |}.

(* ================================================================== *)
(** * type_validation_engine.py *)
(* ================================================================== *)

(** The frame [_find_original_caller_frame] settles on, seen through the
    one thing the engine asks of it: the name
    [VariableNameExtractor.extract_from_frame] reads off its source line
    (the extractor never raises and falls back to ["value"]). *)
Record Frame : Type := mkFrame { extracted_name : string }.

Definition extract_from_frame (frame : Frame) : string := extracted_name frame.

(** The engine object. Its registry is filled once by [__init__] with the
    four validators, each built on the configuration of that moment;
    [config] is the slot a scoped override replaces. *)
Record TypeValidationEngine : Type := mkEngine {
  config : ValidationConfig;
  init_config : ValidationConfig
}.

(** [TypeValidationEngine(config)] *)
Definition new_engine (config : option ValidationConfig) : TypeValidationEngine :=
  {| config := config_or_default config;
     init_config := config_or_default config |}.

(** [self.validators.get(name)] *)
Definition validators (self : TypeValidationEngine) (name : string)
  : option BaseValidator :=
  if String.eqb name "type" then Some (TypeValidator (Some (init_config self)))
  else if String.eqb name "range" then Some (RangeValidator (Some (init_config self)))
  else if String.eqb name "length" then Some (LengthValidator (Some (init_config self)))
  else if String.eqb name "path" then Some (PathValidator (Some (init_config self)))
  else None.

Definition _get_variable_name (self : TypeValidationEngine) (frame : Frame) : string :=
  if negb (auto_extract_names (config self)) then "value"
  else extract_from_frame frame.

Definition _validate_with_engine (self : TypeValidationEngine) (h : Host)
           (frame : Frame) (validator_name : string) (value : PyValue)
           (custom_msg : option string) (kwargs : Kwargs) : result bool :=
  match validators self validator_name with
  | None => Raise (mkExc ty_KeyError (repr_str validator_name))
  | Some validator =>
      is_valid <- validate validator h value kwargs ;;
      if negb is_valid && raise_on_failure (config self) then
        let var_name := _get_variable_name self frame in
        error_msg <- msg_or custom_msg
                            (get_error_message validator h value var_name kwargs) ;;
        raise_ (custom_error_class (config self)) error_msg
      else Ok is_valid
  end.

Definition _assert_with_engine (self : TypeValidationEngine) (h : Host)
           (frame : Frame) (validator_name : string) (value : PyValue)
           (custom_msg : option string) (kwargs : Kwargs) : result PyValue :=
  _ <- _validate_with_engine self h frame validator_name value custom_msg kwargs ;;
  Ok value.

Definition is_type (self : TypeValidationEngine) (value : PyValue)
           (expected : PyType) : bool :=
  isinstance value expected.

Definition is_not_none (self : TypeValidationEngine) (value : PyValue) : bool :=
  match value with VNone => false | _ => true end.

Definition with_expected_type (spec : option TypeSpec) : Kwargs :=
  {| expected_type := spec; min_val := None; max_val := None;
     min_len := None; max_len := None; length := None;
     must_exist := None; must_be_file := false; must_be_dir := false |}.

Definition with_range (lo hi : option PyNum) : Kwargs :=
  {| expected_type := None; min_val := lo; max_val := hi;
     min_len := None; max_len := None; length := None;
     must_exist := None; must_be_file := false; must_be_dir := false |}.

Definition with_length (lo hi exact : option Z) : Kwargs :=
  {| expected_type := None; min_val := None; max_val := None;
     min_len := lo; max_len := hi; length := exact;
     must_exist := None; must_be_file := false; must_be_dir := false |}.

Definition with_path (exist : option bool) (file dir : bool) : Kwargs :=
  {| expected_type := None; min_val := None; max_val := None;
     min_len := None; max_len := None; length := None;
     must_exist := exist; must_be_file := file; must_be_dir := dir |}.

Definition assert_type (self : TypeValidationEngine) (h : Host) (frame : Frame)
           (value : PyValue) (expected : option TypeSpec) (msg : option string)
  : result PyValue :=
  _assert_with_engine self h frame "type" value msg (with_expected_type expected).

Definition assert_not_none (self : TypeValidationEngine) (frame : Frame)
           (value : PyValue) (msg : option string) : result PyValue :=
  match value with
  | VNone =>
      let var_name := _get_variable_name self frame in
      error_msg <- msg_or msg (Ok ("'" ++ var_name ++ "' must not be None")) ;;
      raise_ (custom_error_class (config self)) error_msg
  | _ => Ok value
  end.

Definition is_some {A} (o : option A) : bool :=
  match o with Some _ => true | None => false end.

Definition assert_numeric (self : TypeValidationEngine) (h : Host) (frame : Frame)
           (value : PyValue) (min_val max_val : option PyNum) (msg : option string)
  : result PyValue :=
  _ <- _assert_with_engine self h frame "type" value msg
         (with_expected_type (Some (TypeTuple [ty_int; ty_float]))) ;;
  _ <- (if is_some min_val || is_some max_val
        then _validate_with_engine self h frame "range" value msg
               (with_range min_val max_val)
        else Ok true) ;;
  Ok value.

Definition assert_string_like (self : TypeValidationEngine) (h : Host) (frame : Frame)
           (value : PyValue) (min_len max_len : option Z) (msg : option string)
  : result PyValue :=
  _ <- _assert_with_engine self h frame "type" value msg
         (with_expected_type (Some (TypeTuple [ty_str; ty_bytes]))) ;;
  _ <- (if is_some min_len || is_some max_len
        then _validate_with_engine self h frame "length" value msg
               (with_length min_len max_len None)
        else Ok true) ;;
  Ok value.

Definition assert_sequence (self : TypeValidationEngine) (h : Host) (frame : Frame)
           (value : PyValue) (min_len max_len length : option Z) (msg : option string)
  : result PyValue :=
  _ <- _assert_with_engine self h frame "type" value msg
         (with_expected_type (Some (TypeTuple [ty_list; ty_tuple]))) ;;
  _ <- (if is_some min_len || is_some max_len || is_some length
        then _validate_with_engine self h frame "length" value msg
               (with_length min_len max_len length)
        else Ok true) ;;
  Ok value.

(** [required_keys]: one key or a list of keys *)
Inductive RequiredKeys : Type :=
| OneKey (key : string)
| KeyList (keys : list string).

(** [needle in hay] for text, as a test *)
Fixpoint contains_text (needle hay : string) : bool :=
  String.prefix needle hay
  || match hay with
     | EmptyString => false
     | String _ hay' => contains_text needle hay'
     end.

Definition is_text (key : string) (v : PyValue) : bool :=
  match v with
  | VStr s => String.eqb s key
  | _ => false
  end.

(** [key in value] for a text key: among the keys of a dict, among the
    items of a list or tuple, inside a text; a [TypeError] elsewhere. *)
Definition py_contains (value : PyValue) (key : string) : result bool :=
  match value with
  | VDict items => Ok (existsb (fun kv => is_text key (fst kv)) items)
  | VList items | VTuple items => Ok (existsb (is_text key) items)
  | VStr s => Ok (contains_text key s)
  | VBytes _ =>
      Raise (mkExc ty_TypeError "a bytes-like object is required, not 'str'")
  | _ =>
      Raise (mkExc ty_TypeError
                   ("argument of type '" ++ ty_name (type_of value)
                                         ++ "' is not iterable"))
  end.

(** [[key for key in keys_to_check if key not in value]] *)
Fixpoint missing_from (value : PyValue) (keys_to_check : list string)
  : result (list string) :=
  match keys_to_check with
  | [] => Ok []
  | key :: rest =>
      present <- py_contains value key ;;
      missing <- missing_from value rest ;;
      Ok (if present then missing else key :: missing)
  end.

Definition assert_mapping (self : TypeValidationEngine) (h : Host) (frame : Frame)
           (value : PyValue) (required_keys : option RequiredKeys)
           (msg : option string) : result PyValue :=
  _ <- _assert_with_engine self h frame "type" value msg
         (with_expected_type (Some (OneType ty_dict))) ;;
  match required_keys with
  | None => Ok value
  | Some required =>
      let var_name := _get_variable_name self frame in
      let keys_to_check :=
        match required with
        | OneKey key => [key]
        | KeyList keys => keys
        end in
      missing_keys <- missing_from value keys_to_check ;;
      match missing_keys with
      | [] => Ok value
      | [key] =>
          error_msg <- msg_or msg
            (Ok ("'" ++ var_name ++ "' missing required key: '" ++ key ++ "'")) ;;
          raise_ (custom_error_class (config self)) error_msg
      | _ =>
          error_msg <- msg_or msg
            (Ok ("'" ++ var_name ++ "' missing required keys: "
                     ++ repr_list (map repr_str missing_keys))) ;;
          raise_ (custom_error_class (config self)) error_msg
      end
  end.

(** The optional creation of the parent directories in [assert_path]. *)
Definition create_parent_dirs (self : TypeValidationEngine) (h : Host)
           (var_name path_obj : string) (create_parents : bool)
           (msg : option string) : result unit * Host :=
  if create_parents && negb (path_exists h (parent_of h path_obj)) then
    match mkdir_error h (parent_of h path_obj) with
    | Some e =>
        (error_msg <- msg_or msg
           (Ok ("'" ++ var_name ++ "' parent directories could not be created: "
                    ++ e)) ;;
         raise_ (custom_error_class (config self)) error_msg,
         h)
    | None => (Ok tt, with_dir h (parent_of h path_obj))
    end
  else (Ok tt, h).

(** The conversion at the head of [assert_path]. *)
Definition convert_for_assert (value : PyValue) : result string :=
  if isinstance value ty_Path then Ok (path_text value)
  else if isinstance_any value [ty_str; ty_bytes] then Path (VStr (py_str value))
  else Path value.

Definition assert_path (self : TypeValidationEngine) (h : Host) (frame : Frame)
           (value : PyValue) (must_exist : option bool)
           (must_be_file must_be_dir create_parents : bool)
           (msg : option string) : result PyValue * Host :=
  let var_name := _get_variable_name self frame in
  match convert_for_assert value with
  | Raise e =>
      if caught_by [ty_TypeError; ty_ValueError] e then
        (error_msg <- msg_or msg
           (Ok ("'" ++ var_name ++ "' cannot be converted to a Path: "
                    ++ exc_msg e)) ;;
         raise_ (custom_error_class (config self)) error_msg,
         h)
      else (Raise e, h)
  | Ok path_obj =>
      if is_empty_text value then
        (error_msg <- msg_or msg
           (Ok ("'" ++ var_name ++ "' cannot be an empty path")) ;;
         raise_ (custom_error_class (config self)) error_msg,
         h)
      else
        match create_parent_dirs self h var_name path_obj create_parents msg with
        | (Raise e, h') => (Raise e, h')
        | (Ok _, h') =>
            (_ <- _validate_with_engine self h' frame "path" (VPath path_obj) msg
                    (with_path must_exist must_be_file must_be_dir) ;;
             Ok (VPath path_obj),
             h')
        end
  end.

Definition assert_range (self : TypeValidationEngine) (h : Host) (frame : Frame)
           (value : PyValue) (min_val max_val : option PyNum) (msg : option string)
  : result PyValue :=
  _ <- _validate_with_engine self h frame "range" value msg
         (with_range min_val max_val) ;;
  Ok value.

Definition assert_length (self : TypeValidationEngine) (h : Host) (frame : Frame)
           (value : PyValue) (min_len max_len : option Z) (msg : option string)
  : result PyValue :=
  _ <- _validate_with_engine self h frame "length" value msg
         (with_length min_len max_len None) ;;
  Ok value.

(* ================================================================== *)
(** * factory_functions.py *)
(* ================================================================== *)

Definition create_validation_engine (strict_mode auto_extract_names
                                     raise_on_failure : bool)
           (custom_error_class : PyType) : TypeValidationEngine :=
  let config :=
    {| strict_mode := strict_mode;
       auto_extract_names := auto_extract_names;
       raise_on_failure := raise_on_failure;
       custom_error_class := custom_error_class |} in
  new_engine (Some config).

(** Only [strict_mode] and [raise_on_failure] are passed; the other two
    arguments keep the defaults of [create_validation_engine]. *)
Definition create_lenient_engine : TypeValidationEngine :=
  create_validation_engine false true false TypeAssertionError.

(* ================================================================== *)
(** * assertions.py: the module-level functions on the default engine *)
(* ================================================================== *)

Module Assertions.

Definition _default_engine : TypeValidationEngine := new_engine None.

Definition assert_type := assert_type _default_engine.
Definition assert_not_none := assert_not_none _default_engine.
Definition assert_numeric := assert_numeric _default_engine.
Definition assert_string_like := assert_string_like _default_engine.
Definition assert_sequence := assert_sequence _default_engine.
Definition assert_mapping := assert_mapping _default_engine.
Definition assert_path := assert_path _default_engine.
Definition assert_range := assert_range _default_engine.
Definition assert_length := assert_length _default_engine.

End Assertions.

(* ================================================================== *)
(** * validation_context.py *)
(* ================================================================== *)

(** Engines are objects: a context manager and its caller hold the same
    engine, so engines live in a heap and are named by reference. *)
Definition ref : Type := nat.
Definition Heap : Type := ref -> TypeValidationEngine.

(** [engine.config = c] *)
Definition set_config (heap : Heap) (engine : ref) (c : ValidationConfig) : Heap :=
  fun r =>
    if Nat.eqb r engine
    then {| config := c; init_config := init_config (heap r) |}
    else heap r.

(** [**config_overrides]: any subset of the four configuration fields *)
Record Overrides : Type := mkOverrides {
  ov_strict_mode : option bool;
  ov_auto_extract_names : option bool;
  ov_raise_on_failure : option bool;
  ov_custom_error_class : option PyType
}.

Definition no_overrides : Overrides :=
  {| ov_strict_mode := None; ov_auto_extract_names := None;
     ov_raise_on_failure := None; ov_custom_error_class := None |}.

(** [d.get(key, default)] *)
Definition get {A} (entry : option A) (default : A) : A :=
  match entry with
  | Some a => a
  | None => default
  end.

Record ValidationContext : Type := mkContext {
  engine : ref;
  original_config : ValidationConfig;
  config_overrides : Overrides
}.

(** [ValidationContext(engine, **config_overrides)] ([__init__]) *)
Definition new_context (heap : Heap) (engine : ref) (config_overrides : Overrides)
  : ValidationContext :=
  {| engine := engine;
     original_config := config (heap engine);
     config_overrides := config_overrides |}.

(** The configuration [__enter__] builds. *)
Definition merged_config (self : ValidationContext) : ValidationConfig :=
  {| strict_mode :=
       get (ov_strict_mode (config_overrides self))
           (strict_mode (original_config self));
     auto_extract_names :=
       get (ov_auto_extract_names (config_overrides self))
           (auto_extract_names (original_config self));
     raise_on_failure :=
       get (ov_raise_on_failure (config_overrides self))
           (raise_on_failure (original_config self));
     custom_error_class :=
       get (ov_custom_error_class (config_overrides self))
           (custom_error_class (original_config self)) |}.

Definition __enter__ (self : ValidationContext) (heap : Heap) : ref * Heap :=
  let new_config := merged_config self in
  (engine self, set_config heap (engine self) new_config).

Definition __exit__ (self : ValidationContext) (heap : Heap) : Heap :=
  set_config heap (engine self) (original_config self).

(** [with ctx as e: body]: [__exit__] runs whether the body returns or
    raises, and returns [None], so an exception keeps propagating. *)
Definition with_ {A} (ctx : ValidationContext)
           (body : ref -> Heap -> result A * Heap) (heap : Heap)
  : result A * Heap :=
  let '(e, heap1) := __enter__ ctx heap in
  let '(r, heap2) := body e heap1 in
  (r, __exit__ ctx heap2).


(* ================================================================== *)
(** * variable_name_extractor.py and the caller frame *)
(* ================================================================== *)

(** The expression nodes of Python's [ast] that
    [_extract_name_from_ast_node] tells apart; every other kind of node is
    [OtherNode]. A call keeps its function expression, a subscript and an
    attribute the expression they apply to. *)
Inductive AstNode : Type :=
| Name (id : string)
| Attribute (value : AstNode) (attr : string)
| Subscript (value : AstNode)
| Call (func : AstNode)
| OtherNode.

Fixpoint _extract_name_from_ast_node (node : AstNode) : string :=
  match node with
  | Name id => id
  | Attribute value attr =>
      let value_name := _extract_name_from_ast_node value in
      value_name ++ "." ++ attr
  | Subscript value =>
      let value_name := _extract_name_from_ast_node value in
      value_name ++ "[...]"
  | Call func =>
      match func with
      | Name id => id ++ "(...)"
      | Attribute _ _ => _extract_name_from_ast_node func ++ "(...)"
      | _ => "expression"
      end
  | OtherNode => "expression"
  end.

(** The names [_find_original_caller_frame] skips. *)
Definition internal_functions : list string :=
  [ "assert_type"; "assert_range";
    "assert_length"; "assert_not_none"; "is_type"; "assert_numeric";
    "assert_string_like"; "assert_sequence"; "assert_mapping"; "assert_path";
    "is_not_none"; "_validate_with_engine"; "_assert_with_engine" ].

Definition name_in (name : string) (names : list string) : bool :=
  existsb (String.eqb name) names.

(** The loop of [_find_original_caller_frame] over the frames behind the
    current one, innermost first, each given by the name of its function
    ([frame.f_code.co_name]): the first frame whose name is not
    internal. *)
Fixpoint first_external_frame (callers : list string) : option string :=
  match callers with
  | [] => None
  | func_name :: back =>
      if negb (name_in func_name internal_functions) then Some func_name
      else first_external_frame back
  end.

(** [_find_original_caller_frame], called with [callers] behind it; when
    the loop finds nothing it falls back on its own caller
    ([inspect.currentframe().f_back]). *)
Definition _find_original_caller_frame (callers : list string) : option string :=
  match first_external_frame callers with
  | Some frame => Some frame
  | None => hd_error callers
  end.

(* ================================================================== *)
(** * utils.py: ValidationPatterns *)
(* ================================================================== *)

(** [engine] when one is passed, a new default engine otherwise. *)
Definition engine_or_new (engine : option TypeValidationEngine)
  : TypeValidationEngine :=
  match engine with
  | Some e => e
  | None => new_engine None
  end.

(** The float the literal [0.0001] denotes: 7378697629483821 / 2^66, a
    little above one ten-thousandth. *)
Definition float_0_0001 : PyFloat :=
  FFin (7378697629483821 # 73786976294838206464).

Definition validate_positive_number (value : PyValue)
           (engine : option TypeValidationEngine) (h : Host) (frame : Frame)
  : result PyValue :=
  let engine := engine_or_new engine in
  assert_numeric engine h frame value (Some (NFloat float_0_0001)) None None.

Definition validate_non_negative_number (value : PyValue)
           (engine : option TypeValidationEngine) (h : Host) (frame : Frame)
  : result PyValue :=
  let engine := engine_or_new engine in
  assert_numeric engine h frame value (Some (NInt 0)) None None.

Definition validate_percentage (value : PyValue)
           (engine : option TypeValidationEngine) (h : Host) (frame : Frame)
  : result PyValue :=
  let engine := engine_or_new engine in
  assert_numeric engine h frame value (Some (NInt 0)) (Some (NInt 100)) None.

(** [AttributeError], a built-in class the class table above does not
    list. *)
Definition ty_AttributeError : PyType :=
  UserClass "builtins" "AttributeError" ty_Exception.

(** [c.isspace()] for a byte: the ASCII whitespace only *)
Definition bytes_isspace (c : ascii) : bool :=
  let n := N_of_ascii c in (((9 <=? n) && (n <=? 13)) || (n =? 32))%N.

(** [not value.strip()]: whether nothing is left of a text or a byte
    string once the whitespace around it is gone; an [AttributeError] for
    a value that has no [strip]. *)
Definition strips_to_nothing (value : PyValue) : result bool :=
  match value with
  | VStr s => Ok (whitespace_only s)
  | VBytes s => Ok (string_forallb bytes_isspace s)
  | _ => Raise (mkExc ty_AttributeError
                      ("'" ++ ty_name (type_of value)
                           ++ "' object has no attribute 'strip'"))
  end.

Definition validate_non_empty_string (value : PyValue)
           (engine : option TypeValidationEngine) (h : Host) (frame : Frame)
  : result PyValue :=
  let engine := engine_or_new engine in
  validated_str <- assert_type engine h frame value (Some (OneType ty_str)) None ;;
  blank <- strips_to_nothing validated_str ;;
  if blank then
    let var_name := _get_variable_name engine frame in
    raise_ (custom_error_class (config engine))
           ("'" ++ var_name ++ "' must be a non-empty string")
  else Ok validated_str.

(* ================================================================== *)
(** * utils.py: BatchValidator *)
(* ================================================================== *)

Definition newline : string := String (ascii_of_nat 10) EmptyString.

(** The batch keeps a reference to its engine and the list of error
    texts collected so far. *)
Record BatchValidator : Type := mkBatch {
  batch_engine : ref;
  errors : list string
}.

(** [BatchValidator(engine)]: without an engine a new default engine is
    made, which [fresh] names in the heap. *)
Definition new_batch (heap : Heap) (engine : option ref) (fresh : ref)
  : BatchValidator * Heap :=
  match engine with
  | Some e => ({| batch_engine := e; errors := [] |}, heap)
  | None =>
      ({| batch_engine := fresh; errors := [] |},
       fun r => if Nat.eqb r fresh then new_engine None else heap r)
  end.

(** [add_validation(value, validator_func)]: the call is made, and an
    exception that derives from [Exception] ends up as text in the list;
    any other exception goes on to the caller. The batch after the call is
    returned. *)
Definition add_validation {A} (self : BatchValidator) (value : PyValue)
           (validator_func : PyValue -> result A) : result BatchValidator :=
  match validator_func value with
  | Ok _ => Ok self
  | Raise e =>
      if caught_by [ty_Exception] e
      then Ok {| batch_engine := batch_engine self;
                 errors := (errors self ++ [exc_msg e])%list |}
      else Raise e
  end.

Definition validate_all (self : BatchValidator) (heap : Heap)
           (raise_on_error : bool) : result bool :=
  if negb (Nat.eqb (List.length (errors self)) 0) && raise_on_error then
    let error_msg :=
      "Batch validation failed:" ++ newline
        ++ String.concat newline (map (fun error => "  - " ++ error)
                                      (errors self)) in
    raise_ (custom_error_class (config (heap (batch_engine self)))) error_msg
  else Ok (Nat.eqb (List.length (errors self)) 0).

Definition get_errors (self : BatchValidator) : list string := errors self.

Definition clear_errors (self : BatchValidator) : BatchValidator :=
  {| batch_engine := batch_engine self; errors := [] |}.

(* ================================================================== *)
(** * type_validation_decorator.py *)
(* ================================================================== *)

(** The text before the first single quote of [s] and the text after
    it. *)
Fixpoint split_at_quote (s : string) : option (string * string) :=
  match s with
  | EmptyString => None
  | String c rest =>
      if Ascii.eqb c squote then Some (EmptyString, rest)
      else match split_at_quote rest with
           | Some (before, after) => Some (String c before, after)
           | None => None
           end
  end.

(** [re.sub(r"'[^']*'", replacement, text, count=1)] for a replacement
    without backslashes: the leftmost stretch from one single quote to the
    next is replaced; a text with fewer than two quotes is left alone. *)
Definition replace_first_quoted (replacement text : string) : string :=
  match split_at_quote text with
  | None => text
  | Some (before, rest) =>
      match split_at_quote rest with
      | None => text
      | Some (_, after) => before ++ replacement ++ after
      end
  end.

(** [type_hints.get(param_name)] *)
Fixpoint hint_of (param_name : string) (type_hints : list (string * PyType))
  : option PyType :=
  match type_hints with
  | [] => None
  | (name, hint) :: rest =>
      if String.eqb name param_name then Some hint else hint_of param_name rest
  end.

(** One turn of the loop in [wrapper]: the check of one bound argument
    against its hint, if it has one. *)
Definition check_argument (engine : TypeValidationEngine) (h : Host)
           (frame : Frame) (func_name : string)
           (type_hints : list (string * PyType))
           (param_name : string) (param_value : PyValue) : result unit :=
  match hint_of param_name type_hints with
  | None => Ok tt
  | Some expected_type =>
      match assert_type engine h frame param_value
                        (Some (OneType expected_type)) None with
      | Ok _ => Ok tt
      | Raise e =>
          if caught_by [TypeAssertionError] e then
            let error_msg := exc_msg e in
            let error_msg :=
              if string_existsb (Ascii.eqb squote) error_msg
              then replace_first_quoted ("'" ++ param_name ++ "'") error_msg
              else error_msg in
            raise_ ty_TypeError
                   ("In call to " ++ func_name ++ ": " ++ error_msg)
          else Raise e
      end
  end.

Fixpoint check_arguments (engine : TypeValidationEngine) (h : Host)
         (frame : Frame) (func_name : string)
         (type_hints : list (string * PyType))
         (arguments : list (string * PyValue)) : result unit :=
  match arguments with
  | [] => Ok tt
  | (param_name, param_value) :: rest =>
      _ <- check_argument engine h frame func_name type_hints
             param_name param_value ;;
      check_arguments engine h frame func_name type_hints rest
  end.

(** [type_checked(func)] applied to bound arguments: the wrapper checks
    them in order against the hints, each hint a class, and then calls
    [func]. *)
Definition type_checked {A} (engine : option TypeValidationEngine) (h : Host)
           (frame : Frame) (func_name : string)
           (type_hints : list (string * PyType))
           (func : list (string * PyValue) -> result A)
           (arguments : list (string * PyValue)) : result A :=
  let engine := engine_or_new engine in
  _ <- check_arguments engine h frame func_name type_hints arguments ;;
  func arguments.

(* ================================================================== *)
(** * schema_validator.py *)
(* ================================================================== *)

(** One field of a schema: [type], [required] (true when left out),
    [validator] and [default] (absent and [None] read the same). *)
Record FieldSpec : Type := mkField {
  spec_type : option TypeSpec;
  spec_required : option bool;
  spec_validator : option (PyValue -> result PyValue);
  spec_default : option PyValue
}.

(** [if field_type:]: a class is true, a list or tuple of classes when it
    is not empty. *)
Definition type_given (field_type : option TypeSpec) : bool :=
  match field_type with
  | None => false
  | Some (OneType _) => true
  | Some (TypeList ts) | Some (TypeTuple ts) =>
      negb (Nat.eqb (List.length ts) 0)
  end.

(** [value[key]] for a text key: the value a dict holds for it; a
    [KeyError] when the dict has no such key and a [TypeError] for a
    value that is no dict (CPython's wording). *)
Definition py_getitem (value : PyValue) (key : string) : result PyValue :=
  match value with
  | VDict items =>
      match find (fun kv => is_text key (fst kv)) items with
      | Some kv => Ok (snd kv)
      | None => Raise (mkExc ty_KeyError (repr_str key))
      end
  | VList _ =>
      Raise (mkExc ty_TypeError "list indices must be integers or slices, not str")
  | VTuple _ =>
      Raise (mkExc ty_TypeError "tuple indices must be integers or slices, not str")
  | VStr _ =>
      Raise (mkExc ty_TypeError "string indices must be integers, not 'str'")
  | _ =>
      Raise (mkExc ty_TypeError
                   ("'" ++ ty_name (type_of value) ++ "' object is not subscriptable"))
  end.

(** [value.keys()]: an [AttributeError] for a value that is no dict. *)
Definition py_keys (value : PyValue) : result (list PyValue) :=
  match value with
  | VDict items => Ok (map fst items)
  | _ => Raise (mkExc ty_AttributeError
                      ("'" ++ ty_name (type_of value)
                           ++ "' object has no attribute 'keys'"))
  end.

(** [result[key] = value] on the dict being built, kept in insertion
    order. *)
Fixpoint dict_set (result_ : list (string * PyValue)) (key : string)
         (value : PyValue) : list (string * PyValue) :=
  match result_ with
  | [] => [(key, value)]
  | (k, v) :: rest =>
      if String.eqb k key then (k, value) :: rest
      else (k, v) :: dict_set rest key value
  end.

(** [field_spec.get('required', True)] *)
Definition is_required (field_spec : FieldSpec) : bool :=
  match spec_required field_spec with
  | Some b => b
  | None => true
  end.

(** One turn of the loop over the schema: the dict built so far comes
    back with the field added, or as it was. *)
Definition validate_field (engine : TypeValidationEngine) (h : Host)
           (frame : Frame) (validated_data : PyValue)
           (key : string) (field_spec : FieldSpec)
           (result_ : list (string * PyValue))
  : result (list (string * PyValue)) :=
  let field_type := spec_type field_spec in
  let required := is_required field_spec in
  let validator := spec_validator field_spec in
  let default := spec_default field_spec in
  present <- py_contains validated_data key ;;
  if present then
    value <- py_getitem validated_data key ;;
    value <- (if type_given field_type
              then assert_type engine h frame value field_type None
              else Ok value) ;;
    value <- match validator with
             | Some check => check value
             | None => Ok value
             end ;;
    Ok (dict_set result_ key value)
  else if required then
    raise_ (custom_error_class (config engine))
           ("Required field '" ++ key ++ "' is missing")
  else
    match default with
    | Some VNone | None => Ok result_
    | Some d => Ok (dict_set result_ key d)
    end.

Fixpoint validate_fields (engine : TypeValidationEngine) (h : Host)
         (frame : Frame) (validated_data : PyValue)
         (schema : list (string * FieldSpec))
         (result_ : list (string * PyValue))
  : result (list (string * PyValue)) :=
  match schema with
  | [] => Ok result_
  | (key, field_spec) :: rest =>
      result_ <- validate_field engine h frame validated_data key field_spec
                   result_ ;;
      validate_fields engine h frame validated_data rest result_
  end.

(** [key] is one of the schema's keys. *)
Definition in_schema (schema : list (string * FieldSpec)) (key : PyValue) : bool :=
  existsb (fun field => is_text (fst field) key) schema.

(** [set(validated_data.keys()) - set(schema.keys())], listed in the
    order of the data. *)
Definition extra_keys (schema : list (string * FieldSpec)) (keys : list PyValue)
  : list PyValue :=
  filter (fun key => negb (in_schema schema key)) keys.

(** The dict a schema validation returns. *)
Definition as_dict (result_ : list (string * PyValue)) : PyValue :=
  VDict (map (fun kv => (VStr (fst kv), snd kv)) result_).

(** [validate_dict_schema(data, schema, strict)]. The text of
    [list(extra_keys)] depends on the order in which the interpreter
    walks a set; [show_keys] stands for it. *)
Definition validate_dict_schema (engine : option TypeValidationEngine)
           (h : Host) (frame : Frame) (show_keys : list PyValue -> string)
           (data : PyValue) (schema : list (string * FieldSpec))
           (strict : bool) : result PyValue :=
  let engine := engine_or_new engine in
  validated_data <- assert_mapping engine h frame data None None ;;
  result_ <- validate_fields engine h frame validated_data schema [] ;;
  _ <- (if strict then
          keys <- py_keys validated_data ;;
          match extra_keys schema keys with
          | [] => Ok tt
          | extra =>
              raise_ (custom_error_class (config engine))
                     ("Unexpected keys found: " ++ show_keys extra)
          end
        else Ok tt) ;;
  Ok (as_dict result_).

(* ================================================================== *)
(** * The vocabulary of the properties *)
(* ================================================================== *)

(** What [_validate_with_engine] does once the validator is found. *)
Definition dispatch (self : TypeValidationEngine) (h : Host) (frame : Frame)
           (validator : BaseValidator) (value : PyValue)
           (custom_msg : option string) (kwargs : Kwargs) : result bool :=
  is_valid <- validate validator h value kwargs ;;
  if negb is_valid && raise_on_failure (config self) then
    error_msg <- msg_or custom_msg
                   (get_error_message validator h value
                                      (_get_variable_name self frame) kwargs) ;;
    raise_ (custom_error_class (config self)) error_msg
  else Ok is_valid.

(** The classes an expected type names. *)
Definition candidates (T : TypeSpec) : list PyType :=
  match T with
  | OneType t => [t]
  | TypeList ts => ts
  | TypeTuple ts => ts
  end.

(** The runtime type of [v] is one of the candidates or derives from one
    (membership in the [isinstance] sense). *)
Definition instance_of (v : PyValue) (T : TypeSpec) : bool :=
  existsb (issubclass (type_of v)) (candidates T).

(** [n] respects the optional bounds: [lo <= n] and [n <= hi], each only
    when given. *)
Definition within_bounds (lo hi : option Z) (n : Z) : Prop :=
  (forall l, lo = Some l -> l <= n) /\ (forall u, hi = Some u -> n <= u).

(** The claim of C4 as the specification words it: with an exact length
    given, the length check passes iff the length equals it, whatever
    bounds come along. *)
Definition exact_length_ignores_bounds : Prop :=
  forall (h : Host) (v : PyValue) (n k : Z) (lo hi : option Z),
    py_len v = Ok n ->
    (LengthValidator_validate h v (with_length lo hi (Some k)) = Ok true
     <-> n = k).

Definition three_items : PyValue := VList [VInt 1; VInt 2; VInt 3].

(** [lo <= n <= hi], an absent bound leaving its side open: the pass
    condition as the specification words it. *)
Definition in_range (lo hi : option PyNum) (n : PyNum) : bool :=
  match lo with Some l => num_leb l n | None => true end
  && match hi with Some u => num_leb n u | None => true end.

(** [lo is not None and n < lo], [hi is not None and n > hi]: the two
    tests the code makes. *)
Definition too_low (n : PyNum) (lo : option PyNum) : bool :=
  match lo with Some l => num_ltb n l | None => false end.

Definition too_high (n : PyNum) (hi : option PyNum) : bool :=
  match hi with Some u => num_ltb u n | None => false end.

Definition bound_is_nan (bound : option PyNum) : bool :=
  match bound with Some b => is_nan b | None => false end.

(** The claim of C5 as the specification words it, on the default engine:
    a number passes iff [lo <= v <= hi]. *)
Definition passes_iff_in_range : Prop :=
  forall (h : Host) (frame : Frame) (n : PyNum) (lo hi : option PyNum),
    Assertions.assert_numeric h frame (value_of_num n) lo hi None
    = Ok (value_of_num n)
    <-> in_range lo hi n = true.

(** [key in d] for a dict given by its items *)
Definition has_key (items : list (PyValue * PyValue)) (key : string) : bool :=
  existsb (fun kv => is_text key (fst kv)) items.

(** The required keys the dict lacks, in the order they were asked for. *)
Definition missing_keys (items : list (PyValue * PyValue)) (keys : list string)
  : list string :=
  filter (fun key => negb (has_key items key)) keys.

(** The message [assert_mapping] raises for a non-empty list of missing
    keys: singular for one key, the list otherwise. *)
Definition missing_keys_message (var_name : string) (missing : list string)
  : string :=
  match missing with
  | [key] => "'" ++ var_name ++ "' missing required key: '" ++ key ++ "'"
  | _ => "'" ++ var_name ++ "' missing required keys: "
             ++ repr_list (map repr_str missing)
  end.

Definition empty_path_message (var_name : string) : string :=
  "'" ++ var_name ++ "' cannot be an empty path".

Definition conversion_message (var_name e : string) : string :=
  "'" ++ var_name ++ "' cannot be converted to a Path: " ++ e.





(** All references name engines built with the default configuration. *)
Definition default_heap : Heap := fun _ => new_engine None.

(** Two results agree on what a caller can observe apart from the text of
    the message: the same value, or an exception of the same class. *)
Definition same_outcome {A} (r1 r2 : result A) : Prop :=
  match r1, r2 with
  | Ok a, Ok b => a = b
  | Raise e1, Raise e2 => exc_type e1 = exc_type e2
  | _, _ => False
  end.

(** The result is a value, or an exception of class [cls]. *)
Definition raises_only {A} (cls : PyType) (r : result A) : Prop :=
  match r with
  | Ok _ => True
  | Raise e => exc_type e = cls
  end.

(** Two renderings of a message succeed together or fail with the same
    exception. *)
Definition same_status (r1 r2 : result string) : Prop :=
  match r1, r2 with
  | Ok _, Ok _ => True
  | Raise e1, Raise e2 => e1 = e2
  | _, _ => False
  end.

(** The closing line of each [get_error_message], written when none of
    the tests it repeats has fired. *)
Definition length_fallback (var_name : string) : string :=
  "'" ++ var_name ++ "' has invalid length".

Definition range_fallback (var_name : string) : string :=
  "'" ++ var_name ++ "' is out of valid range".

Definition path_fallback (var_name : string) : string :=
  "'" ++ var_name ++ "' path validation failed".

(** A root expression followed by attribute accesses: [root.a1.a2...]. *)
Fixpoint dotted (root : AstNode) (attrs : list string) : AstNode :=
  match attrs with
  | [] => root
  | attr :: rest => dotted (Attribute root attr) rest
  end.

(** The text a call leaves in a batch: its message when it raised. *)
Definition failure_text {A} (outcome : result A) : list string :=
  match outcome with
  | Ok _ => []
  | Raise e => [exc_msg e]
  end.

(** Several [add_validation] calls in a row. *)
Fixpoint add_all {A} (self : BatchValidator)
         (calls : list (PyValue * (PyValue -> result A)))
  : result BatchValidator :=
  match calls with
  | [] => Ok self
  | (value, validator_func) :: rest =>
      batch <- add_validation self value validator_func ;;
      add_all batch rest
  end.

(** The call returns or raises an exception that derives from
    [Exception]. *)
Definition ordinary {A} (outcome : result A) : Prop :=
  match outcome with
  | Ok _ => True
  | Raise e => issubclass (exc_type e) ty_Exception = true
  end.

(** A bound argument that has no hint or is an instance of its hint. *)
Definition fits_hint (type_hints : list (string * PyType))
           (argument : string * PyValue) : Prop :=
  forall hint, hint_of (fst argument) type_hints = Some hint ->
               isinstance (snd argument) hint = true.

(* ================================================================== *)
(** * Sample inputs *)
(* ================================================================== *)

(** A small host: a directory [/tmp], a file [/tmp/notes.txt], nothing
    else. *)
Definition sample_host : Host :=
  {| float_repr := fun q => str_of_Z (Qnum q) ++ "/" ++ str_of_Z (Zpos (Qden q));
     repr_other := fun _ => "<object>";
     node := fun p =>
               if String.eqb p "/tmp" then Some Dir
               else if String.eqb p "/tmp/notes.txt" then Some File
               else None;
     parent_of := fun _ => "/tmp";
     mkdir_error := fun _ => None |}.

(** A call site where the extractor reads the name [age]. *)
Definition sample_frame : Frame := {| extracted_name := "age" |}.

(* ================================================================== *)
(** * Facts about classes and text *)
(* ================================================================== *)

Lemma ty_eqb_refl (t : PyType) : ty_eqb t t = true.
Proof. unfold ty_eqb. destruct (PyType_eq_dec t t); congruence. Qed.

Lemma ty_eqb_eq (a b : PyType) : ty_eqb a b = true <-> a = b.
Proof.
  unfold ty_eqb. destruct (PyType_eq_dec a b); split; congruence.
Qed.

Lemma mro_head (t : PyType) : exists rest, mro t = t :: rest.
Proof. destruct t; simpl; eauto. Qed.

Lemma issubclass_refl (t : PyType) : issubclass t t = true.
Proof.
  unfold issubclass. destruct (mro_head t) as [rest ->].
  simpl. now rewrite ty_eqb_refl.
Qed.

Lemma issubclass_In (a b : PyType) : issubclass a b = true <-> In b (mro a).
Proof.
  unfold issubclass. rewrite existsb_exists. split.
  - intros [x [Hin Heq]]. apply ty_eqb_eq in Heq. now subst.
  - intros Hin. exists b. split; [assumption | apply ty_eqb_refl].
Qed.

Lemma append_assoc (a b c : string) : (a ++ b) ++ c = a ++ (b ++ c).
Proof. induction a as [| x a IH]; simpl; [reflexivity | now rewrite IH]. Qed.

Lemma append_empty_r (a : string) : a ++ "" = a.
Proof. induction a as [| x a IH]; simpl; [reflexivity | now rewrite IH]. Qed.

Lemma occurs_in_refl (s : string) : occurs_in s s.
Proof. exists "", "". simpl. now rewrite append_empty_r. Qed.

Lemma occurs_in_app_l (x a b : string) : occurs_in x a -> occurs_in x (a ++ b).
Proof.
  intros [pre [post ->]]. exists pre, (post ++ b).
  now rewrite !append_assoc.
Qed.

Lemma occurs_in_app_r (x a b : string) : occurs_in x b -> occurs_in x (a ++ b).
Proof.
  intros [pre [post ->]]. exists (a ++ pre), post.
  now rewrite !append_assoc.
Qed.

Lemma occurs_in_trans (x y z : string) :
  occurs_in x y -> occurs_in y z -> occurs_in x z.
Proof.
  intros [p1 [q1 ->]] [p2 [q2 ->]].
  exists (p2 ++ p1), (q1 ++ q2). now rewrite !append_assoc.
Qed.

Create HintDb occurs.
#[local] Hint Resolve occurs_in_refl occurs_in_app_l occurs_in_app_r : occurs.

Lemma occurs_in_concat (sep x : string) (items : list string) :
  In x items -> occurs_in x (String.concat sep items).
Proof.
  induction items as [| y [| z rest] IH]; simpl; intros Hin.
  - contradiction.
  - destruct Hin as [-> | []]. apply occurs_in_refl.
  - destruct Hin as [-> | Hin].
    + auto with occurs.
    + apply occurs_in_app_r, occurs_in_app_r. now apply IH.
Qed.

Lemma plain_char_printable (c : ascii) :
  plain_char c = true ->
  Ascii.eqb c backslash = false /\ Ascii.eqb c squote = false
  /\ str_printable c = true /\ (32 <= N_of_ascii c)%N.
Proof.
  unfold plain_char. rewrite !andb_true_iff, !negb_true_iff.
  intros [[Hp Hq] Hb]. repeat split; try assumption.
  unfold str_printable in Hp.
  apply orb_true_iff in Hp as [Hp | Hp];
    apply andb_true_iff in Hp as [Hlo _]; apply N.leb_le in Hlo; lia.
Qed.

Lemma escape_plain_char (c : ascii) :
  plain_char c = true -> escape_char str_printable squote c = char c.
Proof.
  intros H. destruct (plain_char_printable c H) as (Hb & Hq & Hp & Hlo).
  unfold escape_char. rewrite Hb, Hq, Hp.
  replace (N_of_ascii c =? 9)%N with false by (symmetry; apply N.eqb_neq; lia).
  replace (N_of_ascii c =? 10)%N with false by (symmetry; apply N.eqb_neq; lia).
  replace (N_of_ascii c =? 13)%N with false by (symmetry; apply N.eqb_neq; lia).
  reflexivity.
Qed.

Lemma escape_plain (s : string) :
  plain_text s = true -> escape str_printable squote s = s.
Proof.
  unfold plain_text.
  induction s as [| c s IH]; cbn [string_forallb escape]; [reflexivity |].
  intros H. apply andb_true_iff in H as [Hc Hs].
  now rewrite escape_plain_char, IH.
Qed.

Lemma plain_no_squote (s : string) :
  plain_text s = true -> string_existsb (Ascii.eqb squote) s = false.
Proof.
  unfold plain_text.
  induction s as [| c s IH]; cbn [string_forallb string_existsb];
    [reflexivity |].
  intros H. apply andb_true_iff in H as [Hc Hs].
  destruct (plain_char_printable c Hc) as (_ & Hq & _).
  rewrite Ascii.eqb_sym, Hq. now apply IH.
Qed.

(** [repr] of a plain text is the text between single quotes. *)
Lemma repr_str_plain (s : string) :
  plain_text s = true -> repr_str s = char squote ++ s ++ char squote.
Proof.
  intros H. unfold repr_str, pick_quote.
  rewrite (plain_no_squote s H). simpl. now rewrite (escape_plain s H).
Qed.

Lemma occurs_in_repr_str (s : string) :
  plain_text s = true -> occurs_in s (repr_str s).
Proof.
  intros H. rewrite (repr_str_plain s H).
  exists (char squote), (char squote). reflexivity.
Qed.

Lemma occurs_in_repr_list (s : string) (items : list string) :
  In s items -> plain_text s = true ->
  occurs_in s (repr_list (map repr_str items)).
Proof.
  intros Hin Hplain. unfold repr_list.
  apply occurs_in_app_r, occurs_in_app_l.
  apply occurs_in_trans with (repr_str s).
  - now apply occurs_in_repr_str.
  - apply occurs_in_concat. now apply in_map.
Qed.

Lemma occurs_in_repr_tuple (x : string) (items : list string) :
  In x items -> occurs_in x (repr_tuple items).
Proof.
  intros Hin. unfold repr_tuple.
  destruct items as [| y [| z rest]].
  - contradiction.
  - destruct Hin as [-> | []]. auto with occurs.
  - apply occurs_in_app_r, occurs_in_app_l. now apply occurs_in_concat.
Qed.

Lemma occurs_in_ty_str_of (t : PyType) : occurs_in (ty_name t) (ty_str_of t).
Proof.
  destruct t; simpl;
    try (exists "<class '", "'>"; reflexivity);
    try (exists "<class 'pathlib.", "'>"; reflexivity).
  exists ("<class '" ++ module_ ++ "."), "'>".
  now rewrite !append_assoc.
Qed.

(* ================================================================== *)
(** * The engine's dispatch, unfolded once per validator *)
(* ================================================================== *)

Section Dispatch.

Variable self : TypeValidationEngine.
Variable h : Host.
Variable frame : Frame.

Lemma validate_with_type value msg kwargs :
  _validate_with_engine self h frame "type" value msg kwargs
  = dispatch self h frame (TypeValidator (Some (init_config self)))
             value msg kwargs.
Proof. reflexivity. Qed.

Lemma validate_with_range value msg kwargs :
  _validate_with_engine self h frame "range" value msg kwargs
  = dispatch self h frame (RangeValidator (Some (init_config self)))
             value msg kwargs.
Proof. reflexivity. Qed.

Lemma validate_with_length value msg kwargs :
  _validate_with_engine self h frame "length" value msg kwargs
  = dispatch self h frame (LengthValidator (Some (init_config self)))
             value msg kwargs.
Proof. reflexivity. Qed.

Lemma validate_with_path value msg kwargs :
  _validate_with_engine self h frame "path" value msg kwargs
  = dispatch self h frame (PathValidator (Some (init_config self)))
             value msg kwargs.
Proof. reflexivity. Qed.

(** A validator that reports its verdict hands it back unchanged when
    the value passes. *)
Lemma dispatch_pass validator value msg kwargs :
  validate validator h value kwargs = Ok true ->
  dispatch self h frame validator value msg kwargs = Ok true.
Proof. unfold dispatch. now intros ->. Qed.

(** With [raise_on_failure] off the verdict comes back as it is. *)
Lemma dispatch_quiet validator value msg kwargs :
  raise_on_failure (config self) = false ->
  dispatch self h frame validator value msg kwargs
  = validate validator h value kwargs.
Proof.
  intros Hq. unfold dispatch.
  destruct (validate validator h value kwargs) as [b | e]; simpl;
    [| reflexivity].
  now rewrite Hq, andb_false_r.
Qed.

(** With [raise_on_failure] on, a failing verdict becomes the configured
    error carrying the validator's message. *)
Lemma dispatch_fail validator value kwargs text :
  raise_on_failure (config self) = true ->
  validate validator h value kwargs = Ok false ->
  get_error_message validator h value (_get_variable_name self frame) kwargs
  = Ok text ->
  dispatch self h frame validator value None kwargs
  = Raise (mkExc (custom_error_class (config self)) text).
Proof.
  intros Hr Hv Hm. unfold dispatch. rewrite Hv. simpl.
  now rewrite Hr, Hm.
Qed.

End Dispatch.

(* ================================================================== *)
(** * assert_type *)
(* ================================================================== *)

Lemma TypeValidator_validate_instance_of h v T :
  TypeValidator_validate h v (with_expected_type (Some T)) = Ok (instance_of v T).
Proof.
  unfold TypeValidator_validate, instance_of. simpl.
  destruct T as [t | ts | ts]; simpl; try reflexivity.
  now rewrite orb_false_r.
Qed.

Lemma TypeValidator_validate_tuple h v ts config :
  validate (TypeValidator config) h v (with_expected_type (Some (TypeTuple ts)))
  = Ok (isinstance_any v ts).
Proof. reflexivity. Qed.

Lemma TypeValidator_validate_one h v t config :
  validate (TypeValidator config) h v (with_expected_type (Some (OneType t)))
  = Ok (isinstance v t).
Proof. reflexivity. Qed.

(** The message [TypeValidator] renders names the subject and every
    candidate class. *)
Lemma type_message_names h v var_name T :
  exists text,
    TypeValidator_get_error_message h v var_name (with_expected_type (Some T))
    = Ok text
    /\ occurs_in var_name text
    /\ forall t, In t (candidates T) -> plain_text (ty_name t) = true ->
                 occurs_in (ty_name t) text.
Proof.
  unfold TypeValidator_get_error_message, with_expected_type.
  cbn [expected_type].
  destruct T as [t | ts | ts]; cbn [candidates];
    eexists; (split; [reflexivity |]); split.
  - exists "'". eexists. reflexivity.
  - intros t' [<- | []] _.
    exists ("'" ++ var_name ++ "' must be of type '").
    eexists. rewrite !append_assoc. reflexivity.
  - exists "'". eexists. reflexivity.
  - intros t Hin Hplain.
    apply occurs_in_app_r, occurs_in_app_r, occurs_in_app_r, occurs_in_app_l.
    apply occurs_in_repr_list; [| assumption].
    now apply in_map.
  - exists "'". eexists. reflexivity.
  - intros t Hin _.
    apply occurs_in_app_r, occurs_in_app_r, occurs_in_app_r, occurs_in_app_l.
    apply occurs_in_trans with (ty_str_of t).
    + apply occurs_in_ty_str_of.
    + apply occurs_in_repr_tuple. now apply in_map.
Qed.

(** C3. On an engine that raises on failure (the default engine behind the
    module-level [assert_type] is one), for every value [v] and expected
    type [T] (one class, a list of classes, or a tuple of classes):
    [assert_type(v, T)] returns [v] unchanged iff the runtime type of [v]
    is a member of [T] in the [isinstance] sense (it is one of the listed
    classes or derives from one; any listed class suffices); otherwise it
    raises the configured error class, and the message holds the subject
    name and the name of every candidate class. *)
Theorem assert_type_returns_iff_member :
  forall (self : TypeValidationEngine) (h : Host) (frame : Frame)
         (v : PyValue) (T : TypeSpec),
    raise_on_failure (config self) = true ->
    (assert_type self h frame v (Some T) None = Ok v <-> instance_of v T = true)
    /\ (instance_of v T = false ->
        exists text,
          assert_type self h frame v (Some T) None
          = Raise (mkExc (custom_error_class (config self)) text)
          /\ occurs_in (_get_variable_name self frame) text
          /\ forall t, In t (candidates T) -> plain_text (ty_name t) = true ->
                       occurs_in (ty_name t) text).
Proof.
  intros self h frame v T Hraise.
  unfold assert_type, _assert_with_engine. rewrite validate_with_type.
  destruct (instance_of v T) eqn:Hmem.
  - rewrite dispatch_pass
      by (simpl; now rewrite TypeValidator_validate_instance_of, Hmem).
    simpl. split; [tauto | discriminate].
  - destruct (type_message_names h v (_get_variable_name self frame) T)
      as (text & Htext & Hsubject & Hnames).
    rewrite (dispatch_fail self h frame _ v _ text Hraise)
      by (simpl; try assumption;
          now rewrite TypeValidator_validate_instance_of, Hmem).
    simpl. split.
    + split; discriminate.
    + intros _. exists text. auto.
Qed.

(** The module-level [assert_type] at a concrete call: [assert_type(42, str)]
    raises [TypeAssertionError] naming [age] and [str], and
    [assert_type(42, [int, str])] returns 42. *)
Lemma assert_type_returns_iff_member_witness :
  (exists text,
      Assertions.assert_type sample_host sample_frame (VInt 42)
                             (Some (OneType ty_str)) None
      = Raise (mkExc TypeAssertionError text)
      /\ occurs_in "age" text /\ occurs_in "str" text)
  /\ Assertions.assert_type sample_host sample_frame (VInt 42)
                            (Some (TypeList [ty_int; ty_str])) None
     = Ok (VInt 42).
Proof.
  split.
  - destruct (assert_type_returns_iff_member
                Assertions._default_engine sample_host sample_frame
                (VInt 42) (OneType ty_str) eq_refl) as [_ Hfail].
    destruct (Hfail eq_refl) as (text & Heq & Hsubject & Hnames).
    exists text. repeat split; try assumption.
    apply (Hnames ty_str); [left; reflexivity | reflexivity].
  - apply (assert_type_returns_iff_member
             Assertions._default_engine sample_host sample_frame
             (VInt 42) (TypeList [ty_int; ty_str]) eq_refl).
    reflexivity.
Defined.

(* ------------------------------------------------------------------ *)
(** ** A call without an expected type *)

Lemma ValueError_ancestors (c : PyType) :
  issubclass ty_ValueError c = true ->
  c = ty_ValueError \/ c = ty_Exception \/ c = ty_BaseException \/ c = ty_object.
Proof.
  rewrite issubclass_In. simpl. intuition auto.
Qed.

(** C8. For every value and every engine configuration, the type
    validator called without an expected type, and with it [assert_type]
    and the engine's own dispatch, raises the fixed [ValueError] whose
    message is [expected_type must be provided]: no boolean verdict comes
    back, [raise_on_failure] and [custom_error_class] have no say in it,
    and the exception is no instance of the configured error class
    whenever that class derives from [AssertionError], as the data model
    asks of it. *)
Theorem missing_expected_type_raises_ValueError :
  forall (self : TypeValidationEngine) (h : Host) (frame : Frame)
         (v : PyValue) (msg : option string) (kwargs : Kwargs),
    expected_type kwargs = None ->
    TypeValidator_validate h v kwargs
    = Raise (mkExc ty_ValueError "expected_type must be provided")
    /\ _validate_with_engine self h frame "type" v msg kwargs
       = Raise (mkExc ty_ValueError "expected_type must be provided")
    /\ assert_type self h frame v None msg
       = Raise (mkExc ty_ValueError "expected_type must be provided")
    /\ (issubclass (custom_error_class (config self)) ty_AssertionError = true ->
        issubclass ty_ValueError (custom_error_class (config self)) = false).
Proof.
  intros self h frame v msg kwargs Hnone.
  assert (Hval : TypeValidator_validate h v kwargs = Raise expected_type_missing)
    by (unfold TypeValidator_validate; now rewrite Hnone).
  split; [| split; [| split]].
  - exact Hval.
  - rewrite validate_with_type. unfold dispatch. simpl. now rewrite Hval.
  - reflexivity.
  - intros Hderives.
    destruct (issubclass ty_ValueError (custom_error_class (config self)))
      eqn:Hinst; [| reflexivity].
    apply ValueError_ancestors in Hinst.
    destruct Hinst as [Hc | [Hc | [Hc | Hc]]];
      rewrite Hc in Hderives; discriminate Hderives.
Qed.

(** On the lenient engine, which never raises a validation failure of its
    own, [assert_type(3, None)] still raises the [ValueError]. *)
Lemma missing_expected_type_raises_ValueError_witness :
  assert_type create_lenient_engine sample_host sample_frame (VInt 3) None None
  = Raise (mkExc ty_ValueError "expected_type must be provided")
  /\ issubclass ty_ValueError TypeAssertionError = false.
Proof.
  destruct (missing_expected_type_raises_ValueError
              create_lenient_engine sample_host sample_frame (VInt 3) None
              no_kwargs eq_refl) as (_ & _ & Hassert & Hclass).
  split; [exact Hassert | exact (Hclass eq_refl)].
Defined.

(* ------------------------------------------------------------------ *)
(** ** Booleans are integers *)

(** C10. For every boolean [b], on every engine, [assert_numeric(b)] and
    [assert_type(b, int)] pass and return [b], because [bool] derives from
    [int]; and [assert_numeric(True, min_val=0, max_val=1)] returns
    [True]. *)
Theorem bool_passes_as_int :
  forall (self : TypeValidationEngine) (h : Host) (frame : Frame)
         (b : bool) (msg : option string),
    issubclass ty_bool ty_int = true
    /\ assert_numeric self h frame (VBool b) None None msg = Ok (VBool b)
    /\ assert_type self h frame (VBool b) (Some (OneType ty_int)) msg
       = Ok (VBool b)
    /\ assert_numeric self h frame (VBool true)
                      (Some (NInt 0)) (Some (NInt 1)) msg
       = Ok (VBool true).
Proof.
  intros self h frame b msg. split; [reflexivity | split; [| split]].
  - unfold assert_numeric, _assert_with_engine.
    rewrite validate_with_type, dispatch_pass by reflexivity.
    reflexivity.
  - unfold assert_type, _assert_with_engine.
    rewrite validate_with_type, dispatch_pass by reflexivity.
    reflexivity.
  - unfold assert_numeric, _assert_with_engine.
    rewrite validate_with_type, dispatch_pass by reflexivity.
    cbn [bind is_some orb].
    rewrite validate_with_range, dispatch_pass by reflexivity.
    reflexivity.
Qed.

(* ================================================================== *)
(** * Lengths *)
(* ================================================================== *)

Lemma LengthValidator_validate_sized h v n kwargs :
  py_len v = Ok n ->
  LengthValidator_validate h v kwargs
  = Ok (negb (differs n (length kwargs))
        && negb (shorter n (min_len kwargs))
        && negb (longer n (max_len kwargs))).
Proof.
  intros Hlen. unfold LengthValidator_validate. rewrite Hlen.
  destruct (differs n (length kwargs)); [reflexivity |].
  destruct (shorter n (min_len kwargs)); [reflexivity |].
  destruct (longer n (max_len kwargs)); reflexivity.
Qed.

Lemma not_shorter_iff n lo :
  shorter n lo = false <-> (forall l, lo = Some l -> l <= n).
Proof.
  destruct lo as [l |]; simpl.
  - rewrite Z.ltb_ge. split.
    + intros H l' [= <-]. exact H.
    + intros H. now apply H.
  - split; [intros _ l' [=] | reflexivity].
Qed.

Lemma not_longer_iff n hi :
  longer n hi = false <-> (forall u, hi = Some u -> n <= u).
Proof.
  destruct hi as [u |]; simpl.
  - rewrite Z.gtb_ltb, Z.ltb_ge. split.
    + intros H u' [= <-]. exact H.
    + intros H. now apply H.
  - split; [intros _ u' [=] | reflexivity].
Qed.

Lemma length_verdict_iff n k lo hi :
  negb (differs n (Some k)) && negb (shorter n lo) && negb (longer n hi) = true
  <-> n = k /\ within_bounds lo hi n.
Proof.
  unfold within_bounds.
  rewrite !andb_true_iff, !negb_true_iff, not_shorter_iff, not_longer_iff.
  simpl. rewrite negb_false_iff, Z.eqb_eq. tauto.
Qed.

(** With [raise_on_failure] on, a failing verdict never comes back as a
    value, whatever message was asked for. *)
Lemma dispatch_fail_raises self h frame validator value msg kwargs :
  raise_on_failure (config self) = true ->
  validate validator h value kwargs = Ok false ->
  exists e, dispatch self h frame validator value msg kwargs = Raise e.
Proof.
  intros Hr Hv. unfold dispatch. rewrite Hv. cbn [bind negb andb].
  rewrite Hr.
  match goal with
  | |- context [msg_or ?m ?g] => destruct (msg_or m g) as [text | e]
  end; cbn [bind]; unfold raise_; eauto.
Qed.

(** A list of three items asked to have exactly three and at least five:
    the validator reports a failure, and [assert_sequence] on the default
    engine raises for the lower bound. *)
Lemma exact_length_still_checks_bounds :
  py_len three_items = Ok 3
  /\ LengthValidator_validate sample_host three_items
                              (with_length (Some 5) None (Some 3))
     = Ok false
  /\ Assertions.assert_sequence sample_host sample_frame three_items
                                (Some 5) None (Some 3) None
     = Raise (mkExc TypeAssertionError
                    "'age' must have length >= 5, but got 3")
  /\ ~ exact_length_ignores_bounds.
Proof.
  split; [reflexivity | split; [reflexivity | split; [reflexivity |]]].
  intros Hclaim.
  specialize (Hclaim sample_host three_items 3 3 (Some 5) None eq_refl).
  destruct Hclaim as [_ Hpass]. specialize (Hpass eq_refl).
  discriminate Hpass.
Qed.

(** C4, amended. For every sized value [v] and integer [k], the length
    validator given the exact length [k] passes iff [len(v) == k] and
    [len(v)] also respects every [min_len] / [max_len] bound supplied: the
    bounds are checked after the exact length, not ignored. The exact
    length reaches the validator through [assert_sequence] (whose [length]
    argument [assert_length] does not have), which on an engine that
    raises on failure returns the list or tuple under the same condition. *)
Theorem exact_length_and_bounds :
  forall (h : Host) (v : PyValue) (n k : Z) (lo hi : option Z),
    py_len v = Ok n ->
    (LengthValidator_validate h v (with_length lo hi (Some k)) = Ok true
     <-> n = k /\ within_bounds lo hi n)
    /\ (forall (self : TypeValidationEngine) (frame : Frame),
           raise_on_failure (config self) = true ->
           isinstance_any v [ty_list; ty_tuple] = true ->
           (assert_sequence self h frame v lo hi (Some k) None = Ok v
            <-> n = k /\ within_bounds lo hi n)).
Proof.
  intros h v n k lo hi Hlen.
  pose proof (LengthValidator_validate_sized h v n
                (with_length lo hi (Some k)) Hlen) as Hval.
  cbn [length min_len max_len with_length] in Hval.
  pose proof (length_verdict_iff n k lo hi) as Hiff.
  split.
  - rewrite Hval. split.
    + intros [= Hverdict]. now apply Hiff.
    + intros Hcond. apply Hiff in Hcond. now rewrite Hcond.
  - intros self frame Hraise Hseq.
    unfold assert_sequence, _assert_with_engine.
    rewrite validate_with_type, dispatch_pass
      by (now rewrite TypeValidator_validate_tuple, Hseq).
    cbn [bind]. rewrite !orb_true_r, validate_with_length.
    destruct (negb (differs n (Some k)) && negb (shorter n lo)
              && negb (longer n hi)) eqn:Hverdict.
    + rewrite dispatch_pass by exact Hval. simpl. tauto.
    + destruct (dispatch_fail_raises self h frame
                  (LengthValidator (Some (init_config self))) v None
                  (with_length lo hi (Some k)) Hraise Hval) as [e ->].
      simpl. split; [discriminate |].
      intros Hcond. apply Hiff in Hcond. discriminate Hcond.
Qed.

(** Three items, exactly three asked, between two and four allowed: the
    validator passes and [assert_sequence] returns the list. *)
Lemma exact_length_and_bounds_witness :
  LengthValidator_validate sample_host three_items
                           (with_length (Some 2) (Some 4) (Some 3))
  = Ok true
  /\ Assertions.assert_sequence sample_host sample_frame three_items
                                (Some 2) (Some 4) (Some 3) None
     = Ok three_items.
Proof.
  assert (Hin : 3 = 3 /\ within_bounds (Some 2) (Some 4) 3).
  { split; [reflexivity |].
    split; intros b Hb; injection Hb as <-; lia. }
  destruct (exact_length_and_bounds sample_host three_items 3 3
              (Some 2) (Some 4) eq_refl) as [Hvalidator Hengine].
  split.
  - apply Hvalidator. exact Hin.
  - apply (Hengine Assertions._default_engine sample_frame eq_refl eq_refl).
    exact Hin.
Defined.

(* ================================================================== *)
(** * Numeric ranges *)
(* ================================================================== *)

Lemma ext_ltb_negb_leb (x y : ext) : ext_ltb x y = negb (ext_leb y x).
Proof. destruct x, y; reflexivity. Qed.

Lemma num_ext_not_nan (n : PyNum) :
  is_nan n = false -> exists x, num_ext n = Some x.
Proof.
  destruct n as [z | [| neg | q]]; simpl; intros H;
    try discriminate; eauto.
Qed.

(** Away from NaN, [a < b] is the negation of [b <= a]. *)
Lemma num_ltb_negb_leb (a b : PyNum) :
  is_nan a = false -> is_nan b = false -> num_ltb a b = negb (num_leb b a).
Proof.
  intros Ha Hb.
  destruct (num_ext_not_nan a Ha) as [x Hx].
  destruct (num_ext_not_nan b Hb) as [y Hy].
  unfold num_ltb, num_leb. rewrite Hx, Hy. apply ext_ltb_negb_leb.
Qed.

Lemma num_leb_refl (n : PyNum) : is_nan n = false -> num_leb n n = true.
Proof.
  intros Hn. destruct (num_ext_not_nan n Hn) as [x Hx].
  unfold num_leb. rewrite Hx.
  destruct x as [| q |]; simpl; try reflexivity.
  apply Qle_bool_iff, Qle_refl.
Qed.

Lemma in_range_iff_not_outside (n : PyNum) (lo hi : option PyNum) :
  is_nan n = false -> bound_is_nan lo = false -> bound_is_nan hi = false ->
  in_range lo hi n = negb (too_low n lo) && negb (too_high n hi).
Proof.
  intros Hn Hlo Hhi. unfold in_range, too_low, too_high.
  destruct lo as [l |], hi as [u |]; simpl in Hlo, Hhi;
    rewrite ?num_ltb_negb_leb, ?negb_involutive by assumption; reflexivity.
Qed.

Lemma below_num v n lo : as_num v = Some n -> below v lo = Ok (too_low n lo).
Proof.
  intros Hv. unfold below, too_low, py_lt. rewrite Hv. now destruct lo.
Qed.

Lemma above_num v n hi : as_num v = Some n -> above v hi = Ok (too_high n hi).
Proof.
  intros Hv. unfold above, too_high, py_gt. rewrite Hv. now destruct hi.
Qed.

Lemma RangeValidator_validate_num h v n lo hi :
  as_num v = Some n ->
  RangeValidator_validate h v (with_range lo hi)
  = Ok (negb (too_low n lo) && negb (too_high n hi)).
Proof.
  intros Hv. unfold RangeValidator_validate. cbn [min_val max_val with_range].
  rewrite (below_num v n lo Hv). cbn [bind].
  destruct (too_low n lo); [reflexivity |].
  rewrite (above_num v n hi Hv). cbn [bind].
  now destruct (too_high n hi).
Qed.

Lemma RangeValidator_message_num h v n var_name lo hi :
  as_num v = Some n ->
  exists text,
    RangeValidator_get_error_message h v var_name (with_range lo hi) = Ok text.
Proof.
  intros Hv. unfold RangeValidator_get_error_message.
  cbn [min_val max_val with_range].
  rewrite (below_num v n lo Hv). cbn [bind].
  destruct (too_low n lo); [eauto |].
  rewrite (above_num v n hi Hv). cbn [bind].
  destruct (too_high n hi); eauto.
Qed.

Lemma num_is_int_or_float v n :
  as_num v = Some n -> isinstance_any v [ty_int; ty_float] = true.
Proof. destruct v; simpl; intros H; try discriminate; reflexivity. Qed.

(** What [assert_numeric] does with a number, on an engine that raises on
    failure: it returns the value unless one of the two tests fires, and
    then raises the configured class. *)
Lemma assert_numeric_num self h frame v n lo hi :
  raise_on_failure (config self) = true ->
  as_num v = Some n ->
  (negb (too_low n lo) && negb (too_high n hi) = true ->
   assert_numeric self h frame v lo hi None = Ok v)
  /\ (negb (too_low n lo) && negb (too_high n hi) = false ->
      exists text,
        assert_numeric self h frame v lo hi None
        = Raise (mkExc (custom_error_class (config self)) text)).
Proof.
  intros Hraise Hv. unfold assert_numeric, _assert_with_engine.
  rewrite validate_with_type, dispatch_pass
    by (now rewrite TypeValidator_validate_tuple, (num_is_int_or_float v n Hv)).
  cbn [bind].
  destruct (is_some lo || is_some hi) eqn:Hgiven.
  - rewrite validate_with_range.
    pose proof (RangeValidator_validate_num h v n lo hi Hv) as Hval.
    split; intros Hverdict; rewrite Hverdict in Hval.
    + now rewrite dispatch_pass by exact Hval.
    + destruct (RangeValidator_message_num h v n
                  (_get_variable_name self frame) lo hi Hv) as [text Htext].
      rewrite (dispatch_fail self h frame
                 (RangeValidator (Some (init_config self))) v
                 (with_range lo hi) text Hraise Hval Htext).
      cbn [bind]. eauto.
  - destruct lo, hi; try discriminate Hgiven.
    split; [reflexivity | discriminate].
Qed.

(** [assert_numeric(float("nan"), min_val=0, max_val=1)] returns its
    argument, although [0 <= nan <= 1] is false: NaN is neither below 0
    nor above 1, the only two things the range validator tests. *)
Lemma nan_passes_every_range :
  Assertions.assert_numeric sample_host sample_frame (VFloat FNan)
                            (Some (NInt 0)) (Some (NInt 1)) None
  = Ok (VFloat FNan)
  /\ in_range (Some (NInt 0)) (Some (NInt 1)) (NFloat FNan) = false
  /\ ~ passes_iff_in_range.
Proof.
  split; [reflexivity | split; [reflexivity |]].
  intros Hclaim.
  specialize (Hclaim sample_host sample_frame (NFloat FNan)
                     (Some (NInt 0)) (Some (NInt 1))).
  destruct Hclaim as [Hpass _]. specialize (Hpass eq_refl).
  discriminate Hpass.
Qed.

(** C5, amended. On an engine that raises on failure, for every number
    [v] (an int, a float, or a bool counting as an int) and optional bounds
    [lo] and [hi], none of them NaN: [assert_numeric(v, lo, hi)] returns
    [v] iff [lo <= v <= hi], an absent bound leaving its side open, and
    raises the configured error class otherwise; the boundary values
    [v == lo] and [v == hi] pass. *)
Theorem assert_numeric_passes_iff_in_range :
  forall (self : TypeValidationEngine) (h : Host) (frame : Frame)
         (v : PyValue) (n : PyNum) (lo hi : option PyNum),
    raise_on_failure (config self) = true ->
    as_num v = Some n ->
    is_nan n = false -> bound_is_nan lo = false -> bound_is_nan hi = false ->
    (assert_numeric self h frame v lo hi None = Ok v
     <-> in_range lo hi n = true)
    /\ (in_range lo hi n = false ->
        exists text,
          assert_numeric self h frame v lo hi None
          = Raise (mkExc (custom_error_class (config self)) text))
    /\ assert_numeric self h frame v (Some n) (Some n) None = Ok v.
Proof.
  intros self h frame v n lo hi Hraise Hv Hn Hlo Hhi.
  destruct (assert_numeric_num self h frame v n lo hi Hraise Hv)
    as [Hpass Hfail].
  rewrite <- (in_range_iff_not_outside n lo hi Hn Hlo Hhi) in Hpass, Hfail.
  split; [| split].
  - split; [| exact Hpass].
    intros Hok. destruct (in_range lo hi n); [reflexivity |].
    destruct (Hfail eq_refl) as [text Htext].
    rewrite Htext in Hok. discriminate Hok.
  - exact Hfail.
  - apply (assert_numeric_num self h frame v n (Some n) (Some n) Hraise Hv).
    rewrite <- (in_range_iff_not_outside n (Some n) (Some n) Hn Hn Hn).
    unfold in_range. now rewrite (num_leb_refl n Hn).
Qed.

(** [assert_numeric(50, min_val=0, max_val=100)] returns 50 and
    [assert_numeric(0, min_val=0, max_val=0)] returns 0 on the default
    engine, while [assert_numeric(101, min_val=0, max_val=100)] raises
    [TypeAssertionError]. *)
Lemma assert_numeric_passes_iff_in_range_witness :
  Assertions.assert_numeric sample_host sample_frame (VInt 50)
                            (Some (NInt 0)) (Some (NInt 100)) None
  = Ok (VInt 50)
  /\ Assertions.assert_numeric sample_host sample_frame (VInt 0)
                               (Some (NInt 0)) (Some (NInt 0)) None
     = Ok (VInt 0)
  /\ exists text,
      Assertions.assert_numeric sample_host sample_frame (VInt 101)
                                (Some (NInt 0)) (Some (NInt 100)) None
      = Raise (mkExc TypeAssertionError text).
Proof.
  split; [| split].
  - destruct (assert_numeric_passes_iff_in_range
                Assertions._default_engine sample_host sample_frame
                (VInt 50) (NInt 50) (Some (NInt 0)) (Some (NInt 100))
                eq_refl eq_refl eq_refl eq_refl eq_refl) as (Hiff & _ & _).
    apply Hiff. reflexivity.
  - destruct (assert_numeric_passes_iff_in_range
                Assertions._default_engine sample_host sample_frame
                (VInt 0) (NInt 0) (Some (NInt 0)) (Some (NInt 0))
                eq_refl eq_refl eq_refl eq_refl eq_refl) as (_ & _ & Hedge).
    exact Hedge.
  - destruct (assert_numeric_passes_iff_in_range
                Assertions._default_engine sample_host sample_frame
                (VInt 101) (NInt 101) (Some (NInt 0)) (Some (NInt 100))
                eq_refl eq_refl eq_refl eq_refl eq_refl) as (_ & Hfail & _).
    apply Hfail. reflexivity.
Defined.

(* ================================================================== *)
(** * Required keys of a mapping *)
(* ================================================================== *)

Lemma missing_from_dict items keys :
  missing_from (VDict items) keys = Ok (missing_keys items keys).
Proof.
  induction keys as [| key rest IH]; [reflexivity |].
  cbn [missing_from py_contains bind]. rewrite IH. cbn [bind].
  unfold missing_keys, has_key. cbn [filter].
  now destruct (existsb _ items).
Qed.

Lemma missing_keys_nonempty items keys :
  missing_keys items keys <> []
  <-> exists key, In key keys /\ has_key items key = false.
Proof.
  unfold missing_keys. split.
  - destruct (filter _ keys) as [| key rest] eqn:Hf; [congruence |].
    intros _. exists key.
    assert (Hin : In key (filter (fun k => negb (has_key items k)) keys))
      by (rewrite Hf; now left).
    apply filter_In in Hin as [Hin Hneg].
    split; [assumption | now apply negb_true_iff].
  - intros (key & Hin & Habsent) Hempty.
    assert (Hmem : In key (filter (fun k => negb (has_key items k)) keys))
      by (apply filter_In; split; [assumption | now apply negb_true_iff]).
    rewrite Hempty in Hmem. contradiction.
Qed.

Lemma assert_mapping_dict self h frame items keys :
  assert_mapping self h frame (VDict items) (Some (KeyList keys)) None
  = match missing_keys items keys with
    | [] => Ok (VDict items)
    | missing =>
        Raise (mkExc (custom_error_class (config self))
                     (missing_keys_message (_get_variable_name self frame)
                                           missing))
    end.
Proof.
  unfold assert_mapping, _assert_with_engine.
  rewrite validate_with_type, dispatch_pass by reflexivity.
  cbn [bind]. rewrite missing_from_dict. cbn [bind].
  destruct (missing_keys items keys) as [| k1 [| k2 rest]]; reflexivity.
Qed.

Lemma missing_keys_message_names var_name missing key :
  In key missing -> plain_text key = true ->
  occurs_in key (missing_keys_message var_name missing).
Proof.
  intros Hin Hplain. unfold missing_keys_message.
  destruct missing as [| k1 [| k2 rest]].
  - contradiction.
  - destruct Hin as [-> | []].
    exists ("'" ++ var_name ++ "' missing required key: '"), "'".
    now rewrite !append_assoc.
  - apply occurs_in_app_r, occurs_in_app_r, occurs_in_app_r.
    now apply occurs_in_repr_list.
Qed.

(** C6. For every dict and list of required keys, on every engine,
    [assert_mapping] raises exactly when at least one required key is
    absent and otherwise returns the dict; the error is of the configured
    class and its message is built from the missing keys in the order they
    were given, with the singular phrasing when exactly one is missing, so
    every missing key is named in it. On [{"a": 1}] with
    [required_keys=["a", "b"]] the message names exactly [b]; on [{}] it
    lists [a] and [b] in that order. *)
Theorem assert_mapping_names_missing_keys :
  forall (self : TypeValidationEngine) (h : Host) (frame : Frame)
         (items : list (PyValue * PyValue)) (keys : list string),
    let d := VDict items in
    let call := assert_mapping self h frame d (Some (KeyList keys)) None in
    let var_name := _get_variable_name self frame in
    (raises call <-> exists key, In key keys /\ has_key items key = false)
    /\ ((forall key, In key keys -> has_key items key = true) -> call = Ok d)
    /\ (missing_keys items keys <> [] ->
        call = Raise (mkExc (custom_error_class (config self))
                            (missing_keys_message var_name
                                                  (missing_keys items keys)))
        /\ forall key, In key keys -> has_key items key = false ->
                       plain_text key = true ->
                       occurs_in key (missing_keys_message
                                        var_name (missing_keys items keys)))
    /\ assert_mapping self h frame (VDict [(VStr "a", VInt 1)])
                      (Some (KeyList ["a"; "b"])) None
       = Raise (mkExc (custom_error_class (config self))
                      ("'" ++ var_name ++ "' missing required key: 'b'"))
    /\ assert_mapping self h frame (VDict [])
                      (Some (KeyList ["a"; "b"])) None
       = Raise (mkExc (custom_error_class (config self))
                      ("'" ++ var_name ++ "' missing required keys: ['a', 'b']")).
Proof.
  intros self h frame items keys d call var_name.
  pose proof (assert_mapping_dict self h frame items keys) as Hcall.
  fold d call var_name in Hcall.
  split; [| split; [| split; [| split]]].
  - rewrite <- missing_keys_nonempty. unfold raises. rewrite Hcall.
    destruct (missing_keys items keys) as [| k rest]; split.
    + intros [e He]. discriminate He.
    + intros Hne. now contradiction Hne.
    + discriminate.
    + eauto.
  - intros Hall. rewrite Hcall.
    destruct (missing_keys items keys) as [| k rest] eqn:Hm; [reflexivity |].
    assert (Hne : missing_keys items keys <> []) by (rewrite Hm; discriminate).
    apply missing_keys_nonempty in Hne as (key & Hin & Habsent).
    rewrite (Hall key Hin) in Habsent. discriminate Habsent.
  - intros Hne. split.
    + rewrite Hcall.
      destruct (missing_keys items keys); [now contradiction Hne | reflexivity].
    + intros key Hin Habsent Hplain.
      apply missing_keys_message_names; [| assumption].
      apply filter_In. split; [assumption | now apply negb_true_iff].
  - apply assert_mapping_dict.
  - apply assert_mapping_dict.
Qed.

(** The two calls of the claim on the default engine, at a call site
    where the subject reads [age]. *)
Lemma assert_mapping_names_missing_keys_witness :
  Assertions.assert_mapping sample_host sample_frame
                            (VDict [(VStr "a", VInt 1)])
                            (Some (KeyList ["a"; "b"])) None
  = Raise (mkExc TypeAssertionError "'age' missing required key: 'b'")
  /\ Assertions.assert_mapping sample_host sample_frame (VDict [])
                               (Some (KeyList ["a"; "b"])) None
     = Raise (mkExc TypeAssertionError
                    "'age' missing required keys: ['a', 'b']")
  /\ Assertions.assert_mapping sample_host sample_frame
                               (VDict [(VStr "a", VInt 1); (VStr "b", VNone)])
                               (Some (KeyList ["a"; "b"])) None
     = Ok (VDict [(VStr "a", VInt 1); (VStr "b", VNone)]).
Proof.
  destruct (assert_mapping_names_missing_keys
              Assertions._default_engine sample_host sample_frame
              [(VStr "a", VInt 1); (VStr "b", VNone)] ["a"; "b"])
    as (_ & Hpresent & _ & Hone & Hboth).
  split; [exact Hone | split; [exact Hboth |]].
  apply Hpresent.
  intros key [<- | [<- | []]]; reflexivity.
Defined.

(* ================================================================== *)
(** * Paths *)
(* ================================================================== *)

Lemma lstrip_whitespace (s : string) :
  whitespace_only s = true -> lstrip s = EmptyString.
Proof.
  induction s as [| c s IH]; simpl; [reflexivity |].
  intros H. apply andb_true_iff in H as [Hc Hs]. rewrite Hc. now apply IH.
Qed.

Lemma lstrip_text (s : string) :
  whitespace_only s = false ->
  exists c rest, lstrip s = String c rest /\ py_isspace c = false.
Proof.
  induction s as [| c s IH]; simpl; [discriminate |].
  destruct (py_isspace c) eqn:Hc; simpl.
  - exact IH.
  - intros _. exists c, s. now split.
Qed.

Lemma rstrip_keeps_head (c : ascii) (s : string) :
  py_isspace c = false -> exists rest, rstrip (String c s) = String c rest.
Proof.
  intros Hc. cbn [rstrip]. destruct (rstrip s) as [| c' r].
  - rewrite Hc. now exists EmptyString.
  - now exists (String c' r).
Qed.

(** [len(s.strip()) == 0] exactly when [s] is empty or all whitespace. *)
Lemma strip_empty_iff (s : string) :
  Z.eqb (str_len (strip s)) 0 = whitespace_only s.
Proof.
  unfold strip. destruct (whitespace_only s) eqn:Hs.
  - now rewrite (lstrip_whitespace s Hs).
  - destruct (lstrip_text s Hs) as (c & rest & -> & Hc).
    destruct (rstrip_keeps_head c rest Hc) as [r ->].
    reflexivity.
Qed.

Lemma is_empty_text_str (s : string) :
  is_empty_text (VStr s) = whitespace_only s.
Proof. unfold is_empty_text. cbn. apply strip_empty_iff. Qed.

Lemma append_inv_head (a x y : string) : a ++ x = a ++ y -> x = y.
Proof.
  induction a as [| c a IH]; simpl; [tauto |].
  intros [= H]. now apply IH.
Qed.

Lemma empty_is_not_conversion (var_name e : string) :
  empty_path_message var_name <> conversion_message var_name e.
Proof.
  unfold empty_path_message, conversion_message. intros H.
  injection H as H. apply append_inv_head in H. discriminate H.
Qed.

Lemma node_of_dir h d : path_is_dir h d = true -> node h d = Some Dir.
Proof.
  unfold path_is_dir. destruct (node h d) as [[] |]; congruence.
Qed.

(** The path validator on a path object naming an existing directory. *)
Lemma PathValidator_on_directory h d must_be_file must_be_dir :
  path_is_dir h d = true ->
  PathValidator_validate h (VPath d) (with_path None must_be_file must_be_dir)
  = Ok (negb must_be_file).
Proof.
  intros Hdir. apply node_of_dir in Hdir.
  unfold PathValidator_validate, path_exists, path_is_file, path_is_dir.
  cbn. rewrite Hdir.
  destruct must_be_file, must_be_dir; reflexivity.
Qed.

Lemma PathValidator_message_not_a_file h d var_name must_be_dir :
  path_is_dir h d = true ->
  PathValidator_get_error_message h (VPath d) var_name
                                  (with_path None true must_be_dir)
  = Ok ("'" ++ var_name ++ "' must be a file, but '" ++ d
            ++ "' is not a file").
Proof.
  intros Hdir. apply node_of_dir in Hdir.
  unfold PathValidator_get_error_message, path_exists, path_is_file.
  cbn. now rewrite Hdir.
Qed.

(** [assert_path] on a text that is not blank, without parent creation:
    the text becomes a path object and the path validator decides. *)
Lemma assert_path_text self h frame s must_exist must_be_file must_be_dir msg :
  whitespace_only s = false ->
  assert_path self h frame (VStr s) must_exist must_be_file must_be_dir false msg
  = (_ <- _validate_with_engine self h frame "path" (VPath s) msg
            (with_path must_exist must_be_file must_be_dir) ;;
     Ok (VPath s),
     h).
Proof.
  intros Hs. unfold assert_path.
  change (convert_for_assert (VStr s)) with (@Ok string s).
  cbv iota. now rewrite is_empty_text_str, Hs.
Qed.

(** The same for a path object, which is handed on as it is. *)
Lemma assert_path_object self h frame p must_exist must_be_file must_be_dir msg :
  assert_path self h frame (VPath p) must_exist must_be_file must_be_dir false msg
  = (_ <- _validate_with_engine self h frame "path" (VPath p) msg
            (with_path must_exist must_be_file must_be_dir) ;;
     Ok (VPath p),
     h).
Proof. reflexivity. Qed.

(** C7. On every engine and for every text that is empty or holds only
    whitespace, [assert_path] raises the configured error with the
    cannot-be-an-empty-path message, whatever [must_exist] and the other
    options are; that message is never the one of a conversion failure.
    For a directory [d] that exists, given as a text that is not blank or
    as a path object, [assert_path(d, must_be_dir=True)] returns the path,
    and [assert_path(d, must_be_file=True)] fails: the path validator
    rejects it, and the engine raises when it is set to raise on
    failure. *)
Theorem assert_path_empty_text_and_directory :
  forall (self : TypeValidationEngine) (h : Host) (frame : Frame),
    let var_name := _get_variable_name self frame in
    let cls := custom_error_class (config self) in
    (forall s must_exist must_be_file must_be_dir create_parents,
        whitespace_only s = true ->
        assert_path self h frame (VStr s) must_exist must_be_file must_be_dir
                    create_parents None
        = (Raise (mkExc cls (empty_path_message var_name)), h))
    /\ (forall e, empty_path_message var_name <> conversion_message var_name e)
    /\ (forall d,
           whitespace_only d = false ->
           path_is_dir h d = true ->
           assert_path self h frame (VStr d) None false true false None
           = (Ok (VPath d), h)
           /\ assert_path self h frame (VPath d) None false true false None
              = (Ok (VPath d), h)
           /\ PathValidator_validate h (VPath d) (with_path None true false)
              = Ok false
           /\ (raise_on_failure (config self) = true ->
               assert_path self h frame (VStr d) None true false false None
               = (Raise (mkExc cls ("'" ++ var_name ++ "' must be a file, but '"
                                        ++ d ++ "' is not a file")),
                  h))).
Proof.
  intros self h frame var_name cls. split; [| split].
  - intros s must_exist must_be_file must_be_dir create_parents Hblank.
    unfold assert_path.
    change (convert_for_assert (VStr s)) with (@Ok string s).
    cbv iota. now rewrite is_empty_text_str, Hblank.
  - apply empty_is_not_conversion.
  - intros d Htext Hdir. split; [| split; [| split]].
    + rewrite (assert_path_text self h frame d _ _ _ _ Htext).
      rewrite validate_with_path, dispatch_pass; [reflexivity |].
      apply (PathValidator_on_directory h d false true Hdir).
    + rewrite assert_path_object.
      rewrite validate_with_path, dispatch_pass; [reflexivity |].
      apply (PathValidator_on_directory h d false true Hdir).
    + apply (PathValidator_on_directory h d true false Hdir).
    + intros Hraise.
      rewrite (assert_path_text self h frame d _ _ _ _ Htext).
      rewrite validate_with_path.
      rewrite (dispatch_fail self h frame
                 (PathValidator (Some (init_config self))) (VPath d)
                 (with_path None true false)
                 ("'" ++ var_name ++ "' must be a file, but '" ++ d
                      ++ "' is not a file") Hraise).
      * reflexivity.
      * apply (PathValidator_on_directory h d true false Hdir).
      * apply (PathValidator_message_not_a_file h d var_name false Hdir).
Qed.

(** On the default engine with [/tmp] an existing directory:
    [assert_path("")] and [assert_path("  ", must_exist=False)] raise the
    empty-path error, [assert_path("/tmp", must_be_dir=True)] returns the
    path and [assert_path("/tmp", must_be_file=True)] raises. *)
Lemma assert_path_empty_text_and_directory_witness :
  fst (Assertions.assert_path sample_host sample_frame (VStr "")
                              None false false false None)
  = Raise (mkExc TypeAssertionError "'age' cannot be an empty path")
  /\ fst (Assertions.assert_path sample_host sample_frame (VStr "  ")
                                 (Some false) false false false None)
     = Raise (mkExc TypeAssertionError "'age' cannot be an empty path")
  /\ fst (Assertions.assert_path sample_host sample_frame (VStr "/tmp")
                                 None false true false None)
     = Ok (VPath "/tmp")
  /\ fst (Assertions.assert_path sample_host sample_frame (VStr "/tmp")
                                 None true false false None)
     = Raise (mkExc TypeAssertionError
                    "'age' must be a file, but '/tmp' is not a file").
Proof.
  destruct (assert_path_empty_text_and_directory
              Assertions._default_engine sample_host sample_frame)
    as (Hblank & _ & Hdir).
  destruct (Hdir "/tmp" eq_refl eq_refl) as (Hpass & _ & _ & Hfail).
  split; [| split; [| split]].
  - unfold Assertions.assert_path.
    now rewrite (Hblank "" None false false false eq_refl).
  - unfold Assertions.assert_path.
    now rewrite (Hblank "  " (Some false) false false false eq_refl).
  - unfold Assertions.assert_path. now rewrite Hpass.
  - unfold Assertions.assert_path. now rewrite (Hfail eq_refl).
Defined.

(* ================================================================== *)
(** * The lenient engine *)
(* ================================================================== *)

(** C2. The engine of [create_lenient_engine] has [raise_on_failure] off,
    and a check that goes through the validators does come back without
    raising ([assert_type(42, str)] returns 42). The checks the engine
    makes itself do not look at the flag: on the lenient engine
    [assert_not_none(None)], [assert_path("")], [assert_path(5)] and
    [assert_mapping({}, required_keys="a")] all raise
    [TypeAssertionError]; and [assert_numeric("abc", min_val=0)], whose
    failed type check is passed over, runs into the [TypeError] of
    comparing a text with a number. *)
Theorem lenient_engine_still_raises :
  forall (h : Host) (frame : Frame),
    let var_name := extract_from_frame frame in
    raise_on_failure (config create_lenient_engine) = false
    /\ assert_type create_lenient_engine h frame (VInt 42)
                   (Some (OneType ty_str)) None
       = Ok (VInt 42)
    /\ assert_not_none create_lenient_engine frame VNone None
       = Raise (mkExc TypeAssertionError ("'" ++ var_name ++ "' must not be None"))
    /\ assert_path create_lenient_engine h frame (VStr "")
                   None false false false None
       = (Raise (mkExc TypeAssertionError
                       ("'" ++ var_name ++ "' cannot be an empty path")),
          h)
    /\ assert_path create_lenient_engine h frame (VInt 5)
                   None false false false None
       = (Raise (mkExc TypeAssertionError
                       ("'" ++ var_name ++ "' cannot be converted to a Path: "
                            ++ "expected str, bytes or os.PathLike object, not int")),
          h)
    /\ assert_mapping create_lenient_engine h frame (VDict [])
                      (Some (OneKey "a")) None
       = Raise (mkExc TypeAssertionError
                      ("'" ++ var_name ++ "' missing required key: 'a'"))
    /\ assert_numeric create_lenient_engine h frame (VStr "abc")
                      (Some (NInt 0)) None None
       = Raise (mkExc ty_TypeError
                      "'<' not supported between instances of 'str' and 'int'").
Proof.
  intros h frame var_name. repeat split.
Qed.

(* ================================================================== *)
(** * Scoped configuration overrides *)
(* ================================================================== *)

Lemma config_set_config heap l c : config (set_config heap l c l) = c.
Proof. unfold set_config. now rewrite Nat.eqb_refl. Qed.


Lemma init_config_set_config heap l c l' :
  init_config (set_config heap l c l') = init_config (heap l').
Proof. unfold set_config. now destruct (Nat.eqb l' l). Qed.

(** A [with] block is the body run on the entered heap, then [__exit__]. *)
Lemma with_unfold {A} (ctx : ValidationContext)
      (body : ref -> Heap -> result A * Heap) (heap : Heap) :
  with_ ctx body heap
  = (fst (body (engine ctx) (snd (__enter__ ctx heap))),
     __exit__ ctx (snd (body (engine ctx) (snd (__enter__ ctx heap))))).
Proof.
  unfold with_, __enter__. cbn [snd].
  now destruct (body (engine ctx) _).
Qed.

Lemma validate_with_found self h frame name validator value msg kwargs :
  validators self name = Some validator ->
  _validate_with_engine self h frame name value msg kwargs
  = dispatch self h frame validator value msg kwargs.
Proof. intros Hfound. unfold _validate_with_engine. now rewrite Hfound. Qed.

(** C9. The context keeps the configuration the engine had when the
    context object was built. If the engine's configuration is replaced by
    [c'] between building the context and entering it, the block runs
    under the overrides merged over the build-time configuration, and
    leaving the block puts the build-time configuration back: [c'] is
    gone. *)
Theorem context_restores_construction_time_config :
  forall (A : Type) (heap : Heap) (l : ref) (overrides : Overrides)
         (c' : ValidationConfig) (body : ref -> Heap -> result A * Heap),
    let ctx := new_context heap l overrides in
    let replaced := set_config heap l c' in
    original_config ctx = config (heap l)
    /\ config (replaced l) = c'
    /\ config (snd (__enter__ ctx replaced) l)
       = {| strict_mode :=
              get (ov_strict_mode overrides) (strict_mode (config (heap l)));
            auto_extract_names :=
              get (ov_auto_extract_names overrides)
                  (auto_extract_names (config (heap l)));
            raise_on_failure :=
              get (ov_raise_on_failure overrides)
                  (raise_on_failure (config (heap l)));
            custom_error_class :=
              get (ov_custom_error_class overrides)
                  (custom_error_class (config (heap l))) |}
    /\ config (snd (with_ ctx body replaced) l) = config (heap l).
Proof.
  intros A heap l overrides c' body ctx replaced.
  split; [reflexivity | split; [apply config_set_config | split]].
  - unfold __enter__. cbn [snd]. subst ctx. cbn [engine new_context].
    now rewrite config_set_config.
  - rewrite with_unfold. unfold __exit__. subst ctx.
    cbn [engine original_config new_context].
    apply config_set_config.
Qed.



(* ================================================================== *)
(** * What the validators raise and what they report *)
(* ================================================================== *)

Lemma py_len_raises_TypeError v e :
  py_len v = Raise e -> exc_type e = ty_TypeError.
Proof. destruct v; simpl; intros [= <-]; reflexivity. Qed.

Lemma Path_raises_TypeError v e :
  Path v = Raise e -> exc_type e = ty_TypeError.
Proof. destruct v; simpl; intros [= <-]; reflexivity. Qed.

Lemma caught_TypeError e cs :
  exc_type e = ty_TypeError -> In ty_TypeError cs -> caught_by cs e = true.
Proof.
  intros He Hin. unfold caught_by. rewrite He.
  apply existsb_exists. exists ty_TypeError. split; [assumption | reflexivity].
Qed.


Lemma LengthValidator_message_total h v var_name kwargs :
  exists text, LengthValidator_get_error_message h v var_name kwargs = Ok text.
Proof.
  unfold LengthValidator_get_error_message.
  destruct (py_len v) as [n | e] eqn:Hlen.
  - destruct (differs n _); [eauto |].
    destruct (shorter n _); [eauto |].
    destruct (longer n _); eauto.
  - rewrite (caught_TypeError e [ty_TypeError]
               (py_len_raises_TypeError v e Hlen) (or_introl eq_refl)).
    eauto.
Qed.



Lemma PathValidator_message_total h v var_name kwargs :
  exists text, PathValidator_get_error_message h v var_name kwargs = Ok text.
Proof.
  unfold PathValidator_get_error_message.
  destruct (isinstance v ty_Path).
  - repeat match goal with
           | |- context [if ?c then _ else _] => destruct c; [eauto |]
           end.
    eauto.
  - destruct (Path v) as [p | e] eqn:Hp.
    + repeat match goal with
             | |- context [if ?c then _ else _] => destruct c; [eauto |]
             end.
      eauto.
    + rewrite (caught_TypeError e [ty_TypeError; ty_ValueError]
                 (Path_raises_TypeError v e Hp) (or_introl eq_refl)).
      eauto.
Qed.

Lemma TypeValidator_validate_total h v kwargs T :
  expected_type kwargs = Some T ->
  exists verdict, TypeValidator_validate h v kwargs = Ok verdict.
Proof.
  intros HT. unfold TypeValidator_validate. rewrite HT.
  destruct T; eauto.
Qed.

Lemma TypeValidator_message_total h v var_name kwargs T :
  expected_type kwargs = Some T ->
  exists text, TypeValidator_get_error_message h v var_name kwargs = Ok text.
Proof.
  intros HT. unfold TypeValidator_get_error_message. rewrite HT.
  destruct T; eauto.
Qed.



(* ================================================================== *)
(** * Which exceptions leave the engine *)
(* ================================================================== *)


Lemma raises_only_msg_or {A} cls (msg : option string) (text : string) :
  raises_only cls (error_msg <- msg_or msg (Ok text) ;; @raise_ A cls error_msg).
Proof. destruct msg as [[| c s] |]; reflexivity. Qed.

Lemma dispatch_raises_only self h frame validator v msg kwargs :
  (exists verdict, validate validator h v kwargs = Ok verdict) ->
  (exists text,
      get_error_message validator h v (_get_variable_name self frame) kwargs
      = Ok text) ->
  raises_only (custom_error_class (config self))
              (dispatch self h frame validator v msg kwargs).
Proof.
  intros [verdict Hv] [text Ht]. unfold dispatch. rewrite Hv, Ht.
  cbn [bind].
  destruct (negb verdict && raise_on_failure (config self));
    [apply raises_only_msg_or | exact I].
Qed.

Lemma type_dispatch_raises_only self h frame v T msg :
  raises_only (custom_error_class (config self))
              (_validate_with_engine self h frame "type" v msg
                                     (with_expected_type (Some T))).
Proof.
  rewrite validate_with_type. apply dispatch_raises_only.
  - now apply TypeValidator_validate_total with T.
  - now apply TypeValidator_message_total with T.
Qed.





(* ================================================================== *)
(** * Checks that take the value to be a number *)
(* ================================================================== *)




(* ================================================================== *)
(** * The type check comes first *)
(* ================================================================== *)

Lemma failed_type_check_raises self h frame v ts msg :
  raise_on_failure (config self) = true ->
  isinstance_any v ts = false ->
  exists e,
    _validate_with_engine self h frame "type" v msg
                          (with_expected_type (Some (TypeTuple ts)))
    = Raise e
    /\ exc_type e = custom_error_class (config self).
Proof.
  intros Hraise Hfail.
  destruct (dispatch_fail_raises self h frame
              (TypeValidator (Some (init_config self))) v msg
              (with_expected_type (Some (TypeTuple ts))) Hraise) as [e He].
  - now rewrite TypeValidator_validate_tuple, Hfail.
  - exists e. rewrite validate_with_type. split; [exact He |].
    pose proof (type_dispatch_raises_only self h frame v (TypeTuple ts) msg)
      as Honly.
    rewrite validate_with_type, He in Honly. exact Honly.
Qed.

(** X4. On an engine that raises on failure, a value of the wrong type
    fails a composite check on its type, before the second constraint is
    looked at: [assert_numeric], [assert_string_like] and
    [assert_sequence] then give exactly what [assert_type] gives for the
    same pair of classes, for every choice of bounds, and that is an
    exception of the configured class. *)
Theorem composite_checks_fail_on_the_type_first :
  forall (self : TypeValidationEngine) (h : Host) (frame : Frame)
         (v : PyValue) (msg : option string),
    raise_on_failure (config self) = true ->
    let cls := custom_error_class (config self) in
    let as_type ts :=
      assert_type self h frame v (Some (TypeTuple ts)) msg in
    (isinstance_any v [ty_int; ty_float] = false ->
     forall lo hi,
       assert_numeric self h frame v lo hi msg = as_type [ty_int; ty_float]
       /\ exists e, as_type [ty_int; ty_float] = Raise e /\ exc_type e = cls)
    /\ (isinstance_any v [ty_str; ty_bytes] = false ->
        forall lo hi,
          assert_string_like self h frame v lo hi msg
          = as_type [ty_str; ty_bytes]
          /\ exists e, as_type [ty_str; ty_bytes] = Raise e /\ exc_type e = cls)
    /\ (isinstance_any v [ty_list; ty_tuple] = false ->
        forall lo hi exact,
          assert_sequence self h frame v lo hi exact msg
          = as_type [ty_list; ty_tuple]
          /\ exists e, as_type [ty_list; ty_tuple] = Raise e
                       /\ exc_type e = cls).
Proof.
  intros self h frame v msg Hraise cls as_type.
  split; [| split]; intros Hfail; intros;
    match goal with
    | |- context [as_type ?ts] =>
        destruct (failed_type_check_raises self h frame v ts msg Hraise Hfail)
          as (e & He & Hclass)
    end;
    subst as_type; cbv beta;
    unfold assert_numeric, assert_string_like, assert_sequence, assert_type,
      _assert_with_engine;
    rewrite He; cbn [bind]; split; eauto.
Qed.

(** [assert_numeric("abc", min_val=0, max_val=10)] on the default engine
    raises the configured class for the type, not a [TypeError] for the
    comparison. *)
Lemma composite_checks_fail_on_the_type_first_witness :
  exists e,
    Assertions.assert_numeric sample_host sample_frame (VStr "abc")
                              (Some (NInt 0)) (Some (NInt 10)) None
    = Raise e
    /\ exc_type e = TypeAssertionError.
Proof.
  destruct (composite_checks_fail_on_the_type_first
              Assertions._default_engine sample_host sample_frame
              (VStr "abc") None eq_refl) as (Hnum & _ & _).
  destruct (Hnum eq_refl (Some (NInt 0)) (Some (NInt 10)))
    as (Hsame & e & He & Hclass).
  exists e. split; [| exact Hclass].
  unfold Assertions.assert_numeric. now rewrite Hsame.
Defined.

(* ================================================================== *)
(** * The subject name is cosmetic *)
(* ================================================================== *)

Lemma same_outcome_refl {A} (r : result A) : same_outcome r r.
Proof. destruct r; reflexivity. Qed.

Lemma same_outcome_bind {A B} (r1 r2 : result A) (k1 k2 : A -> result B) :
  same_outcome r1 r2 -> (forall a, same_outcome (k1 a) (k2 a)) ->
  same_outcome (bind r1 k1) (bind r2 k2).
Proof.
  destruct r1 as [a1 | e1], r2 as [a2 | e2]; simpl; try tauto.
  intros -> Hk. apply Hk.
Qed.

Lemma same_outcome_msg_or {A} cls msg (g1 g2 : result string) :
  same_status g1 g2 ->
  same_outcome (error_msg <- msg_or msg g1 ;; @raise_ A cls error_msg)
               (error_msg <- msg_or msg g2 ;; @raise_ A cls error_msg).
Proof.
  intros Hs. destruct msg as [[| c s] |]; cbn [msg_or];
    try reflexivity;
    destruct g1 as [t1 | e1], g2 as [t2 | e2]; simpl in *;
      try tauto; try reflexivity; now subst.
Qed.

Lemma validators_found self name validator :
  validators self name = Some validator ->
  validator = TypeValidator (Some (init_config self))
  \/ validator = RangeValidator (Some (init_config self))
  \/ validator = LengthValidator (Some (init_config self))
  \/ validator = PathValidator (Some (init_config self)).
Proof.
  unfold validators.
  destruct (String.eqb name "type"); [intros [= <-]; auto |].
  destruct (String.eqb name "range"); [intros [= <-]; auto |].
  destruct (String.eqb name "length"); [intros [= <-]; auto |].
  destruct (String.eqb name "path"); [intros [= <-]; auto 6 | discriminate].
Qed.

Lemma RangeValidator_message_status h v n1 n2 kwargs :
  same_status (RangeValidator_get_error_message h v n1 kwargs)
              (RangeValidator_get_error_message h v n2 kwargs).
Proof.
  unfold RangeValidator_get_error_message.
  destruct (below v (min_val kwargs)) as [[] | e]; cbn [bind];
    try exact I; try reflexivity.
  destruct (above v (max_val kwargs)) as [[] | e]; cbn [bind];
    try exact I; reflexivity.
Qed.

Lemma registry_message_status self name validator h v n1 n2 kwargs :
  validators self name = Some validator ->
  same_status (get_error_message validator h v n1 kwargs)
              (get_error_message validator h v n2 kwargs).
Proof.
  intros Hfound.
  destruct (validators_found self name validator Hfound)
    as [-> | [-> | [-> | ->]]]; cbn [get_error_message TypeValidator
                                     RangeValidator LengthValidator
                                     PathValidator].
  - unfold TypeValidator_get_error_message.
    destruct (expected_type kwargs) as [[t | ts | ts] |]; try exact I.
    reflexivity.
  - apply RangeValidator_message_status.
  - destruct (LengthValidator_message_total h v n1 kwargs) as [t1 ->].
    destruct (LengthValidator_message_total h v n2 kwargs) as [t2 ->].
    exact I.
  - destruct (PathValidator_message_total h v n1 kwargs) as [t1 ->].
    destruct (PathValidator_message_total h v n2 kwargs) as [t2 ->].
    exact I.
Qed.

Lemma validate_with_engine_same_outcome self h f1 f2 name v msg kwargs :
  same_outcome (_validate_with_engine self h f1 name v msg kwargs)
               (_validate_with_engine self h f2 name v msg kwargs).
Proof.
  unfold _validate_with_engine.
  destruct (validators self name) as [validator |] eqn:Hfound;
    [| reflexivity].
  destruct (validate validator h v kwargs) as [verdict | e]; cbn [bind];
    [| reflexivity].
  destruct (negb verdict && raise_on_failure (config self)); [| reflexivity].
  apply same_outcome_msg_or.
  now apply registry_message_status with self name.
Qed.

Lemma checked_then_same_outcome self h f1 f2 name v msg kwargs
      (k1 k2 : bool -> result PyValue) :
  (forall b, same_outcome (k1 b) (k2 b)) ->
  same_outcome
    (b <- _validate_with_engine self h f1 name v msg kwargs ;; k1 b)
    (b <- _validate_with_engine self h f2 name v msg kwargs ;; k2 b).
Proof.
  intros Hk. apply same_outcome_bind;
    [apply validate_with_engine_same_outcome | exact Hk].
Qed.

(** X5. The subject name read off the call site changes the text of a
    message and nothing else: called from two different call sites with
    the same arguments, each of the nine [assert_*] methods returns the
    same value or raises an exception of the same class, and
    [assert_path] leaves the same file system behind. *)
Theorem call_site_never_changes_the_outcome :
  forall (self : TypeValidationEngine) (h : Host) (f1 f2 : Frame)
         (v : PyValue) (msg : option string),
    (forall T, same_outcome (assert_type self h f1 v T msg)
                            (assert_type self h f2 v T msg))
    /\ same_outcome (assert_not_none self f1 v msg)
                    (assert_not_none self f2 v msg)
    /\ (forall lo hi, same_outcome (assert_numeric self h f1 v lo hi msg)
                                   (assert_numeric self h f2 v lo hi msg))
    /\ (forall lo hi, same_outcome (assert_range self h f1 v lo hi msg)
                                   (assert_range self h f2 v lo hi msg))
    /\ (forall lo hi, same_outcome (assert_length self h f1 v lo hi msg)
                                   (assert_length self h f2 v lo hi msg))
    /\ (forall lo hi, same_outcome (assert_string_like self h f1 v lo hi msg)
                                   (assert_string_like self h f2 v lo hi msg))
    /\ (forall lo hi exact,
           same_outcome (assert_sequence self h f1 v lo hi exact msg)
                        (assert_sequence self h f2 v lo hi exact msg))
    /\ (forall keys, same_outcome (assert_mapping self h f1 v keys msg)
                                  (assert_mapping self h f2 v keys msg))
    /\ (forall must_exist must_be_file must_be_dir create_parents,
           let call f := assert_path self h f v must_exist must_be_file
                                     must_be_dir create_parents msg in
           same_outcome (fst (call f1)) (fst (call f2))
           /\ snd (call f1) = snd (call f2)).
Proof.
  intros self h f1 f2 v msg.
  assert (Hassert : forall name kwargs,
             same_outcome
               (_assert_with_engine self h f1 name v msg kwargs)
               (_assert_with_engine self h f2 name v msg kwargs)).
  { intros name kwargs. unfold _assert_with_engine.
    apply checked_then_same_outcome. intros _. reflexivity. }
  assert (Hsecond : forall (c : bool) name kwargs,
             same_outcome
               (_ <- (if c
                      then _validate_with_engine self h f1 name v msg kwargs
                      else Ok true) ;; Ok v)
               (_ <- (if c
                      then _validate_with_engine self h f2 name v msg kwargs
                      else Ok true) ;; Ok v)).
  { intros c name kwargs. destruct c; [| reflexivity].
    apply checked_then_same_outcome. intros _. reflexivity. }
  repeat match goal with |- _ /\ _ => split end.
  - intros T. apply Hassert.
  - unfold assert_not_none. destruct v; try reflexivity.
    now apply same_outcome_msg_or.
  - intros lo hi. unfold assert_numeric.
    apply same_outcome_bind; [apply Hassert | intros _; apply Hsecond].
  - intros lo hi. unfold assert_range.
    apply checked_then_same_outcome. intros _. reflexivity.
  - intros lo hi. unfold assert_length.
    apply checked_then_same_outcome. intros _. reflexivity.
  - intros lo hi. unfold assert_string_like.
    apply same_outcome_bind; [apply Hassert | intros _; apply Hsecond].
  - intros lo hi exact. unfold assert_sequence.
    apply same_outcome_bind; [apply Hassert | intros _; apply Hsecond].
  - intros keys. unfold assert_mapping.
    apply same_outcome_bind; [apply Hassert | intros _].
    destruct keys as [required |]; [| reflexivity].
    destruct (missing_from v _) as [[| k1 [| k2 rest]] | e]; cbn [bind];
      try reflexivity; now apply same_outcome_msg_or.
  - intros must_exist must_be_file must_be_dir create_parents call.
    subst call. cbv beta. unfold assert_path.
    destruct (convert_for_assert v) as [p | e].
    + destruct (is_empty_text v).
      * cbn [fst snd]. split; [now apply same_outcome_msg_or | reflexivity].
      * unfold create_parent_dirs.
        destruct (create_parents && negb (path_exists h (parent_of h p))).
        -- destruct (mkdir_error h (parent_of h p)) as [text |].
           ++ destruct msg as [[| c s] |]; cbn; split; reflexivity.
           ++ cbn [fst snd]. split; [| reflexivity].
              apply checked_then_same_outcome. intros _. reflexivity.
        -- cbn [fst snd]. split; [| reflexivity].
           apply checked_then_same_outcome. intros _. reflexivity.
    + destruct (caught_by _ e); cbn [fst snd].
      * split; [now apply same_outcome_msg_or | reflexivity].
      * split; reflexivity.
Qed.

Lemma variable_name_without_extraction self frame :
  auto_extract_names (config self) = false ->
  _get_variable_name self frame = "value".
Proof. intros Hoff. unfold _get_variable_name. now rewrite Hoff. Qed.

Lemma bind_ext {A B} (r1 r2 : result A) (k1 k2 : A -> result B) :
  r1 = r2 -> (forall a, k1 a = k2 a) -> bind r1 k1 = bind r2 k2.
Proof. intros -> Hk. destruct r2; simpl; [apply Hk | reflexivity]. Qed.

Lemma validate_with_engine_without_extraction self h f1 f2 name v msg kwargs :
  auto_extract_names (config self) = false ->
  _validate_with_engine self h f1 name v msg kwargs
  = _validate_with_engine self h f2 name v msg kwargs.
Proof.
  intros Hoff. unfold _validate_with_engine.
  destruct (validators self name) as [validator |]; [| reflexivity].
  apply bind_ext; [reflexivity | intros verdict].
  now rewrite !variable_name_without_extraction by exact Hoff.
Qed.

(** X6. With [auto_extract_names] off the call site is never consulted:
    the subject of every message is the literal [value], and each of the
    nine [assert_*] methods gives the very same result, message included,
    from any two call sites; [assert_not_none(None)] then raises
    ['value' must not be None]. *)
Theorem without_extraction_the_subject_is_value :
  forall (self : TypeValidationEngine) (h : Host) (f1 f2 : Frame)
         (v : PyValue) (msg : option string),
    auto_extract_names (config self) = false ->
    _get_variable_name self f1 = "value"
    /\ assert_not_none self f1 VNone None
       = Raise (mkExc (custom_error_class (config self))
                      "'value' must not be None")
    /\ (forall T, assert_type self h f1 v T msg = assert_type self h f2 v T msg)
    /\ assert_not_none self f1 v msg = assert_not_none self f2 v msg
    /\ (forall lo hi, assert_numeric self h f1 v lo hi msg
                      = assert_numeric self h f2 v lo hi msg)
    /\ (forall lo hi, assert_range self h f1 v lo hi msg
                      = assert_range self h f2 v lo hi msg)
    /\ (forall lo hi, assert_length self h f1 v lo hi msg
                      = assert_length self h f2 v lo hi msg)
    /\ (forall lo hi, assert_string_like self h f1 v lo hi msg
                      = assert_string_like self h f2 v lo hi msg)
    /\ (forall lo hi exact, assert_sequence self h f1 v lo hi exact msg
                            = assert_sequence self h f2 v lo hi exact msg)
    /\ (forall keys, assert_mapping self h f1 v keys msg
                     = assert_mapping self h f2 v keys msg)
    /\ (forall must_exist must_be_file must_be_dir create_parents,
           assert_path self h f1 v must_exist must_be_file must_be_dir
                       create_parents msg
           = assert_path self h f2 v must_exist must_be_file must_be_dir
                         create_parents msg).
Proof.
  intros self h f1 f2 v msg Hoff.
  pose proof (variable_name_without_extraction self f1 Hoff) as Hn1.
  pose proof (variable_name_without_extraction self f2 Hoff) as Hn2.
  assert (Hv : forall name kwargs,
             _validate_with_engine self h f1 name v msg kwargs
             = _validate_with_engine self h f2 name v msg kwargs)
    by (intros; now apply validate_with_engine_without_extraction).
  repeat match goal with |- _ /\ _ => split end.
  - exact Hn1.
  - unfold assert_not_none. now rewrite Hn1.
  - intros T. unfold assert_type, _assert_with_engine. now rewrite Hv.
  - unfold assert_not_none. now rewrite Hn1, Hn2.
  - intros lo hi. unfold assert_numeric, _assert_with_engine.
    now rewrite !Hv.
  - intros lo hi. unfold assert_range. now rewrite Hv.
  - intros lo hi. unfold assert_length. now rewrite Hv.
  - intros lo hi. unfold assert_string_like, _assert_with_engine.
    now rewrite !Hv.
  - intros lo hi exact. unfold assert_sequence, _assert_with_engine.
    now rewrite !Hv.
  - intros keys. unfold assert_mapping, _assert_with_engine.
    now rewrite Hv, Hn1, Hn2.
  - intros must_exist must_be_file must_be_dir create_parents.
    unfold assert_path. rewrite Hn1, Hn2.
    destruct (convert_for_assert v) as [p | e]; [| reflexivity].
    destruct (is_empty_text v); [reflexivity |].
    destruct (create_parent_dirs self h "value" p create_parents msg)
      as [[u | e] h']; [| reflexivity].
    now rewrite (validate_with_engine_without_extraction
                   self h' f1 f2 "path" (VPath p) msg _ Hoff).
Qed.

(** An engine built with [auto_extract_names=False]:
    [assert_not_none(None)] names [value], not [age]. *)
Lemma without_extraction_the_subject_is_value_witness :
  assert_not_none (create_validation_engine true false true TypeAssertionError)
                  sample_frame VNone None
  = Raise (mkExc TypeAssertionError "'value' must not be None").
Proof.
  destruct (without_extraction_the_subject_is_value
              (create_validation_engine true false true TypeAssertionError)
              sample_host sample_frame sample_frame VNone None eq_refl)
    as (_ & Hnone & _).
  exact Hnone.
Defined.

(* ================================================================== *)
(** * assert_not_none and the two guards *)
(* ================================================================== *)

(** X7. On every engine, whatever [raise_on_failure] says,
    [assert_not_none] returns its argument unchanged iff the argument is
    not [None]: zero, [False], the empty text and the empty list all come
    back. For [None] it raises the configured class, with the caller's
    message when one is given and not empty and
    ['<name>' must not be None] otherwise. The guard [is_not_none] answers
    true on exactly the values [assert_not_none] returns. *)
Theorem assert_not_none_rejects_only_None :
  forall (self : TypeValidationEngine) (frame : Frame) (v : PyValue)
         (msg : option string),
    (assert_not_none self frame v msg = Ok v <-> v <> VNone)
    /\ (is_not_none self v = true <-> assert_not_none self frame v msg = Ok v)
    /\ assert_not_none self frame VNone msg
       = Raise (mkExc (custom_error_class (config self))
                      match msg with
                      | Some (String c s) => String c s
                      | _ => "'" ++ _get_variable_name self frame
                                 ++ "' must not be None"
                      end)
    /\ assert_not_none self frame (VInt 0) msg = Ok (VInt 0)
    /\ assert_not_none self frame (VBool false) msg = Ok (VBool false)
    /\ assert_not_none self frame (VStr "") msg = Ok (VStr "")
    /\ assert_not_none self frame (VList []) msg = Ok (VList []).
Proof.
  intros self frame v msg.
  split; [| split; [| split; [| repeat split]]].
  - destruct v; simpl; split; try congruence; try discriminate.
    destruct msg as [[| c s] |]; discriminate.
  - destruct v; simpl; split; try congruence; try discriminate.
    destruct msg as [[| c s] |]; discriminate.
  - unfold assert_not_none. destruct msg as [[| c s] |]; reflexivity.
Qed.

(** [assert_not_none(0)] on the lenient engine returns 0 and the guard
    says true. *)
Lemma assert_not_none_rejects_only_None_witness :
  assert_not_none create_lenient_engine sample_frame (VInt 0) None = Ok (VInt 0)
  /\ is_not_none create_lenient_engine (VInt 0) = true.
Proof.
  destruct (assert_not_none_rejects_only_None
              create_lenient_engine sample_frame (VInt 0) None)
    as (Hiff & Hguard & _).
  assert (Hok : assert_not_none create_lenient_engine sample_frame (VInt 0) None
                = Ok (VInt 0)) by (apply Hiff; discriminate).
  split; [exact Hok | apply Hguard; exact Hok].
Defined.

(** X8. A caller's message wins over the generated one: when a check of
    any registered validator fails on an engine that raises on failure,
    a message that is not empty is raised word for word, and the
    validator's own message is not even computed. An empty message counts
    as none: the result is the same as without a message. *)
Theorem custom_message_replaces_the_generated_one :
  forall (self : TypeValidationEngine) (h : Host) (frame : Frame)
         (name : string) (validator : BaseValidator) (v : PyValue)
         (kwargs : Kwargs) (c : ascii) (s : string),
    validators self name = Some validator ->
    _validate_with_engine self h frame name v (Some EmptyString) kwargs
    = _validate_with_engine self h frame name v None kwargs
    /\ (raise_on_failure (config self) = true ->
        validate validator h v kwargs = Ok false ->
        _validate_with_engine self h frame name v (Some (String c s)) kwargs
        = Raise (mkExc (custom_error_class (config self)) (String c s))).
Proof.
  intros self h frame name validator v kwargs c s Hfound.
  rewrite !(validate_with_found self h frame name validator v _ kwargs Hfound).
  split; [reflexivity |].
  intros Hraise Hfail. unfold dispatch. rewrite Hfail. cbn [bind negb andb].
  now rewrite Hraise.
Qed.

(** [assert_type(42, str, "age must be text")] on the default engine
    raises exactly that message. *)
Lemma custom_message_replaces_the_generated_one_witness :
  _validate_with_engine Assertions._default_engine sample_host sample_frame
                        "type" (VInt 42) (Some "age must be text")
                        (with_expected_type (Some (OneType ty_str)))
  = Raise (mkExc TypeAssertionError "age must be text").
Proof.
  destruct (custom_message_replaces_the_generated_one
              Assertions._default_engine sample_host sample_frame "type"
              (TypeValidator (Some default_config)) (VInt 42)
              (with_expected_type (Some (OneType ty_str)))
              "a"%char "ge must be text" eq_refl) as [_ Hmsg].
  exact (Hmsg eq_refl eq_refl).
Defined.

(* ================================================================== *)
(** * Lengths of sized and unsized values *)
(* ================================================================== *)





(* ================================================================== *)
(** * The message agrees with the verdict *)
(* ================================================================== *)

(** Two messages on the same subject differ as soon as what follows the
    subject differs. *)
Ltac distinct_messages H :=
  exfalso; injection H as H;
  apply append_inv_head in H; discriminate H.

Ltac fallback_case :=
  split;
  [ let H := fresh "H" in
    intros H; first [reflexivity | discriminate H | distinct_messages H]
  | let H := fresh "H" in
    intros H; first [reflexivity | discriminate H] ].

Lemma length_fallback_iff h v var_name kwargs :
  LengthValidator_get_error_message h v var_name kwargs
  = Ok (length_fallback var_name)
  <-> LengthValidator_validate h v kwargs = Ok true.
Proof.
  unfold LengthValidator_get_error_message, LengthValidator_validate,
    length_fallback.
  destruct (py_len v) as [n | e].
  - destruct (differs n (length kwargs)); [fallback_case |].
    destruct (shorter n (min_len kwargs)); [fallback_case |].
    destruct (longer n (max_len kwargs)); fallback_case.
  - destruct (caught_by [ty_TypeError] e); fallback_case.
Qed.

Lemma range_fallback_iff h v var_name kwargs :
  RangeValidator_get_error_message h v var_name kwargs
  = Ok (range_fallback var_name)
  <-> RangeValidator_validate h v kwargs = Ok true.
Proof.
  unfold RangeValidator_get_error_message, RangeValidator_validate,
    range_fallback.
  destruct (below v (min_val kwargs)) as [[] | e]; cbn [bind];
    try fallback_case.
  destruct (above v (max_val kwargs)) as [[] | e]; cbn [bind];
    fallback_case.
Qed.

Lemma path_fallback_iff_object h p var_name kwargs :
  PathValidator_get_error_message h (VPath p) var_name kwargs
  = Ok (path_fallback var_name)
  <-> PathValidator_validate h (VPath p) kwargs = Ok true.
Proof.
  unfold PathValidator_get_error_message, PathValidator_validate,
    path_fallback, path_exists, path_is_file, path_is_dir.
  change (isinstance (VPath p) ty_Path) with true.
  change (is_empty_text (VPath p)) with false.
  change (convert_for_validate (VPath p)) with (@Ok (option string) (Some p)).
  cbn [try_except path_text].
  destruct (must_exist kwargs) as [[] |], (must_be_file kwargs),
    (must_be_dir kwargs), (node h p) as [[] |];
    cbn [is_True is_False negb andb orb]; fallback_case.
Qed.

Lemma path_fallback_iff_text h s var_name kwargs :
  PathValidator_get_error_message h (VStr s) var_name kwargs
  = Ok (path_fallback var_name)
  <-> PathValidator_validate h (VStr s) kwargs = Ok true.
Proof.
  unfold PathValidator_get_error_message, PathValidator_validate,
    path_fallback, path_exists, path_is_file, path_is_dir,
    convert_for_validate.
  change (isinstance (VStr s) ty_Path) with false.
  change (isinstance_any (VStr s) [ty_str; ty_bytes]) with true.
  cbn [Path py_str bind].
  destruct (is_empty_text (VStr s)); cbn [try_except]; [fallback_case |].
  destruct (must_exist kwargs) as [[] |], (must_be_file kwargs),
    (must_be_dir kwargs), (node h s) as [[] |];
    cbn [is_True is_False negb andb orb]; fallback_case.
Qed.

(** X10. Each validator's message agrees with its verdict: the closing
    catch-all text ([has invalid length], [is out of valid range],
    [path validation failed]) is what [get_error_message] returns exactly
    when [validate] passes, so a failed check always gets a message that
    names the constraint it broke. This holds for the length and range
    validators on every value and for the path validator on texts and
    path objects. *)
Theorem catch_all_message_iff_check_passes :
  forall (h : Host) (v : PyValue) (var_name : string) (kwargs : Kwargs),
    (LengthValidator_get_error_message h v var_name kwargs
     = Ok (length_fallback var_name)
     <-> LengthValidator_validate h v kwargs = Ok true)
    /\ (RangeValidator_get_error_message h v var_name kwargs
        = Ok (range_fallback var_name)
        <-> RangeValidator_validate h v kwargs = Ok true)
    /\ (forall p,
           PathValidator_get_error_message h (VPath p) var_name kwargs
           = Ok (path_fallback var_name)
           <-> PathValidator_validate h (VPath p) kwargs = Ok true)
    /\ (forall s,
           PathValidator_get_error_message h (VStr s) var_name kwargs
           = Ok (path_fallback var_name)
           <-> PathValidator_validate h (VStr s) kwargs = Ok true).
Proof.
  intros h v var_name kwargs.
  split; [apply length_fallback_iff |].
  split; [apply range_fallback_iff |].
  split; [intros p; apply path_fallback_iff_object |].
  intros s. apply path_fallback_iff_text.
Qed.

(** A list of three items checked against [max_len=2] fails, and the
    message names the upper bound. *)
Lemma catch_all_message_iff_check_passes_witness :
  LengthValidator_validate sample_host three_items (with_length None (Some 2) None)
  = Ok false
  /\ LengthValidator_get_error_message sample_host three_items "age"
                                       (with_length None (Some 2) None)
     = Ok "'age' must have length <= 2, but got 3"
  /\ LengthValidator_get_error_message sample_host three_items "age"
                                       (with_length None (Some 2) None)
     <> Ok (length_fallback "age").
Proof.
  split; [reflexivity | split; [reflexivity |]].
  intros Hfallback.
  apply (catch_all_message_iff_check_passes
           sample_host three_items "age" (with_length None (Some 2) None))
    in Hfallback.
  discriminate Hfallback.
Defined.

(* ================================================================== *)
(** * Path checks *)
(* ================================================================== *)

Lemma PathValidator_validate_object h p exist file dir :
  PathValidator_validate h (VPath p) (with_path exist file dir)
  = Ok (match exist with
        | Some true => path_exists h p
        | Some false => negb (path_exists h p)
        | None => true
        end
        && (negb file || path_is_file h p)
        && (negb dir || path_is_dir h p)).
Proof.
  unfold PathValidator_validate, path_exists, path_is_file, path_is_dir.
  change (convert_for_validate (VPath p)) with (@Ok (option string) (Some p)).
  cbn [try_except must_exist must_be_file must_be_dir with_path].
  destruct exist as [[] |], file, dir, (node h p) as [[] |]; reflexivity.
Qed.





Lemma msg_or_raise_is_Raise {A} cls msg (text : string) (a : A) :
  (error_msg <- msg_or msg (Ok text) ;; @raise_ A cls error_msg) <> Ok a.
Proof. destruct msg as [[| c s] |]; discriminate. Qed.

Lemma create_parent_dirs_settled self h var_name p create_parents msg u h' :
  create_parent_dirs self h var_name p create_parents msg = (Ok u, h') ->
  create_parent_dirs self h' var_name p create_parents msg = (Ok tt, h').
Proof.
  unfold create_parent_dirs.
  destruct (create_parents && negb (path_exists h (parent_of h p))) eqn:Hneed.
  - destruct (mkdir_error h (parent_of h p)) as [e |].
    + intros [= Hbad _]. now apply msg_or_raise_is_Raise in Hbad.
    + intros [= _ <-].
      unfold path_exists. cbn [with_dir parent_of node].
      rewrite String.eqb_refl. now rewrite andb_false_r.
  - intros [= _ <-]. now rewrite Hneed.
Qed.

(** X12. [assert_path] is idempotent: if a call returns a path (after
    possibly creating the parent directory), the same call on that path
    returns the same path again and changes nothing more. *)
Theorem assert_path_is_idempotent :
  forall (self : TypeValidationEngine) (h h' : Host) (frame : Frame)
         (v p : PyValue) (must_exist : option bool)
         (must_be_file must_be_dir create_parents : bool)
         (msg : option string),
    assert_path self h frame v must_exist must_be_file must_be_dir
                create_parents msg
    = (Ok p, h') ->
    assert_path self h' frame p must_exist must_be_file must_be_dir
                create_parents msg
    = (Ok p, h').
Proof.
  intros self h h' frame v p must_exist must_be_file must_be_dir
         create_parents msg.
  unfold assert_path at 1.
  destruct (convert_for_assert v) as [t | e].
  - destruct (is_empty_text v).
    + intros [= Hbad _]. now apply msg_or_raise_is_Raise in Hbad.
    + destruct (create_parent_dirs self h (_get_variable_name self frame) t
                                   create_parents msg)
        as [[u | e] h1] eqn:Hdirs; [| discriminate].
      intros [= Hcall <-].
      destruct (_validate_with_engine self h1 frame "path" (VPath t) msg _)
        as [b | e] eqn:Hcheck; [| discriminate Hcall].
      injection Hcall as <-.
      unfold assert_path.
      change (convert_for_assert (VPath t)) with (@Ok string t).
      change (is_empty_text (VPath t)) with false.
      cbv iota.
      rewrite (create_parent_dirs_settled self h _ t create_parents msg u h1
                                          Hdirs).
      now rewrite Hcheck.
  - destruct (caught_by _ e); [| discriminate].
    intros [= Hbad _]. now apply msg_or_raise_is_Raise in Hbad.
Qed.

(** On the sample host [assert_path("/tmp", must_be_dir=True)] returns
    the path object, and so does the same call on that object. *)
Lemma assert_path_is_idempotent_witness :
  assert_path Assertions._default_engine sample_host sample_frame
              (VPath "/tmp") None false true false None
  = (Ok (VPath "/tmp"), sample_host).
Proof.
  apply (assert_path_is_idempotent
           Assertions._default_engine sample_host sample_host sample_frame
           (VStr "/tmp") (VPath "/tmp") None false true false None).
  reflexivity.
Defined.

(** X13. Byte strings go through [str] before they become a path, so a
    byte string that is not empty is accepted on every engine and yields
    the path whose text is its [repr], the letter [b] and the quotes
    included, not the bytes themselves; only the empty byte string is
    refused as an empty path, a byte string of blanks is not. The path
    validator, which accepts such a value, would describe it as one that
    cannot be converted. *)
Theorem assert_path_takes_bytes_by_their_repr :
  forall (self : TypeValidationEngine) (h : Host) (frame : Frame)
         (c : ascii) (s : string),
    let b := String c s in
    assert_path self h frame (VBytes b) None false false false None
    = (Ok (VPath (repr_bytes b)), h)
    /\ (exists rest, repr_bytes b = String "b" rest)
    /\ assert_path self h frame (VBytes EmptyString) None false false false None
       = (Raise (mkExc (custom_error_class (config self))
                       (empty_path_message (_get_variable_name self frame))),
          h)
    /\ PathValidator_validate h (VBytes b) no_kwargs = Ok true
    /\ exists text,
        PathValidator_get_error_message h (VBytes b) "value" no_kwargs
        = Ok (conversion_message "value" text).
Proof.
  intros self h frame c s b. subst b.
  split; [| split; [| split; [| split]]].
  - unfold assert_path.
    change (convert_for_assert (VBytes (String c s)))
      with (@Ok string (repr_bytes (String c s))).
    change (is_empty_text (VBytes (String c s))) with false.
    cbv iota. cbn [create_parent_dirs andb].
    rewrite validate_with_path, dispatch_pass; [reflexivity |].
    cbn [validate PathValidator]. rewrite PathValidator_validate_object.
    reflexivity.
  - unfold repr_bytes. eexists. reflexivity.
  - reflexivity.
  - reflexivity.
  - eexists. reflexivity.
Qed.

(* ------------------------------------------------------------------ *)
(** ** Values that are no path, and the parent directory *)






(* ================================================================== *)
(** * Contexts that are not properly nested *)
(* ================================================================== *)

(** X16. Two contexts on one engine, the second built while the first is
    entered, must be left in reverse order. Leaving the inner one first
    and then the outer one ends with the original configuration; leaving
    the outer one first puts the original back while the inner block is
    still running, and leaving the inner one afterwards installs the
    outer block's overrides for good. A context object can be entered
    again after it was left: it installs the same configuration as the
    first time. *)
Theorem contexts_must_be_left_in_reverse_order :
  forall (heap : Heap) (l : ref) (outer inner : Overrides),
    let ctx_a := new_context heap l outer in
    let entered_a := snd (__enter__ ctx_a heap) in
    let ctx_b := new_context entered_a l inner in
    let entered_b := snd (__enter__ ctx_b entered_a) in
    config (__exit__ ctx_a (__exit__ ctx_b entered_b) l) = config (heap l)
    /\ config (__exit__ ctx_a entered_b l) = config (heap l)
    /\ config (__exit__ ctx_b (__exit__ ctx_a entered_b) l)
       = merged_config ctx_a
    /\ config (snd (__enter__ ctx_a (__exit__ ctx_a entered_a)) l)
       = config (entered_a l).
Proof.
  intros heap l outer inner ctx_a entered_a ctx_b entered_b.
  unfold __exit__, __enter__ in *. subst entered_b ctx_b entered_a ctx_a.
  cbn [snd engine original_config new_context].
  now rewrite !config_set_config.
Qed.

(* ================================================================== *)
(** * The name extractor and the caller frame *)
(* ================================================================== *)

Lemma extract_dotted root attrs :
  _extract_name_from_ast_node (dotted root attrs)
  = String.concat "." (_extract_name_from_ast_node root :: attrs).
Proof.
  revert root. induction attrs as [| attr rest IH]; intros root.
  - reflexivity.
  - cbn [dotted]. rewrite IH. cbn [_extract_name_from_ast_node].
    destruct rest as [| next rest']; cbn [String.concat].
    + reflexivity.
    + now rewrite !append_assoc.
Qed.

Lemma dotted_is_attribute value attr rest :
  exists value' attr', dotted (Attribute value attr) rest = Attribute value' attr'.
Proof.
  revert value attr. induction rest as [| next rest IH]; intros value attr.
  - cbn. eauto.
  - cbn [dotted]. apply IH.
Qed.

(** X17. The extractor renders a name followed by any number of attribute
    accesses as the dotted path; a subscript is shortened to [[...]]
    whatever its index and a call to [name(...)] or [path.method(...)]
    whatever its arguments; any other expression, a call of something
    that is neither a name nor an attribute included, reads
    [expression]. *)
Theorem extractor_renders_dotted_paths :
  forall (id : string) (attrs : list string) (node : AstNode),
    _extract_name_from_ast_node (dotted (Name id) attrs)
    = String.concat "." (id :: attrs)
    /\ _extract_name_from_ast_node (Subscript (dotted (Name id) attrs))
       = String.concat "." (id :: attrs) ++ "[...]"
    /\ _extract_name_from_ast_node (Call (dotted (Name id) attrs))
       = String.concat "." (id :: attrs) ++ "(...)"
    /\ _extract_name_from_ast_node (Call (Subscript node)) = "expression"
    /\ _extract_name_from_ast_node (Call (Call node)) = "expression"
    /\ _extract_name_from_ast_node (Attribute OtherNode id) = "expression." ++ id.
Proof.
  intros id attrs node.
  pose proof (extract_dotted (Name id) attrs) as Hdot.
  cbn [_extract_name_from_ast_node] in Hdot.
  split; [exact Hdot |].
  split; [cbn [_extract_name_from_ast_node]; now rewrite Hdot |].
  split; [| repeat split].
  destruct attrs as [| attr rest]; [reflexivity |].
  rewrite <- Hdot. cbn [dotted].
  destruct (dotted_is_attribute (Name id) attr rest) as (value & last & ->).
  reflexivity.
Qed.

(** X18. Called from [_get_variable_name], as it always is,
    [_find_original_caller_frame] stops at the frame of
    [_get_variable_name] itself: that name is not among the internal
    functions it skips, so whatever lies behind, the engine's methods and
    the user's call site, is never looked at. Had the immediate callers
    all been internal, the first frame with another name would have been
    chosen. *)
Theorem caller_frame_is_the_engines_own :
  forall (callers skipped : list string) (func_name : string),
    _find_original_caller_frame ("_get_variable_name" :: callers)
    = Some "_get_variable_name"
    /\ (forallb (fun name => name_in name internal_functions) skipped = true ->
        name_in func_name internal_functions = false ->
        _find_original_caller_frame (skipped ++ func_name :: callers)%list
        = Some func_name).
Proof.
  intros callers skipped func_name. split; [reflexivity |].
  intros Hskipped Hexternal. unfold _find_original_caller_frame.
  assert (Hfirst : first_external_frame (skipped ++ func_name :: callers)%list
                   = Some func_name).
  { induction skipped as [| s rest IH]; cbn [app first_external_frame].
    - now rewrite Hexternal.
    - cbn [forallb] in Hskipped. apply andb_true_iff in Hskipped as [Hs Hrest].
      rewrite Hs. cbn [negb]. now apply IH. }
  now rewrite Hfirst.
Qed.

(** A user function [load] calling [assert_type]: the frame chosen is
    that of [_get_variable_name], although skipping the engine's own
    frames would have led to [load]. *)
Lemma caller_frame_is_the_engines_own_witness :
  _find_original_caller_frame
    ["_get_variable_name"; "_validate_with_engine"; "_assert_with_engine";
     "assert_type"; "load"]
  = Some "_get_variable_name"
  /\ _find_original_caller_frame
       ["_validate_with_engine"; "_assert_with_engine"; "assert_type"; "load"]
     = Some "load".
Proof.
  split.
  - apply (caller_frame_is_the_engines_own
             ["_validate_with_engine"; "_assert_with_engine"; "assert_type";
              "load"] [] "load").
  - apply (caller_frame_is_the_engines_own
             [] ["_validate_with_engine"; "_assert_with_engine"; "assert_type"]
             "load"); reflexivity.
Defined.

(* ================================================================== *)
(** * Batches *)
(* ================================================================== *)

Lemma add_validation_ordinary {A} (self : BatchValidator) (value : PyValue)
      (validator_func : PyValue -> result A) :
  ordinary (validator_func value) ->
  add_validation self value validator_func
  = Ok {| batch_engine := batch_engine self;
          errors := (errors self ++ failure_text (validator_func value))%list |}.
Proof.
  unfold add_validation, ordinary, caught_by.
  destruct (validator_func value) as [a | e]; cbn [failure_text existsb].
  - intros _. rewrite app_nil_r. now destruct self.
  - intros ->. reflexivity.
Qed.

(** X19. A batch turns failures into text: [add_validation] never raises
    for a call that returns or raises an exception deriving from
    [Exception]; it appends the exception's message to the errors when the
    call raised and leaves them alone when it returned. After any number
    of such calls the errors are the earlier ones followed by the messages
    of the calls that raised, in the order of the calls. An exception that
    does not derive from [Exception] is not collected: it leaves
    [add_validation] as it is. *)
Theorem batch_collects_messages_in_order :
  forall (A : Type) (self : BatchValidator)
         (calls : list (PyValue * (PyValue -> result A)))
         (value : PyValue) (validator_func : PyValue -> result A) (e : PyExc),
    (Forall (fun call => ordinary (snd call (fst call))) calls ->
     add_all self calls
     = Ok {| batch_engine := batch_engine self;
             errors := (errors self
                        ++ flat_map (fun call => failure_text (snd call (fst call)))
                                    calls)%list |})
    /\ (validator_func value = Raise e ->
        issubclass (exc_type e) ty_Exception = false ->
        add_validation self value validator_func = Raise e).
Proof.
  intros A self calls value validator_func e. split.
  - revert self. induction calls as [| [v f] rest IH]; intros self Hall.
    + cbn. rewrite app_nil_r. now destruct self.
    + inversion Hall as [| call calls' Hcall Hrest]; subst.
      cbn [add_all]. cbn [fst snd] in Hcall.
      rewrite (add_validation_ordinary self v f Hcall). cbn [bind].
      rewrite (IH _ Hrest). cbn [batch_engine errors flat_map fst snd].
      now rewrite app_assoc.
  - intros Hraise Hother. unfold add_validation, caught_by.
    rewrite Hraise. cbn [existsb]. now rewrite Hother.
Qed.

(** Three checks on the default engine, the second and third failing:
    the batch holds their two messages in that order. *)
Lemma batch_collects_messages_in_order_witness :
  add_all {| batch_engine := 0%nat; errors := [] |}
          [ (VInt 25, fun v => Assertions.assert_numeric
                                 sample_host sample_frame v None None None);
            (VNone, fun v => Assertions.assert_not_none sample_frame v None);
            (VInt 5, fun v => Assertions.assert_length
                                sample_host sample_frame v None None None) ]
  = Ok {| batch_engine := 0%nat;
          errors := [ "'age' must not be None";
                      "'age' must have a length, but got int" ] |}.
Proof.
  destruct (batch_collects_messages_in_order
              PyValue {| batch_engine := 0%nat; errors := [] |}
              [ (VInt 25, fun v => Assertions.assert_numeric
                                     sample_host sample_frame v None None None);
                (VNone, fun v => Assertions.assert_not_none sample_frame v None);
                (VInt 5, fun v => Assertions.assert_length
                                    sample_host sample_frame v None None None) ]
              VNone (fun v => Ok v) (mkExc ty_Exception "")) as [Hall _].
  rewrite Hall; [reflexivity |].
  repeat constructor.
Defined.

Lemma bullet_in_message (e : string) (errs : list string) :
  In e errs ->
  occurs_in ("  - " ++ e)
            (String.concat newline (map (fun error => "  - " ++ error) errs)).
Proof.
  intros Hin. apply occurs_in_concat.
  apply (in_map (fun error => "  - " ++ error)) in Hin. exact Hin.
Qed.

(** X20. [validate_all(raise_on_error=False)] never raises and answers
    whether no error was collected. With [raise_on_error=True] it returns
    true on an empty batch and otherwise raises the class configured on
    the batch's engine at that moment, with a message that lists every
    collected error on a line of its own; the errors stay in the batch.
    After [clear_errors] both forms return true. *)
Theorem validate_all_raises_iff_errors :
  forall (self : BatchValidator) (heap : Heap) (raise_on_error : bool),
    validate_all self heap false
    = Ok (match errors self with [] => true | _ => false end)
    /\ (errors self = [] -> validate_all self heap raise_on_error = Ok true)
    /\ (errors self <> [] ->
        exists text,
          validate_all self heap true
          = Raise (mkExc (custom_error_class
                            (config (heap (batch_engine self)))) text)
          /\ forall e, In e (errors self) -> occurs_in ("  - " ++ e) text)
    /\ validate_all (clear_errors self) heap raise_on_error = Ok true
    /\ get_errors (clear_errors self) = [].
Proof.
  intros self heap raise_on_error.
  split; [| split; [| split; [| split]]].
  - unfold validate_all. rewrite andb_false_r. now destruct (errors self).
  - intros Hempty. unfold validate_all. now rewrite Hempty.
  - intros Hsome. unfold validate_all.
    destruct (errors self) as [| e0 rest] eqn:Herrs; [congruence |].
    cbn [List.length Nat.eqb negb andb]. eexists. split; [reflexivity |].
    intros e Hin. apply occurs_in_app_r, occurs_in_app_r.
    now apply bullet_in_message.
  - reflexivity.
  - reflexivity.
Qed.

(** A batch holding two errors, on a default engine: the quiet form
    answers false and the raising form lists both. *)
Lemma validate_all_raises_iff_errors_witness :
  exists text,
    validate_all {| batch_engine := 0%nat; errors := ["first"; "second"] |}
                 default_heap true
    = Raise (mkExc TypeAssertionError text)
    /\ occurs_in "  - first" text /\ occurs_in "  - second" text.
Proof.
  destruct (validate_all_raises_iff_errors
              {| batch_engine := 0%nat; errors := ["first"; "second"] |}
              default_heap true) as (_ & _ & Hraise & _).
  destruct Hraise as (text & Hcall & Hlisted); [discriminate |].
  exists text. split; [exact Hcall |].
  split; apply Hlisted; cbn; auto.
Defined.



(* ================================================================== *)
(** * The canned numeric and text patterns *)
(* ================================================================== *)

Lemma assert_numeric_iff_in_range self h frame v n lo hi :
  raise_on_failure (config self) = true ->
  as_num v = Some n ->
  is_nan n = false -> bound_is_nan lo = false -> bound_is_nan hi = false ->
  (assert_numeric self h frame v lo hi None = Ok v <-> in_range lo hi n = true).
Proof.
  intros Hraise Hv Hn Hlo Hhi.
  destruct (assert_numeric_num self h frame v n lo hi Hraise Hv)
    as [Hpass Hfail].
  rewrite <- (in_range_iff_not_outside n lo hi Hn Hlo Hhi) in Hpass, Hfail.
  split; [| exact Hpass].
  intros Hok. destruct (in_range lo hi n); [reflexivity |].
  destruct (Hfail eq_refl) as [text Htext].
  rewrite Htext in Hok. discriminate Hok.
Qed.

Lemma threshold_le_int (z : Z) :
  num_leb (NFloat float_0_0001) (NInt z) = true <-> 1 <= z.
Proof.
  unfold num_leb, float_0_0001. cbn [num_ext ext_leb].
  rewrite Qle_bool_iff. unfold Qle, inject_Z. cbn [Qnum Qden]. lia.
Qed.

(** X22. [validate_positive_number] is [assert_numeric] with the lower
    bound 0.0001, so on an engine that raises on failure a number passes
    iff it is at least that float: an int passes iff it is at least 1,
    and a positive number below the bound, one twenty-thousandth say, is
    rejected like zero. [validate_non_negative_number] passes exactly the
    numbers from 0 on and [validate_percentage] those between 0 and 100,
    both ends included. None of this holds for NaN. *)
Theorem positive_number_means_at_least_the_threshold :
  forall (engine : option TypeValidationEngine) (h : Host) (frame : Frame)
         (v : PyValue) (n : PyNum),
    raise_on_failure (config (engine_or_new engine)) = true ->
    as_num v = Some n ->
    is_nan n = false ->
    (validate_positive_number v engine h frame = Ok v
     <-> num_leb (NFloat float_0_0001) n = true)
    /\ (forall z, n = NInt z ->
                  (validate_positive_number v engine h frame = Ok v <-> 1 <= z))
    /\ (forall q, n = NFloat (FFin q) -> (0 < q)%Q ->
                  (q < 7378697629483821 # 73786976294838206464)%Q ->
                  raises (validate_positive_number v engine h frame))
    /\ (validate_non_negative_number v engine h frame = Ok v
        <-> num_leb (NInt 0) n = true)
    /\ (validate_percentage v engine h frame = Ok v
        <-> num_leb (NInt 0) n && num_leb n (NInt 100) = true).
Proof.
  intros engine h frame v n Hraise Hv Hn.
  pose proof (fun lo hi =>
                assert_numeric_iff_in_range (engine_or_new engine) h frame
                                            v n lo hi Hraise Hv Hn) as Hspec.
  assert (Hpos : validate_positive_number v engine h frame = Ok v
                 <-> num_leb (NFloat float_0_0001) n = true).
  { unfold validate_positive_number.
    rewrite (Hspec (Some (NFloat float_0_0001)) None eq_refl eq_refl).
    unfold in_range. now rewrite andb_true_r. }
  split; [exact Hpos | split; [| split; [| split]]].
  - intros z ->. rewrite Hpos. apply threshold_le_int.
  - intros q -> Hq Hsmall.
    destruct (assert_numeric_num (engine_or_new engine) h frame v
                (NFloat (FFin q)) (Some (NFloat float_0_0001)) None Hraise Hv)
      as [_ Hfail].
    destruct Hfail as [text Htext].
    + rewrite <- (in_range_iff_not_outside (NFloat (FFin q))
                    (Some (NFloat float_0_0001)) None eq_refl eq_refl eq_refl).
      unfold in_range, num_leb, float_0_0001. cbn [num_ext ext_leb].
      rewrite andb_true_r.
      destruct (Qle_bool (7378697629483821 # 73786976294838206464) q) eqn:Hle;
        [| reflexivity].
      apply Qle_bool_iff in Hle. exfalso.
      exact (Qlt_not_le _ _ Hsmall Hle).
    + unfold validate_positive_number, raises. eauto.
  - unfold validate_non_negative_number.
    rewrite (Hspec (Some (NInt 0)) None eq_refl eq_refl).
    unfold in_range. now rewrite andb_true_r.
  - unfold validate_percentage.
    now rewrite (Hspec (Some (NInt 0)) (Some (NInt 100)) eq_refl eq_refl).
Qed.

(** With the default engine [validate_positive_number(1)] returns 1 and
    [validate_positive_number(0.00005)] raises. *)
Lemma positive_number_means_at_least_the_threshold_witness :
  validate_positive_number (VInt 1) None sample_host sample_frame = Ok (VInt 1)
  /\ raises (validate_positive_number (VFloat (FFin (1 # 20000))) None
                                      sample_host sample_frame).
Proof.
  split.
  - destruct (positive_number_means_at_least_the_threshold
                None sample_host sample_frame (VInt 1) (NInt 1)
                eq_refl eq_refl eq_refl) as (_ & Hint & _).
    apply (Hint 1 eq_refl). lia.
  - destruct (positive_number_means_at_least_the_threshold
                None sample_host sample_frame (VFloat (FFin (1 # 20000)))
                (NFloat (FFin (1 # 20000))) eq_refl eq_refl eq_refl)
      as (_ & _ & Hsmall & _).
    apply (Hsmall (1 # 20000) eq_refl); reflexivity.
Defined.

(** X23. [validate_non_empty_string] returns a text that holds something
    besides whitespace, on every engine. A text that is empty or blank
    raises the configured class with
    ['<name>' must be a non-empty string] on every engine, whatever
    [raise_on_failure] says. A value that is no text fails the type check
    on an engine that raises on failure; on one that does not, the failed
    check is passed over and an int runs into an [AttributeError] for the
    missing [strip]. *)
Theorem non_empty_string_rejects_blank_text :
  forall (engine : option TypeValidationEngine) (h : Host) (frame : Frame)
         (s : string) (v : PyValue),
    let e := engine_or_new engine in
    (whitespace_only s = false ->
     validate_non_empty_string (VStr s) engine h frame = Ok (VStr s))
    /\ (whitespace_only s = true ->
        validate_non_empty_string (VStr s) engine h frame
        = Raise (mkExc (custom_error_class (config e))
                       ("'" ++ _get_variable_name e frame
                            ++ "' must be a non-empty string")))
    /\ (raise_on_failure (config e) = true ->
        isinstance v ty_str = false ->
        exists err,
          validate_non_empty_string v engine h frame = Raise err
          /\ exc_type err = custom_error_class (config e))
    /\ (raise_on_failure (config e) = false ->
        forall z, exists err,
            validate_non_empty_string (VInt z) engine h frame = Raise err
            /\ exc_type err = ty_AttributeError).
Proof.
  intros engine h frame s v e.
  assert (Htext : forall t,
             assert_type e h frame (VStr t) (Some (OneType ty_str)) None
             = Ok (VStr t)).
  { intros t. unfold assert_type, _assert_with_engine.
    now rewrite validate_with_type, dispatch_pass by reflexivity. }
  split; [| split; [| split]].
  - intros Hs. unfold validate_non_empty_string. fold e.
    rewrite Htext. cbn [bind strips_to_nothing]. now rewrite Hs.
  - intros Hs. unfold validate_non_empty_string. fold e.
    rewrite Htext. cbn [bind strips_to_nothing]. now rewrite Hs.
  - intros Hraise Hnot.
    destruct (dispatch_fail_raises e h frame
                (TypeValidator (Some (init_config e))) v None
                (with_expected_type (Some (OneType ty_str))) Hraise)
      as [err Herr].
    + now rewrite TypeValidator_validate_one, Hnot.
    + exists err.
      pose proof (type_dispatch_raises_only e h frame v (OneType ty_str) None)
        as Honly.
      rewrite validate_with_type, Herr in Honly.
      split; [| exact Honly].
      unfold validate_non_empty_string. fold e.
      unfold assert_type, _assert_with_engine.
      now rewrite validate_with_type, Herr.
  - intros Hquiet z. eexists.
    unfold validate_non_empty_string. fold e.
    unfold assert_type, _assert_with_engine.
    rewrite validate_with_type, dispatch_quiet by exact Hquiet.
    cbn. split; reflexivity.
Qed.

(** With the default engine a text of two blanks is refused and [ab] is
    returned. *)
Lemma non_empty_string_rejects_blank_text_witness :
  validate_non_empty_string (VStr "ab") None sample_host sample_frame
  = Ok (VStr "ab")
  /\ validate_non_empty_string (VStr "  ") None sample_host sample_frame
     = Raise (mkExc TypeAssertionError "'age' must be a non-empty string").
Proof.
  destruct (non_empty_string_rejects_blank_text
              None sample_host sample_frame "ab" VNone) as (Hkeep & _).
  destruct (non_empty_string_rejects_blank_text
              None sample_host sample_frame "  " VNone) as (_ & Hblank & _).
  split; [exact (Hkeep eq_refl) | exact (Hblank eq_refl)].
Defined.

(* ================================================================== *)
(** * The parameter-checking decorator *)
(* ================================================================== *)

Lemma split_at_quote_plain (name rest : string) :
  string_existsb (Ascii.eqb squote) name = false ->
  split_at_quote (name ++ String squote rest) = Some (name, rest).
Proof.
  induction name as [| c name IH]; cbn [string_existsb append split_at_quote].
  - intros _. now rewrite Ascii.eqb_refl.
  - intros H. apply orb_false_iff in H as [Hc Hname].
    rewrite Ascii.eqb_sym, Hc. now rewrite (IH Hname).
Qed.

(** The first quoted word of a message is its subject: replacing it puts
    another name in the subject's place. *)
Lemma replace_subject (replacement name rest : string) :
  string_existsb (Ascii.eqb squote) name = false ->
  replace_first_quoted replacement
                       (String squote (name ++ String squote rest))
  = replacement ++ rest.
Proof.
  intros Hplain. unfold replace_first_quoted.
  cbn [split_at_quote]. rewrite Ascii.eqb_refl.
  now rewrite (split_at_quote_plain name rest Hplain).
Qed.

Lemma check_argument_fits engine h frame func_name type_hints name value :
  fits_hint type_hints (name, value) ->
  check_argument engine h frame func_name type_hints name value = Ok tt.
Proof.
  intros Hfits. unfold check_argument.
  destruct (hint_of name type_hints) as [hint |] eqn:Hhint; [| reflexivity].
  unfold assert_type, _assert_with_engine.
  rewrite validate_with_type, dispatch_pass; [reflexivity |].
  rewrite TypeValidator_validate_one. f_equal. now apply Hfits.
Qed.

Lemma check_arguments_fit engine h frame func_name type_hints arguments :
  Forall (fits_hint type_hints) arguments ->
  check_arguments engine h frame func_name type_hints arguments = Ok tt.
Proof.
  induction 1 as [| [name value] rest Hfits _ IH]; [reflexivity |].
  cbn [check_arguments]. now rewrite (check_argument_fits _ _ _ _ _ _ _ Hfits).
Qed.

Lemma check_arguments_app engine h frame func_name type_hints passing rest :
  Forall (fits_hint type_hints) passing ->
  check_arguments engine h frame func_name type_hints (passing ++ rest)%list
  = check_arguments engine h frame func_name type_hints rest.
Proof.
  induction 1 as [| [name value] more Hfits _ IH]; [reflexivity |].
  cbn [app check_arguments].
  now rewrite (check_argument_fits _ _ _ _ _ _ _ Hfits).
Qed.

Lemma check_arguments_quiet engine h frame func_name type_hints arguments :
  raise_on_failure (config engine) = false ->
  check_arguments engine h frame func_name type_hints arguments = Ok tt.
Proof.
  intros Hquiet. induction arguments as [| [name value] rest IH];
    [reflexivity |].
  cbn [check_arguments]. unfold check_argument.
  destruct (hint_of name type_hints) as [hint |]; [| exact IH].
  unfold assert_type, _assert_with_engine.
  rewrite validate_with_type, dispatch_quiet by exact Hquiet.
  rewrite TypeValidator_validate_one. exact IH.
Qed.

(** X24. A function wrapped by [type_checked] is called with its
    arguments when each hinted argument is an instance of its hint, and
    always when the engine's [raise_on_failure] is off, in which case
    nothing is checked. On an engine that raises on failure, the first
    argument in order that does not fit stops the call: when the
    configured class is [TypeAssertionError] or derives from it, a
    [TypeError] is raised that reads
    [In call to <func>: '<param>' must be of type '<hint>', but got
    '<type>'], the parameter's name standing where the engine had put its
    subject (a subject without a single quote); with any other configured
    class the engine's error leaves the wrapper as it is. *)
Theorem type_checked_names_the_parameter :
  forall (A : Type) (engine : option TypeValidationEngine) (h : Host)
         (frame : Frame) (func_name : string)
         (type_hints : list (string * PyType))
         (func : list (string * PyValue) -> result A)
         (passing rest : list (string * PyValue))
         (param : string) (value : PyValue) (hint : PyType),
    let e := engine_or_new engine in
    let cls := custom_error_class (config e) in
    let arguments := (passing ++ (param, value) :: rest)%list in
    let engine_message :=
      "'" ++ _get_variable_name e frame ++ "' must be of type '"
          ++ ty_name hint ++ "', but got '" ++ ty_name (type_of value) ++ "'" in
    (Forall (fits_hint type_hints) arguments ->
     type_checked engine h frame func_name type_hints func arguments
     = func arguments)
    /\ (raise_on_failure (config e) = false ->
        type_checked engine h frame func_name type_hints func arguments
        = func arguments)
    /\ (raise_on_failure (config e) = true ->
        Forall (fits_hint type_hints) passing ->
        hint_of param type_hints = Some hint ->
        isinstance value hint = false ->
        (issubclass cls TypeAssertionError = true ->
         string_existsb (Ascii.eqb squote) (_get_variable_name e frame) = false ->
         type_checked engine h frame func_name type_hints func arguments
         = Raise (mkExc ty_TypeError
                        ("In call to " ++ func_name ++ ": '" ++ param
                                       ++ "' must be of type '" ++ ty_name hint
                                       ++ "', but got '"
                                       ++ ty_name (type_of value) ++ "'")))
        /\ (issubclass cls TypeAssertionError = false ->
            type_checked engine h frame func_name type_hints func arguments
            = Raise (mkExc cls engine_message))).
Proof.
  intros A engine h frame func_name type_hints func passing rest param value
         hint e cls arguments engine_message.
  split; [| split].
  - intros Hall. unfold type_checked. fold e.
    now rewrite (check_arguments_fit e h frame func_name type_hints arguments
                                     Hall).
  - intros Hquiet. unfold type_checked. fold e.
    now rewrite (check_arguments_quiet e h frame func_name type_hints arguments
                                       Hquiet).
  - intros Hraise Hpassing Hhint Hnot.
    assert (Hengine :
              assert_type e h frame value (Some (OneType hint)) None
              = Raise (mkExc cls engine_message)).
    { unfold assert_type, _assert_with_engine. rewrite validate_with_type.
      rewrite (dispatch_fail e h frame (TypeValidator (Some (init_config e)))
                 value (with_expected_type (Some (OneType hint)))
                 engine_message Hraise).
      - reflexivity.
      - now rewrite TypeValidator_validate_one, Hnot.
      - reflexivity. }
    assert (Hstart :
              type_checked engine h frame func_name type_hints func arguments
              = (_ <- (_ <- check_argument e h frame func_name type_hints
                             param value ;;
                       check_arguments e h frame func_name type_hints rest) ;;
                 func arguments)).
    { unfold type_checked. fold e. subst arguments.
      now rewrite (check_arguments_app e h frame func_name type_hints
                                       passing _ Hpassing). }
    split.
    + intros Hclass Hplain. rewrite Hstart. unfold check_argument.
      rewrite Hhint, Hengine. unfold caught_by.
      cbn [existsb exc_type exc_msg]. fold cls. rewrite Hclass.
      cbn [orb]. subst engine_message.
      change (string_existsb (Ascii.eqb squote)
                ("'" ++ _get_variable_name e frame ++ "' must be of type '"
                     ++ ty_name hint ++ "', but got '"
                     ++ ty_name (type_of value) ++ "'"))
        with true.
      cbv iota.
      change ("'" ++ _get_variable_name e frame ++ "' must be of type '"
                  ++ ty_name hint ++ "', but got '"
                  ++ ty_name (type_of value) ++ "'")
        with (String squote
                (_get_variable_name e frame
                   ++ String squote
                        (" must be of type '" ++ ty_name hint
                           ++ "', but got '" ++ ty_name (type_of value) ++ "'"))).
      rewrite (replace_subject _ _ _ Hplain).
      unfold raise_. cbn [bind]. do 2 f_equal.
      now rewrite !append_assoc.
    + intros Hclass. rewrite Hstart. unfold check_argument.
      rewrite Hhint, Hengine. unfold caught_by.
      cbn [existsb exc_type]. fold cls. rewrite Hclass. reflexivity.
Qed.

(** [def scale(x: int, label: str)] called with [label=3] on the default
    engine: the wrapper raises a [TypeError] naming [label], and with
    [label="m"] it calls the function. *)
Lemma type_checked_names_the_parameter_witness :
  type_checked None sample_host sample_frame "scale"
               [("x", ty_int); ("label", ty_str)]
               (fun _ => Ok (VInt 0))
               [("x", VInt 2); ("label", VInt 3)]
  = Raise (mkExc ty_TypeError
                 "In call to scale: 'label' must be of type 'str', but got 'int'")
  /\ type_checked None sample_host sample_frame "scale"
                  [("x", ty_int); ("label", ty_str)]
                  (fun _ => Ok (VInt 0))
                  [("x", VInt 2); ("label", VStr "m")]
     = Ok (VInt 0).
Proof.
  split.
  - destruct (type_checked_names_the_parameter
                PyValue None sample_host sample_frame "scale"
                [("x", ty_int); ("label", ty_str)] (fun _ => Ok (VInt 0))
                [("x", VInt 2)] [] "label" (VInt 3) ty_str)
      as (_ & _ & Hbad).
    assert (Hpassing : Forall (fits_hint [("x", ty_int); ("label", ty_str)])
                              [("x", VInt 2)]).
    { constructor; [| constructor]. intros hint [= <-]. reflexivity. }
    destruct (Hbad eq_refl Hpassing eq_refl eq_refl) as [Hnamed _].
    exact (Hnamed eq_refl eq_refl).
  - destruct (type_checked_names_the_parameter
                PyValue None sample_host sample_frame "scale"
                [("x", ty_int); ("label", ty_str)] (fun _ => Ok (VInt 0))
                [("x", VInt 2)] [] "label" (VStr "m") ty_str)
      as (Hfit & _).
    apply Hfit.
    constructor; [| constructor; [| constructor]];
      intros hint [= <-]; reflexivity.
Defined.

(* ================================================================== *)
(** * Schema validation *)
(* ================================================================== *)

Lemma dict_set_keys (d : list (string * PyValue)) key value k :
  In k (map fst (dict_set d key value)) <-> k = key \/ In k (map fst d).
Proof.
  induction d as [| [k0 v0] rest IH]; cbn [dict_set map fst In].
  - intuition auto.
  - destruct (String.eqb k0 key) eqn:Hk; cbn [map fst In].
    + apply String.eqb_eq in Hk. subst k0. intuition auto.
    + rewrite IH. intuition auto.
Qed.

(** What one field does to the dict being built, for data that is a
    dict. *)
Lemma validate_field_dict engine h frame items key field_spec acc built :
  validate_field engine h frame (VDict items) key field_spec acc = Ok built ->
  (built = acc /\ is_required field_spec = false /\ has_key items key = false)
  \/ (has_key items key = false /\ is_required field_spec = false
      /\ exists d, built = dict_set acc key d)
  \/ (has_key items key = true /\ exists value, built = dict_set acc key value).
Proof.
  unfold validate_field. cbn [py_contains bind]. fold (has_key items key).
  destruct (has_key items key) eqn:Hpresent.
  - intros H. right. right. split; [reflexivity |].
    destruct (py_getitem (VDict items) key) as [v0 | e]; cbn [bind] in H;
      [| discriminate H].
    destruct (if type_given (spec_type field_spec) then _ else _)
      as [v1 | e]; cbn [bind] in H; [| discriminate H].
    destruct (match spec_validator field_spec with
              | Some check => check v1
              | None => Ok v1
              end) as [v2 | e]; cbn [bind] in H; [| discriminate H].
    injection H as <-. eauto.
  - destruct (is_required field_spec); [discriminate |].
    destruct (spec_default field_spec) as [d |].
    + destruct d; intros [= <-]; auto; right; left; eauto.
    + intros [= <-]. auto.
Qed.

Lemma validate_fields_app engine h frame data before after acc :
  validate_fields engine h frame data (before ++ after)%list acc
  = (built <- validate_fields engine h frame data before acc ;;
     validate_fields engine h frame data after built).
Proof.
  revert acc. induction before as [| [key spec] rest IH]; intros acc.
  - reflexivity.
  - cbn [app validate_fields].
    destruct (validate_field engine h frame data key spec acc) as [b | e];
      cbn [bind]; [apply IH | reflexivity].
Qed.

Lemma validate_fields_keys engine h frame items schema acc built :
  validate_fields engine h frame (VDict items) schema acc = Ok built ->
  (forall k, In k (map fst built) ->
             In k (map fst acc) \/ In k (map fst schema))
  /\ (forall k, In k (map fst acc) -> In k (map fst built))
  /\ (forall k field_spec,
         In (k, field_spec) schema -> is_required field_spec = true ->
         In k (map fst built) /\ has_key items k = true).
Proof.
  revert acc. induction schema as [| [key spec] rest IH]; intros acc.
  - cbn. intros [= <-]. repeat split; auto; contradiction.
  - cbn [validate_fields].
    destruct (validate_field engine h frame (VDict items) key spec acc)
      as [step | e] eqn:Hstep; cbn [bind]; [| discriminate].
    intros Hrest. destruct (IH step Hrest) as (Hsub & Hmono & Hreq).
    assert (Hkeys : forall k, In k (map fst step) ->
                              k = key \/ In k (map fst acc)).
    { intros k Hin.
      destruct (validate_field_dict _ _ _ _ _ _ _ _ Hstep)
        as [(-> & _) | [(_ & _ & d & ->) | (_ & v & ->)]];
        [auto | now apply dict_set_keys in Hin | now apply dict_set_keys in Hin]. }
    assert (Hkept : forall k, In k (map fst acc) -> In k (map fst step)).
    { intros k Hin.
      destruct (validate_field_dict _ _ _ _ _ _ _ _ Hstep)
        as [(-> & _) | [(_ & _ & d & ->) | (_ & v & ->)]];
        [assumption | apply dict_set_keys; auto | apply dict_set_keys; auto]. }
    split; [| split].
    + intros k Hin. cbn [map fst In].
      destruct (Hsub k Hin) as [Hstepk | Hschema]; [| auto].
      destruct (Hkeys k Hstepk); auto.
    + intros k Hin. apply Hmono, Hkept, Hin.
    + intros k field_spec [[= <- <-] | Hin] Hrequired.
      * destruct (validate_field_dict _ _ _ _ _ _ _ _ Hstep)
          as [(_ & Hopt & _) | [(_ & Hopt & _) | (Hpresent & v & ->)]];
          try congruence.
        split; [| exact Hpresent].
        apply Hmono, dict_set_keys. auto.
      * now apply Hreq with field_spec.
Qed.

Lemma assert_mapping_any_dict engine h frame items :
  assert_mapping engine h frame (VDict items) None None = Ok (VDict items).
Proof.
  unfold assert_mapping, _assert_with_engine.
  now rewrite validate_with_type, dispatch_pass by reflexivity.
Qed.

(** X25. What [validate_dict_schema] returns for a dict is a dict built
    from the schema alone: each of its keys is a key of the schema, every
    required field of the schema is among them and was present in the
    data, and in strict mode the data had no key outside the schema. *)
Theorem schema_result_holds_only_schema_keys :
  forall (engine : option TypeValidationEngine) (h : Host) (frame : Frame)
         (show_keys : list PyValue -> string)
         (items : list (PyValue * PyValue))
         (schema : list (string * FieldSpec)) (strict : bool) (out : PyValue),
    validate_dict_schema engine h frame show_keys (VDict items) schema strict
    = Ok out ->
    exists built,
      out = as_dict built
      /\ (forall k, In k (map fst built) -> In k (map fst schema))
      /\ (forall k field_spec,
             In (k, field_spec) schema -> is_required field_spec = true ->
             In k (map fst built) /\ has_key items k = true)
      /\ (strict = true ->
          forall k, In k (map fst items) -> in_schema schema k = true).
Proof.
  intros engine h frame show_keys items schema strict out.
  unfold validate_dict_schema. rewrite assert_mapping_any_dict. cbn [bind].
  destruct (validate_fields (engine_or_new engine) h frame (VDict items)
                            schema []) as [built | e] eqn:Hfields;
    cbn [bind]; [| discriminate].
  destruct (validate_fields_keys _ _ _ _ _ _ _ Hfields) as (Hsub & _ & Hreq).
  intros Hout. exists built.
  destruct strict.
  - cbn [py_keys bind] in Hout.
    destruct (extra_keys schema (map fst items)) as [| k0 more] eqn:Hextra;
      cbn [bind] in Hout; [| discriminate Hout].
    injection Hout as <-.
    split; [reflexivity | split; [| split; [exact Hreq |]]].
    + intros k Hin. destruct (Hsub k Hin) as [[] | Hs]. exact Hs.
    + intros _ k Hin.
      destruct (in_schema schema k) eqn:Hk; [reflexivity |].
      assert (Hmem : In k (extra_keys schema (map fst items))).
      { apply filter_In. split; [exact Hin | now rewrite Hk]. }
      rewrite Hextra in Hmem. contradiction.
  - cbn [bind] in Hout. injection Hout as <-.
    split; [reflexivity | split; [| split; [exact Hreq | discriminate]]].
    intros k Hin. destruct (Hsub k Hin) as [[] | Hs]. exact Hs.
Qed.

(** The user data [{"name": "Alice", "age": 30}] against a schema with
    the required field [name] and the optional field [email], not
    strict: the result holds [name] only. *)
Lemma schema_result_holds_only_schema_keys_witness :
  exists built,
    validate_dict_schema
      None sample_host sample_frame (fun _ => "[...]")
      (VDict [(VStr "name", VStr "Alice"); (VStr "age", VInt 30)])
      [ ("name", mkField (Some (OneType ty_str)) None None None);
        ("email", mkField (Some (OneType ty_str)) (Some false) None None) ]
      false
    = Ok (as_dict built)
    /\ forall k, In k (map fst built) -> In k ["name"; "email"].
Proof.
  destruct (schema_result_holds_only_schema_keys
              None sample_host sample_frame (fun _ => "[...]")
              [(VStr "name", VStr "Alice"); (VStr "age", VInt 30)]
              [ ("name", mkField (Some (OneType ty_str)) None None None);
                ("email", mkField (Some (OneType ty_str)) (Some false) None None) ]
              false (as_dict [("name", VStr "Alice")]) eq_refl)
    as (built & Hout & Hkeys & _).
  exists built. split; [now rewrite <- Hout | exact Hkeys].
Defined.

(** X26. A required field that the data lacks is reported first, by
    name: when the fields before it in the schema go through, the call
    raises the configured class with [Required field '<key>' is missing],
    on every engine, strict or not, whatever else the data holds or
    lacks further on. *)
Theorem schema_reports_the_first_missing_field :
  forall (engine : option TypeValidationEngine) (h : Host) (frame : Frame)
         (show_keys : list PyValue -> string)
         (items : list (PyValue * PyValue))
         (before after : list (string * FieldSpec))
         (key : string) (field_spec : FieldSpec) (strict : bool)
         (built : list (string * PyValue)),
    let e := engine_or_new engine in
    validate_fields e h frame (VDict items) before [] = Ok built ->
    has_key items key = false ->
    is_required field_spec = true ->
    validate_dict_schema engine h frame show_keys (VDict items)
                         (before ++ (key, field_spec) :: after)%list strict
    = Raise (mkExc (custom_error_class (config e))
                   ("Required field '" ++ key ++ "' is missing")).
Proof.
  intros engine h frame show_keys items before after key field_spec strict
         built e Hbefore Habsent Hrequired.
  unfold validate_dict_schema. fold e.
  rewrite assert_mapping_any_dict. cbn [bind].
  rewrite validate_fields_app, Hbefore. cbn [bind validate_fields].
  unfold validate_field. cbn [py_contains bind]. fold (has_key items key).
  now rewrite Habsent, Hrequired.
Qed.

(** [{"age": 30, "zip": 1}] lacks the required [name]: that is what is
    reported, in strict mode too, although [zip] is not in the schema. *)
Lemma schema_reports_the_first_missing_field_witness :
  validate_dict_schema
    None sample_host sample_frame (fun _ => "[...]")
    (VDict [(VStr "age", VInt 30); (VStr "zip", VInt 1)])
    [ ("age", mkField (Some (OneType ty_int)) None None None);
      ("name", mkField (Some (OneType ty_str)) None None None) ]
    true
  = Raise (mkExc TypeAssertionError "Required field 'name' is missing").
Proof.
  apply (schema_reports_the_first_missing_field
           None sample_host sample_frame (fun _ => "[...]")
           [(VStr "age", VInt 30); (VStr "zip", VInt 1)]
           [("age", mkField (Some (OneType ty_int)) None None None)] []
           "name" (mkField (Some (OneType ty_str)) None None None) true
           [("age", VInt 30)]); reflexivity.
Defined.


